(** * HorariosDicetours: the schedule query engine [buscar_horarios]

    A shallow embedding of [buscar_horarios] (src/Main.py, lines 43-160) and
    of the slice of Python, [datetime], [re] and pandas it runs on.

    Conventions of the model.
    - Text is ASCII: a Python [str] is a [string], [str.lower] maps A-Z to
      a-z.
    - The clock is read once: every [datetime.today()] and [datetime.now()]
      of one call answers the same instant [now].
    - A JSON number is an integer.
    - A frame carries the four store columns (Línea, Dirección, Salida,
      Llegada) as typed fields of its rows; the columns the engine adds
      (salida_datetime, llegada_datetime, diff) are listed in [derived],
      and those of them that pandas typed [object] in [object_dtype]: a
      column computed by [apply] over no row (lines 88-89).
      A cell of Línea or Dirección that holds no string is a missing
      cell; Salida and Llegada always hold a time.
    - Sorting keeps rows with equal keys in frame order.

    The file has four parts: the embedding (values, strings, regular
    expressions, [datetime], frames, the engine, the engine again over a
    heap of frame objects, and the conversation handler); the lemmas on
    lists, frames and the branches of the engine; the claims; further
    properties of the engine and of the handler. *)

From Stdlib Require Import ZArith Lia List Bool Ascii String Sorted Permutation.
From stdpp Require Import base option list sorting strings gmap.
Import ListNotations.
Local Open Scope string_scope.
Local Open Scope list_scope.
Local Open Scope Z_scope.

(** ** Python values and exceptions *)

(** What [json.loads] can put in a field of the intent. *)
#[local] Unset Elimination Schemes.
Inductive pyval :=
| VNone
| VBool (b : bool)
| VInt (n : Z)
| VStr (s : string)
| VList (l : list pyval)
| VDict (d : list (string * pyval)).
#[local] Set Elimination Schemes.

Inductive exn :=
| AttributeError
| TypeError
| ValueError
| KeyError
| re_error.

Inductive outcome (A : Type) :=
| Ret (a : A)
| Raise (e : exn).
Arguments Ret {A} a.
Arguments Raise {A} e.

#[global] Instance outcome_ret : MRet outcome := fun A a => Ret a.
#[global] Instance outcome_bind : MBind outcome := fun A B k m =>
  match m with
  | Ret a => k a
  | Raise e => Raise e
  end.

(** [bool(v)]: the truth value an [if v:] tests. *)
Definition truthy (v : pyval) : bool :=
  match v with
  | VNone => false
  | VBool b => b
  | VInt n => negb (n =? 0)
  | VStr s => negb (String.eqb s "")
  | VList l => negb (Nat.eqb (length l) 0)
  | VDict d => negb (Nat.eqb (length d) 0)
  end.

(** [v == s] for a string literal [s]. *)
Definition eq_str (v : pyval) (s : string) : bool :=
  match v with
  | VStr t => String.eqb t s
  | _ => false
  end.

(** [v is not None] *)
Definition is_not_None (v : pyval) : bool :=
  match v with
  | VNone => false
  | _ => true
  end.

(** [isinstance(v, list) and len(v) > 0] followed by [v = v[0]]
    (lines 67-70). *)
Definition first_if_list (v : pyval) : pyval :=
  match v with
  | VList (x :: _) => x
  | _ => v
  end.

(** [intent.get(k)] and [intent.get(k, d)]. *)
Definition dict_get (intent : gmap string pyval) (k : string) : pyval :=
  default VNone (intent !! k).
Definition dict_get_default (intent : gmap string pyval) (k : string)
    (d : pyval) : pyval :=
  default d (intent !! k).

(** ** Strings *)

Definition lower_char (c : ascii) : ascii :=
  let n := N_of_ascii c in
  if ((65 <=? n) && (n <=? 90))%N then ascii_of_N (n + 32) else c.

Fixpoint lower (s : string) : string :=
  match s with
  | EmptyString => EmptyString
  | String c s' => String (lower_char c) (lower s')
  end.

(** [v.lower()]: only a [str] has the method. *)
Definition py_lower (v : pyval) : outcome string :=
  match v with
  | VStr s => Ret (lower s)
  | _ => Raise AttributeError
  end.

(** [sub in s] *)
Fixpoint is_substring (sub s : string) : bool :=
  String.prefix sub s ||
  match s with
  | EmptyString => false
  | String _ s' => is_substring sub s'
  end.

(** ** Regular expressions

    [Series.str.contains(pat, na=False)] reads [pat] as a regular
    expression ([regex=True] is the default): it compiles [pat] once and
    runs [re.search] on every cell.  The model implements the patterns
    made of ordinary characters and the wildcard [.]; what [re.compile]
    does with any other pattern is the parameter [re_other] of the
    engine. *)

Inductive atom :=
| Lit (c : ascii)
| AnyChar.

Definition metachars : string := "\^$*+?{}[]|()".

Fixpoint mem_char (c : ascii) (s : string) : bool :=
  match s with
  | EmptyString => false
  | String d s' => Ascii.eqb c d || mem_char c s'
  end.

Fixpoint re_parse (pat : string) : option (list atom) :=
  match pat with
  | EmptyString => Some []
  | String c pat' =>
      if mem_char c metachars then None
      else
        match re_parse pat' with
        | Some p => Some ((if Ascii.eqb c "." then AnyChar else Lit c) :: p)
        | None => None
        end
  end.

(** [.] matches every character but the newline. *)
Definition atom_matches (a : atom) (c : ascii) : bool :=
  match a with
  | Lit d => Ascii.eqb d c
  | AnyChar => negb (Ascii.eqb c "010")
  end.

Fixpoint match_here (p : list atom) (s : string) : bool :=
  match p, s with
  | [], _ => true
  | _ :: _, EmptyString => false
  | a :: p', String c s' => atom_matches a c && match_here p' s'
  end.

Fixpoint re_search (p : list atom) (s : string) : bool :=
  match_here p s ||
  match s with
  | EmptyString => false
  | String _ s' => re_search p s'
  end.

(** ** [datetime] *)

Record time := mk_time {
  hour : Z;
  minute : Z;
  second : Z;
  microsecond : Z
}.

(** [date] is the proleptic Gregorian ordinal of the day. *)
Record datetime := mk_datetime {
  date : Z;
  clock : time
}.

Definition time_us (t : time) : Z :=
  ((hour t * 60 + minute t) * 60 + second t) * 1000000 + microsecond t.

(** Microseconds since the start of day 0.  For times whose fields are in
    range, which is all a Python [time] can hold, comparing two [datetime]
    is comparing these counts, and their difference is the [timedelta]. *)
Definition datetime_us (d : datetime) : Z :=
  date d * 86400000000 + time_us (clock d).

(** [datetime.combine(d, t)]: the date of [d] with the time of day [t]. *)
Definition combine (d : datetime) (t : time) : datetime :=
  {| date := date d; clock := t |}.

Definition dt_ltb (a b : datetime) : bool := datetime_us a <? datetime_us b.
Definition dt_leb (a b : datetime) : bool := datetime_us a <=? datetime_us b.

(** [(a - b).abs()] in microseconds. *)
Definition abs_diff (a b : datetime) : Z := Z.abs (datetime_us a - datetime_us b).

(** *** [datetime.strptime(s, '%H:%M')]

    [%H] reads one or two digits worth 0..23, [%M] one or two digits worth
    0..59, two digits being tried first; the whole string must be used
    up.  Anything else is a [ValueError]. *)

Definition digit (c : ascii) : option Z :=
  let n := N_of_ascii c in
  if ((48 <=? n) && (n <=? 57))%N then Some (Z.of_N (n - 48)) else None.

(** The number at the head of [s], of two digits when the two make a value
    of at most [bound], else of one digit, and the rest of [s]. *)
Definition read_field (bound : Z) (s : string) : option (Z * string) :=
  match s with
  | EmptyString => None
  | String c1 s1 =>
      match digit c1 with
      | None => None
      | Some d1 =>
          match s1 with
          | String c2 s2 =>
              match digit c2 with
              | Some d2 =>
                  if 10 * d1 + d2 <=? bound then Some (10 * d1 + d2, s2)
                  else Some (d1, s1)
              | None => Some (d1, s1)
              end
          | EmptyString => Some (d1, s1)
          end
      end
  end.

Definition strptime_HM (s : string) : option time :=
  match read_field 23 s with
  | Some (h, String ":" s1) =>
      match read_field 59 s1 with
      | Some (m, EmptyString) => Some (mk_time h m 0 0)
      | _ => None
      end
  | _ => None
  end.

(** [datetime.strptime(v, '%H:%M').time()] *)
Definition py_strptime (v : pyval) : outcome time :=
  match v with
  | VStr s =>
      match strptime_HM s with
      | Some t => Ret t
      | None => Raise ValueError
      end
  | _ => Raise TypeError
  end.

(** ** Frames *)

(** One row: the store's columns, then the cells of the derived columns
    ([None] where the frame has no such column). *)
Record Row := mk_Row {
  Linea : option string;
  Direccion : option string;
  Salida : time;
  Llegada : time;
  salida_datetime : option datetime;
  llegada_datetime : option datetime;
  diff : option Z
}.

(** The columns the engine sorts by, adds or drops. *)
Inductive column :=
| col_Salida
| col_salida_datetime
| col_llegada_datetime
| col_diff.

Definition column_eqb (a b : column) : bool :=
  match a, b with
  | col_Salida, col_Salida
  | col_salida_datetime, col_salida_datetime
  | col_llegada_datetime, col_llegada_datetime
  | col_diff, col_diff => true
  | _, _ => false
  end.

Fixpoint mem_column (c : column) (l : list column) : bool :=
  match l with
  | [] => false
  | d :: l' => column_eqb c d || mem_column c l'
  end.

Record DataFrame := mk_DataFrame {
  derived : list column;
  object_dtype : list column;
  rows : list Row
}.

(** [pd.DataFrame()] *)
Definition DataFrame_new : DataFrame :=
  {| derived := []; object_dtype := []; rows := [] |}.

(** [df.empty] *)
Definition empty (df : DataFrame) : bool :=
  match rows df with
  | [] => true
  | _ :: _ => false
  end.

(** [df[mask]], the mask given row by row. *)
Definition select (mask : Row -> bool) (df : DataFrame) : DataFrame :=
  {| derived := derived df; object_dtype := object_dtype df;
     rows := List.filter mask (rows df) |}.

(** [df.copy()]: the same value (in a new object, see [Obj]). *)
Definition copy (df : DataFrame) : DataFrame := df.

Definition add_column (c : column) (l : list column) : list column :=
  if mem_column c l then l else l ++ [c].

Definition remove_column (c : column) (l : list column) : list column :=
  List.filter (fun d => negb (column_eqb c d)) l.

(** The dtypes after [df[c] = df[...].apply(f)], [f] giving datetimes:
    over no row [apply] gives a column of dtype [object], over some rows
    one of dtype [datetime64]. *)
Definition applied_dtype (c : column) (df : DataFrame) : list column :=
  if empty df then add_column c (object_dtype df)
  else remove_column c (object_dtype df).

(** [df['salida_datetime'] = df['Salida'].apply(f)] and its sibling: the
    frame with the column added, or overwritten. *)
Definition set_salida_datetime (f : time -> datetime) (df : DataFrame)
    : DataFrame :=
  {| derived := add_column col_salida_datetime (derived df);
     object_dtype := applied_dtype col_salida_datetime df;
     rows := map (fun r => mk_Row (Linea r) (Direccion r) (Salida r)
                    (Llegada r) (Some (f (Salida r))) (llegada_datetime r)
                    (diff r)) (rows df) |}.

Definition set_llegada_datetime (f : time -> datetime) (df : DataFrame)
    : DataFrame :=
  {| derived := add_column col_llegada_datetime (derived df);
     object_dtype := applied_dtype col_llegada_datetime df;
     rows := map (fun r => mk_Row (Linea r) (Direccion r) (Salida r)
                    (Llegada r) (salida_datetime r) (Some (f (Llegada r)))
                    (diff r)) (rows df) |}.

(** [df['diff'] = (df['llegada_datetime'] - t).abs()]: a column of dtype
    [object] minus a [datetime] raises [TypeError], also when the column
    has no row; else the new column holds the distances, a missing cell
    staying missing. *)
Definition set_diff (t : datetime) (df : DataFrame) : outcome DataFrame :=
  if mem_column col_llegada_datetime (object_dtype df) then Raise TypeError
  else
    Ret {| derived := add_column col_diff (derived df);
           object_dtype := remove_column col_diff (object_dtype df);
           rows := map (fun r => mk_Row (Linea r) (Direccion r) (Salida r)
                          (Llegada r) (salida_datetime r) (llegada_datetime r)
                          (option_map (fun a => abs_diff a t)
                             (llegada_datetime r)))
                     (rows df) |}.

(** [df.drop(c, axis=1)] *)
Definition drop (c : column) (df : DataFrame) : outcome DataFrame :=
  if mem_column c (derived df) then
    Ret {| derived := remove_column c (derived df);
           object_dtype := remove_column c (object_dtype df);
           rows := map (fun r =>
                    match c with
                    | col_Salida => r
                    | col_salida_datetime =>
                        mk_Row (Linea r) (Direccion r) (Salida r) (Llegada r)
                          None (llegada_datetime r) (diff r)
                    | col_llegada_datetime =>
                        mk_Row (Linea r) (Direccion r) (Salida r) (Llegada r)
                          (salida_datetime r) None (diff r)
                    | col_diff =>
                        mk_Row (Linea r) (Direccion r) (Salida r) (Llegada r)
                          (salida_datetime r) (llegada_datetime r) None
                    end) (rows df) |}
  else Raise KeyError.

(** *** Sorting *)

(** The value [sort_values] orders a row by; [None] is a missing cell. *)
Definition sort_key (c : column) (r : Row) : option Z :=
  match c with
  | col_Salida => Some (time_us (Salida r))
  | col_salida_datetime => option_map datetime_us (salida_datetime r)
  | col_llegada_datetime => option_map datetime_us (llegada_datetime r)
  | col_diff => diff r
  end.

Definition has_key (c : column) (r : Row) : bool :=
  match sort_key c r with
  | Some _ => true
  | None => false
  end.

Definition key_of (c : column) (r : Row) : Z :=
  match sort_key c r with
  | Some k => k
  | None => 0
  end.

Fixpoint insert_by {A} (k : A -> Z) (x : A) (l : list A) : list A :=
  match l with
  | [] => [x]
  | y :: l' => if k x <=? k y then x :: l else y :: insert_by k x l'
  end.

(** A stable sort, ascending in [k]. *)
Definition sort_by {A} (k : A -> Z) (l : list A) : list A :=
  fold_right (insert_by k) [] l.

(** The order [sort_values] gives the rows: the rows that have a key,
    ascending, or descending by sorting the reversed rows and reversing the
    result; then the rows that have none ([na_position='last']). *)
Definition sort_rows (c : column) (ascending : bool) (l : list Row)
    : list Row :=
  let present := List.filter (has_key c) l in
  let missing := List.filter (fun r => negb (has_key c r)) l in
  (if ascending then sort_by (key_of c) present
   else rev (sort_by (key_of c) (rev present))) ++ missing.

Definition has_column (c : column) (df : DataFrame) : bool :=
  match c with
  | col_Salida => true
  | _ => mem_column c (derived df)
  end.

(** [df.sort_values(by=c, ascending=...)]: a [KeyError] when the frame has
    no column [c]. *)
Definition sort_values (c : column) (ascending : bool) (df : DataFrame)
    : outcome DataFrame :=
  if has_column c df then
    Ret {| derived := derived df; object_dtype := object_dtype df;
           rows := sort_rows c ascending (rows df) |}
  else Raise KeyError.

(** [l[:n]] *)
Definition slice_to {A} (n : Z) (l : list A) : list A :=
  if 0 <=? n then firstn (Z.to_nat n) l
  else firstn (length l - Z.to_nat (- n)) l.

(** [df.head(n)] is [df.iloc[:n]]: the slice bound must be an integer
    ([bool] is refused) or [None]. *)
Definition head (n : pyval) (df : DataFrame) : outcome DataFrame :=
  match n with
  | VInt k => Ret {| derived := derived df; object_dtype := object_dtype df;
                     rows := slice_to k (rows df) |}
  | VNone => Ret df
  | _ => Raise TypeError
  end.

(** [pd.concat([a, b])]; a column is of dtype [object] when it is in one
    of the two. *)
Definition concat (a b : DataFrame) : DataFrame :=
  {| derived := fold_right add_column (derived a) (rev (derived b));
     object_dtype :=
       fold_right add_column (object_dtype a) (rev (object_dtype b));
     rows := rows a ++ rows b |}.

(** ** The query engine *)

(** Comparisons of a datetime cell with an instant; a missing cell
    compares false. *)
Definition cell_gt (c : option datetime) (t : datetime) : bool :=
  match c with
  | Some a => dt_ltb t a
  | None => false
  end.

Definition cell_le (c : option datetime) (t : datetime) : bool :=
  match c with
  | Some a => dt_leb a t
  | None => false
  end.

Definition cell_lt (c : option datetime) (t : datetime) : bool :=
  match c with
  | Some a => dt_ltb a t
  | None => false
  end.

Definition cell_ge (c : option datetime) (t : datetime) : bool :=
  match c with
  | Some a => dt_leb t a
  | None => false
  end.

(** [df['Dirección'].str.lower() == d], row by row. *)
Definition direccion_is (d : string) (r : Row) : bool :=
  match Direccion r with
  | Some s => String.eqb (lower s) d
  | None => false
  end.

(** [df['Línea'].str.lower().str.contains(pat, na=False)], row by row,
    for the compiled pattern. *)
Definition linea_matches (contains : string -> bool) (r : Row) : bool :=
  match Linea r with
  | Some s => contains (lower s)
  | None => false
  end.

(** [try: body / except ValueError: handler] *)
Definition try_except_ValueError {A} (body handler : outcome A) : outcome A :=
  match body with
  | Raise ValueError => handler
  | _ => body
  end.

Section Engine.

(** What [re.compile] makes of a pattern outside the implemented ones:
    the test [re.search(pat, s) is not None], or the exception raised. *)
Variable re_other : string -> outcome (string -> bool).

Definition re_compile (pat : string) : outcome (string -> bool) :=
  match re_parse pat with
  | Some p => Ret (re_search p)
  | None => re_other pat
  end.

(** The count policy of the before and after branches (lines 136-141 and
    150-155). *)
Definition cercanos_policy (listado_completo cantidad : pyval)
    (cercanos : DataFrame) : outcome DataFrame :=
  if truthy listado_completo then Ret cercanos
  else if is_not_None cantidad then head cantidad cercanos
  else Ret cercanos.

(** [buscar_horarios(df, intent)] at the instant [now].  The field
    [accion] is read (line 60) and never used. *)
Definition buscar_horarios (now : datetime) (df : DataFrame)
    (intent : gmap string pyval) : outcome DataFrame :=
  if empty df then Ret DataFrame_new
  else
    let direccion := dict_get intent "direccion" in
    let hora_str := dict_get intent "hora" in
    let condicion_horario := dict_get intent "condicion_horario" in
    let cantidad := dict_get intent "cantidad" in
    let listado_completo :=
      dict_get_default intent "listado_completo" (VBool false) in
    let micro_linea := dict_get intent "micro_linea" in
    let direccion := first_if_list direccion in
    let micro_linea := first_if_list micro_linea in
    if truthy micro_linea then
      pat ← py_lower micro_linea;
      contains ← re_compile pat;
      let df_filtrado := copy (select (linea_matches contains) df) in
      df_filtrado ←
        (if truthy direccion then
           d ← py_lower direccion;
           Ret (copy (select (direccion_is d) df_filtrado))
         else Ret df_filtrado);
      sort_values col_Salida true df_filtrado
    else if negb (truthy direccion) then Ret DataFrame_new
    else
      d ← py_lower direccion;
      let df_filtrado := copy (select (direccion_is d) df) in
      let df_filtrado := set_salida_datetime (combine now) df_filtrado in
      let df_filtrado := set_llegada_datetime (combine now) df_filtrado in
      let df_filtrado :=
        select (fun r => cell_gt (salida_datetime r) now) df_filtrado in
      if eq_str hora_str "ahora" then
        proximos ← sort_values col_salida_datetime true df_filtrado;
        if truthy listado_completo then Ret proximos
        else if is_not_None cantidad then head cantidad proximos
        else head (VInt 3) proximos
      else if truthy hora_str then
        try_except_ValueError
          (t ← py_strptime hora_str;
           let hora_solicitada_dt := combine now t in
           if eq_str condicion_horario "cerca" then
             let micros_antes :=
               copy (select (fun r => cell_le (llegada_datetime r)
                                        hora_solicitada_dt) df_filtrado) in
             let micros_despues :=
               copy (select (fun r => cell_gt (llegada_datetime r)
                                        hora_solicitada_dt) df_filtrado) in
             let resultados := DataFrame_new in
             resultados ←
               (if negb (empty micros_antes) then
                  s ← sort_values col_llegada_datetime false micros_antes;
                  cercano_antes ← head (VInt 1) s;
                  Ret (concat resultados cercano_antes)
                else Ret resultados);
             resultados ←
               (if negb (empty micros_despues) then
                  s ← sort_values col_llegada_datetime true micros_despues;
                  cercano_despues ← head (VInt 1) s;
                  Ret (concat resultados cercano_despues)
                else Ret resultados);
             sort_values col_llegada_datetime true resultados
           else if eq_str condicion_horario "antes_de" then
             let cercanos :=
               copy (select (fun r => cell_lt (llegada_datetime r)
                                        hora_solicitada_dt) df_filtrado) in
             cercanos ← set_diff hora_solicitada_dt cercanos;
             s ← sort_values col_diff true cercanos;
             cercanos ← drop col_diff s;
             cercanos_policy listado_completo cantidad cercanos
           else if eq_str condicion_horario "despues_de" then
             let cercanos :=
               copy (select (fun r => cell_ge (llegada_datetime r)
                                        hora_solicitada_dt) df_filtrado) in
             cercanos ← set_diff hora_solicitada_dt cercanos;
             s ← sort_values col_diff true cercanos;
             cercanos ← drop col_diff s;
             cercanos_policy listado_completo cantidad cercanos
           else Ret DataFrame_new)
          (Ret DataFrame_new)
      else Ret DataFrame_new.

End Engine.

(** ** What a result shows *)

(** The trip of a row: its store columns. *)
Record TripRecord := mk_TripRecord {
  line : option string;
  direction : option string;
  departureTime : time;
  arrivalTime : time
}.

Definition trip_of (r : Row) : TripRecord :=
  {| line := Linea r; direction := Direccion r;
     departureTime := Salida r; arrivalTime := Llegada r |}.

(** The trips of a frame, in order. *)
Definition MatchSet (df : DataFrame) : list TripRecord :=
  map trip_of (rows df).

(** Departure and arrival instants of a trip on the day of [now]. *)
Definition departure (now : datetime) (t : TripRecord) : datetime :=
  combine now (departureTime t).
Definition arrival (now : datetime) (t : TripRecord) : datetime :=
  combine now (arrivalTime t).

Definition instant_lt (a b : datetime) : Prop := datetime_us a < datetime_us b.
Definition instant_le (a b : datetime) : Prop := datetime_us a <= datetime_us b.

(** The fields of an intent, after the list normalisation. *)
Definition lineFilter (intent : gmap string pyval) : pyval :=
  first_if_list (dict_get intent "micro_linea").
Definition direction_of (intent : gmap string pyval) : pyval :=
  first_if_list (dict_get intent "direccion").
Definition timeOfDay (intent : gmap string pyval) : pyval :=
  dict_get intent "hora".
Definition timeRelation (intent : gmap string pyval) : pyval :=
  dict_get intent "condicion_horario".
Definition requestedCount (intent : gmap string pyval) : pyval :=
  dict_get intent "cantidad".
Definition fullListing (intent : gmap string pyval) : pyval :=
  dict_get_default intent "listado_completo" (VBool false).

(** The trips of direction [d] (already in lower case) that leave after
    [now], in store order. *)
Definition not_departed (now : datetime) (r : Row) : bool :=
  dt_ltb now (combine now (Salida r)).
Definition upcoming (now : datetime) (d : string) (df : DataFrame)
    : list Row :=
  List.filter (fun r => direccion_is d r && not_departed now r) (rows df).

(** ** The engine over a store of objects

    In Python a frame is an object and a variable holds a reference to it:
    [df[mask]], [copy], [sort_values], [head], [drop] and [concat] make a
    new object, [df[c] = ...] changes the object [df] refers to.  [Obj]
    spells [buscar_horarios] out at that level: the objects live in a
    [heap], statements run in the state monad [M] over it. *)
Module Obj.

Abbreviation ref := nat (only parsing).
Abbreviation heap := (list DataFrame) (only parsing).
Definition M (A : Type) : Type := heap -> outcome A * heap.

#[global] Instance M_ret : MRet M := fun A a h => (Ret a, h).
#[global] Instance M_bind : MBind M := fun A B k m h =>
  match m h with
  | (Ret a, h') => k a h'
  | (Raise e, h') => (Raise e, h')
  end.

(** A pure step that may raise. *)
Definition lift {A} (o : outcome A) : M A := fun h => (o, h).

(** The object behind a reference. *)
Definition read (l : ref) : M DataFrame :=
  fun h =>
    (Ret match h !! l with
         | Some df => df
         | None => DataFrame_new
         end, h).

(** A new object. *)
Definition new (df : DataFrame) : M ref :=
  fun h => (Ret (length h), (h ++ [df])%list).

(** The object behind [l] changed in place. *)
Definition write (l : ref) (df : DataFrame) : M unit :=
  fun h => (Ret tt, <[l := df]> h).

Definition try_except_ValueError {A} (body handler : M A) : M A :=
  fun h =>
    match body h with
    | (Raise ValueError, h') => handler h'
    | r => r
    end.

Definition DataFrame_new : M ref := new DataFrame_new.

Definition empty (l : ref) : M bool :=
  df ← read l; mret (empty df).

Definition select (mask : Row -> bool) (l : ref) : M ref :=
  df ← read l; new (select mask df).

Definition copy (l : ref) : M ref :=
  df ← read l; new (copy df).

Definition set_salida_datetime (f : time -> datetime) (l : ref) : M unit :=
  df ← read l; write l (set_salida_datetime f df).

Definition set_llegada_datetime (f : time -> datetime) (l : ref) : M unit :=
  df ← read l; write l (set_llegada_datetime f df).

Definition set_diff (t : datetime) (l : ref) : M unit :=
  df ← read l; df' ← lift (set_diff t df); write l df'.

Definition drop (c : column) (l : ref) : M ref :=
  df ← read l; df' ← lift (drop c df); new df'.

Definition sort_values (c : column) (ascending : bool) (l : ref) : M ref :=
  df ← read l; df' ← lift (sort_values c ascending df); new df'.

(** [head] answers a new frame object (a view of the rows of [l]). *)
Definition head (n : pyval) (l : ref) : M ref :=
  df ← read l; df' ← lift (head n df); new df'.

Definition concat (a b : ref) : M ref :=
  x ← read a; y ← read b; new (concat x y).

Section Engine.

Variable re_other : string -> outcome (string -> bool).

Definition cercanos_policy (listado_completo cantidad : pyval)
    (cercanos : ref) : M ref :=
  if truthy listado_completo then mret cercanos
  else if is_not_None cantidad then head cantidad cercanos
  else mret cercanos.

Definition buscar_horarios (now : datetime) (df : ref)
    (intent : gmap string pyval) : M ref :=
  e ← empty df;
  if e : bool then DataFrame_new
  else
    let direccion := dict_get intent "direccion" in
    let hora_str := dict_get intent "hora" in
    let condicion_horario := dict_get intent "condicion_horario" in
    let cantidad := dict_get intent "cantidad" in
    let listado_completo :=
      dict_get_default intent "listado_completo" (VBool false) in
    let micro_linea := dict_get intent "micro_linea" in
    let direccion := first_if_list direccion in
    let micro_linea := first_if_list micro_linea in
    if truthy micro_linea then
      pat ← lift (py_lower micro_linea);
      contains ← lift (re_compile re_other pat);
      s ← select (linea_matches contains) df;
      df_filtrado ← copy s;
      df_filtrado ←
        (if truthy direccion then
           d ← lift (py_lower direccion);
           s ← select (direccion_is d) df_filtrado;
           copy s
         else mret df_filtrado);
      sort_values col_Salida true df_filtrado
    else if negb (truthy direccion) then DataFrame_new
    else
      d ← lift (py_lower direccion);
      s ← select (direccion_is d) df;
      df_filtrado ← copy s;
      _ ← set_salida_datetime (combine now) df_filtrado;
      _ ← set_llegada_datetime (combine now) df_filtrado;
      df_filtrado ←
        select (fun r => cell_gt (salida_datetime r) now) df_filtrado;
      if eq_str hora_str "ahora" then
        proximos ← sort_values col_salida_datetime true df_filtrado;
        if truthy listado_completo then mret proximos
        else if is_not_None cantidad then head cantidad proximos
        else head (VInt 3) proximos
      else if truthy hora_str then
        try_except_ValueError
          (t ← lift (py_strptime hora_str);
           let hora_solicitada_dt := combine now t in
           if eq_str condicion_horario "cerca" then
             s ← select (fun r => cell_le (llegada_datetime r)
                                    hora_solicitada_dt) df_filtrado;
             micros_antes ← copy s;
             s ← select (fun r => cell_gt (llegada_datetime r)
                                    hora_solicitada_dt) df_filtrado;
             micros_despues ← copy s;
             resultados ← DataFrame_new;
             e ← empty micros_antes;
             resultados ←
               (if negb e then
                  s ← sort_values col_llegada_datetime false micros_antes;
                  cercano_antes ← head (VInt 1) s;
                  concat resultados cercano_antes
                else mret resultados);
             e ← empty micros_despues;
             resultados ←
               (if negb e then
                  s ← sort_values col_llegada_datetime true micros_despues;
                  cercano_despues ← head (VInt 1) s;
                  concat resultados cercano_despues
                else mret resultados);
             sort_values col_llegada_datetime true resultados
           else if eq_str condicion_horario "antes_de" then
             s ← select (fun r => cell_lt (llegada_datetime r)
                                    hora_solicitada_dt) df_filtrado;
             cercanos ← copy s;
             _ ← set_diff hora_solicitada_dt cercanos;
             s ← sort_values col_diff true cercanos;
             cercanos ← drop col_diff s;
             cercanos_policy listado_completo cantidad cercanos
           else if eq_str condicion_horario "despues_de" then
             s ← select (fun r => cell_ge (llegada_datetime r)
                                    hora_solicitada_dt) df_filtrado;
             cercanos ← copy s;
             _ ← set_diff hora_solicitada_dt cercanos;
             s ← sort_values col_diff true cercanos;
             cercanos ← drop col_diff s;
             cercanos_policy listado_completo cantidad cercanos
           else DataFrame_new)
          DataFrame_new
      else DataFrame_new.

End Engine.

End Obj.

(** ** The conversation handler

    [handle_message] (lines 169-247) and the helpers it inlines.  What it
    cannot decide itself is a parameter: the language model
    ([chat.send_message] and [response.text]) and [json.loads].  Strings
    are the UTF-8 bytes of the text.  What the handler sends is the list
    of its [event]s; a reply that is sent is taken to arrive, and logging
    is left out. *)

Definition nl : string := String "010" EmptyString.

(** The replies (lines 174, 202, 213, 221, 244, 247). *)
Definition msg_no_table : string :=
  "Lo siento, no pude cargar la tabla de horarios. Por favor, revisa el archivo de Excel.".
Definition msg_ai_problem : string :=
  "Lo siento, hubo un problema al comunicarme con la IA. Por favor, intenta de nuevo.".
Definition msg_not_understood : string :=
  "Lo siento, no entendí tu solicitud. Por favor, sé más específico.".
Definition msg_no_results : string :=
  "No se encontraron micros que se ajusten a tu búsqueda. Intenta con otra hora o modifica tu solicitud.".
Definition msg_invalid_ai : string :=
  "Lo siento, la IA no devolvió una respuesta válida. Por favor, intenta con otra frase.".
Definition msg_internal_error : string :=
  "Lo siento, hubo un error al procesar tu solicitud. Por favor, intenta de nuevo más tarde.".

(** The headers of a listing (lines 227, 229, 231). *)
Definition header_ida : string :=
  "Acá están los horarios que encontré: Rivadavia -> Facultad" +:+ nl +:+ nl.
Definition header_vuelta : string :=
  "Acá están los horarios que encontré: Facultad -> Rivadavia" +:+ nl +:+ nl.
Definition header_generic : string :=
  "Aquí están los horarios que encontré:" +:+ nl +:+ nl.

(** The prompt (lines 180-195). *)
Definition prompt_of (user_message : string) : string :=
  "Analiza la siguiente solicitud para encontrar un micro. Si " +:+
  "el usuario quiere ir 'a la facultad', la 'Dirección' es " +:+
  "'Ida'. Si quiere ir 'a Rivadavia', la 'Dirección' es " +:+
  "'Vuelta'. Si quiere 'irse de la facultad', la 'Dirección' " +:+
  "es 'Vuelta'. Extrae la 'Hora' (ej. '15:30'). Si dice 'ya', " +:+
  "la hora es 'ahora'. Si quiere llegar a una hora, la " +:+
  "'acción' es 'llegar'; si quiere salir, la 'acción' es " +:+
  "'salir'. Si menciona una línea de micro (ej. 'ruta 60'), " +:+
  "extráela y ponla en 'micro_linea'. Determina la " +:+
  "'condicion_horario' para la hora: 'cerca' (si dice " +:+
  "'alrededor de', 'a las'), 'antes_de' (si dice 'antes de') " +:+
  "o 'despues_de' (si dice 'después de'). Si no se " +:+
  "especifica, se puede dejar nulo. Si pide una cantidad " +:+
  "específica, extráela y ponla en 'cantidad'. Si pide 'un " +:+
  "listado de todos', establece 'listado_completo' en true. " +:+
  "Devuelve el resultado en formato JSON: {'direccion': 'Ida' " +:+
  "o 'Vuelta' o null, 'hora': 'HH:MM' o 'ahora' o null, " +:+
  "'accion': 'llegar' o 'salir' o null, 'micro_linea': " +:+
  "[nombre de la línea] o null, 'condicion_horario': 'cerca' " +:+
  "o 'antes_de' o 'despues_de' o null, 'cantidad': [número] o " +:+
  "null, 'listado_completo': [true o false]}Si la solicitud " +:+
  "no es clara, devuelve el siguiente JSON: {'error': " +:+
  "'no_claro'}." +:+
  nl +:+ nl +:+ "Solicitud: '" +:+ user_message +:+ "'".

(** [re.search(r'\{.*?\}', text, re.DOTALL)] (line 205): from the first
    opening brace to the first closing brace after it. *)
Fixpoint upto_brace (s : string) : option string :=
  match s with
  | EmptyString => None
  | String c s' =>
      if Ascii.eqb c "}" then Some (String c EmptyString)
      else option_map (String c) (upto_brace s')
  end.

Fixpoint extract_json (text : string) : option string :=
  match text with
  | EmptyString => None
  | String c s' =>
      if Ascii.eqb c "{" then option_map (String c) (upto_brace s')
      else extract_json s'
  end.

(** [s.replace('\xa0', ' ')] (line 209): in UTF-8 the no-break space is
    the two bytes 194, 160. *)
Fixpoint replace_nbsp (s : string) : string :=
  match s with
  | EmptyString => EmptyString
  | String c s' =>
      match s' with
      | String c' s'' =>
          if Ascii.eqb c "194" && Ascii.eqb c' "160"
          then String " " (replace_nbsp s'')
          else String c (replace_nbsp s')
      | EmptyString => String c EmptyString
      end
  end.

(** [t.strftime('%H:%M')] (lines 235-236): two digits each. *)
Definition digit_char (d : Z) : ascii := ascii_of_N (48 + Z.to_N d).

Definition two_digits (n : Z) : string :=
  String (digit_char (n / 10)) (String (digit_char (n mod 10)) EmptyString).

Definition strftime_HM (t : time) : string :=
  two_digits (hour t) +:+ ":" +:+ two_digits (minute t).

(** [str(row['Línea'])]: a missing cell prints as nan. *)
Definition cell_text (c : option string) : string :=
  match c with
  | Some s => s
  | None => "nan"
  end.

(** One trip of the listing (lines 235-239). *)
Definition format_row (r : Row) : string :=
  "🚍 Línea **" +:+ cell_text (Linea r) +:+ "**" +:+ nl +:+
  "   ➡️ Sale a las `" +:+ strftime_HM (Salida r) +:+ "`" +:+ nl +:+
  "   ➡️ Llega a las `" +:+ strftime_HM (Llegada r) +:+ "`" +:+ nl +:+ nl.

(** The header of the listing (lines 224-231); [direccion] is read as the
    resolver gave it. *)
Definition header_text (intent : gmap string pyval) : outcome string :=
  let direccion_viaje := dict_get intent "direccion" in
  if truthy direccion_viaje then
    l ← py_lower direccion_viaje;
    if String.eqb l "ida" then Ret header_ida
    else if String.eqb l "vuelta" then Ret header_vuelta
    else Ret header_generic
  else Ret header_generic.

(** Lines 233-239: the header, then the trips in order. *)
Definition format_listing (header : string) (horarios : DataFrame) : string :=
  fold_left (fun respuesta_bot r => respuesta_bot +:+ format_row r)
    (rows horarios) header.

(** What the handler does to the outside. *)
Inductive event :=
| Ask (prompt : string)
| Reply (text : string) (markdown : bool).

(** What the language model gives for a prompt: an exception, a response
    that is falsy or has no text, or the text of the response. *)
Inductive service :=
| ServiceError
| NoText
| Text (s : string).

(** The two handlers of the [try] (lines 242 and 245). *)
Inductive handled :=
| JSONDecodeError
| OtherException.

(** ['error' in intent] *)
Definition has_error (intent : gmap string pyval) : bool :=
  match intent !! "error" with
  | Some _ => true
  | None => false
  end.

Section Handler.

Variable re_other : string -> outcome (string -> bool).

(** [chat.send_message(prompt)] with [response.text]. *)
Variable gemini : string -> service.

(** [json.loads] of a text that opens with a brace: the object, or
    [None] for [JSONDecodeError]. *)
Variable json_loads : string -> option (gmap string pyval).

(** Lines 205-240: what is sent, and the exception that leaves the [try]
    block, if any. *)
Definition process_response (now : datetime) (df : DataFrame)
    (response_text : string) : list event * option handled :=
  match extract_json response_text with
  | None => ([], Some JSONDecodeError)
  | Some json_match =>
      match json_loads (replace_nbsp json_match) with
      | None => ([], Some JSONDecodeError)
      | Some intent =>
          if has_error intent ||
             (negb (truthy (dict_get intent "direccion")) &&
              negb (truthy (dict_get intent "micro_linea")))
          then ([Reply msg_not_understood false], None)
          else
            match buscar_horarios re_other now df intent with
            | Raise _ => ([], Some OtherException)
            | Ret horarios_disponibles =>
                if empty horarios_disponibles
                then ([Reply msg_no_results false], None)
                else
                  match header_text intent with
                  | Raise _ => ([], Some OtherException)
                  | Ret header =>
                      ([Reply (format_listing header horarios_disponibles)
                          true], None)
                  end
            end
      end
  end.

(** [handle_message] for the message [user_message] at the instant
    [now], [df] being the table loaded at start. *)
Definition handle_message (now : datetime) (df : DataFrame)
    (user_message : string) : list event :=
  if empty df then [Reply msg_no_table false]
  else
    let prompt := prompt_of user_message in
    let '(sent, raised) :=
      match gemini prompt with
      | ServiceError => ([], Some OtherException)
      | NoText => ([Reply msg_ai_problem false], None)
      | Text response_text =>
          if negb (truthy (VStr response_text))
          then ([Reply msg_ai_problem false], None)
          else process_response now df response_text
      end in
    Ask prompt :: sent ++
      match raised with
      | None => []
      | Some JSONDecodeError => [Reply msg_invalid_ai false]
      | Some OtherException => [Reply msg_internal_error false]
      end.

End Handler.

(** ** Sample data

    The store of the scenarios of the specification, used to run the
    engine on concrete inputs. *)

Definition hm (h m : Z) : time := mk_time h m 0 0.

Definition trip (l d : string) (s a : time) : Row :=
  mk_Row (Some l) (Some d) s a None None None.

Definition store (l : list Row) : DataFrame :=
  {| derived := []; object_dtype := []; rows := l |}.

Definition at_time (h m : Z) : datetime := mk_datetime 739558 (hm h m).

Definition intent_of (l : list (string * pyval)) : gmap string pyval :=
  list_to_map l.

(** An [re.compile] that refuses every pattern outside the implemented
    ones; the sample intents have none. *)
Definition no_other : string -> outcome (string -> bool) :=
  fun _ => Raise re_error.

Definition sample_store : DataFrame :=
  store [ trip "Ruta 60" "Ida" (hm 14 50) (hm 15 20);
          trip "Ruta 12" "Ida" (hm 15 10) (hm 15 40);
          trip "Ruta 60" "Ida" (hm 15 30) (hm 16 0);
          trip "Ruta 60" "Vuelta" (hm 17 0) (hm 17 30) ].

(** A store with no trip back. *)
Definition store_ida : DataFrame :=
  store [ trip "Ruta 60" "Ida" (hm 14 50) (hm 15 20);
          trip "Ruta 12" "Ida" (hm 15 10) (hm 15 40);
          trip "Ruta 60" "Ida" (hm 15 30) (hm 16 0) ].

(** The intents of the examples. *)
Definition intent_near : gmap string pyval :=
  intent_of [("direccion", VStr "Ida"); ("hora", VStr "15:25");
             ("condicion_horario", VStr "cerca")].

Definition intent_now : gmap string pyval :=
  intent_of [("direccion", VStr "Ida"); ("hora", VStr "ahora")].

Definition intent_before : gmap string pyval :=
  intent_of [("direccion", VStr "Ida"); ("hora", VStr "15:45");
             ("condicion_horario", VStr "antes_de")].

Definition intent_vuelta_before : gmap string pyval :=
  intent_of [("direccion", VStr "Vuelta"); ("hora", VStr "15:45");
             ("condicion_horario", VStr "antes_de")].


Definition intent_line : gmap string pyval :=
  intent_of [("micro_linea", VList [VStr "Ruta 60"]); ("hora", VStr "ahora")].

Definition intent_line_count : gmap string pyval :=
  intent_of [("micro_linea", VList [VStr "Ruta 60"]); ("cantidad", VInt 1)].

(** ** The vocabulary of the statements *)

(** Ordering by a key. *)
Definition key_le {A} (k : A -> Z) (a b : A) : Prop := k a <= k b.
Definition key_ge {A} (k : A -> Z) (a b : A) : Prop := k b <= k a.

(** A row with the two instants filled in for the day of [now]
    (lines 88-89). *)
Definition with_instants (now : datetime) (r : Row) : Row :=
  mk_Row (Linea r) (Direccion r) (Salida r) (Llegada r)
    (Some (combine now (Salida r))) (Some (combine now (Llegada r))) (diff r).

(** The frame the time branches start from (lines 85-90). *)
Definition df_filtrado (now : datetime) (d : string) (df : DataFrame)
    : DataFrame :=
  select (fun r => cell_gt (salida_datetime r) now)
    (set_llegada_datetime (combine now)
       (set_salida_datetime (combine now)
          (copy (select (direccion_is d) df)))).
#[global] Arguments df_filtrado : simpl never.

(** Some row of the frame has the direction [d] (line 85 selects a row). *)
Definition has_direction (d : string) (df : DataFrame) : bool :=
  negb (empty (select (direccion_is d) df)).

(** The trips of a list of rows that arrive before, from, by or after the
    instant [T], and how close to [T] a trip arrives. *)
Definition arrives_before (now T : datetime) (r : Row) : bool :=
  dt_ltb (combine now (Llegada r)) T.
Definition arrives_from (now T : datetime) (r : Row) : bool :=
  dt_leb T (combine now (Llegada r)).
Definition arrives_by (now T : datetime) (r : Row) : bool :=
  dt_leb (combine now (Llegada r)) T.
Definition arrives_after (now T : datetime) (r : Row) : bool :=
  dt_ltb T (combine now (Llegada r)).
Definition closeness (now T : datetime) (r : Row) : Z :=
  abs_diff (combine now (Llegada r)) T.

(** The arrival instant of a row, in microseconds. *)
Definition arrival_us (now : datetime) (r : Row) : Z :=
  datetime_us (combine now (Llegada r)).

(** The rows the "cerca" branch keeps out of the upcoming rows [U]: the
    last to arrive by [T], then the first to arrive after [T]. *)
Definition near_rows (now T : datetime) (U : list Row) : list Row :=
  firstn 1 (rev (sort_by (arrival_us now)
                   (rev (List.filter (arrives_by now T) U)))) ++
  firstn 1 (sort_by (arrival_us now) (List.filter (arrives_after now T) U)).

(** The trips of the "ahora" branch before the count policy. *)
Definition proximos_of (now : datetime) (d : string) (df : DataFrame)
    : list TripRecord :=
  map trip_of
    (sort_by (fun r => datetime_us (combine now (Salida r)))
       (map (with_instants now) (upcoming now (lower d) df))).

(** A pattern with no regular-expression syntax in it. *)
Definition plain_char (c : ascii) : bool :=
  negb (mem_char c metachars) && negb (Ascii.eqb c ".").

Fixpoint plain (s : string) : bool :=
  match s with
  | EmptyString => true
  | String c s' => plain_char c && plain s'
  end.

Fixpoint lits (s : string) : list atom :=
  match s with
  | EmptyString => []
  | String c s' => Lit c :: lits s'
  end.

(** [Línea] contains [sub], case folded; a missing cell does not. *)
Definition linea_contains (sub : string) (r : Row) : bool :=
  match Linea r with
  | Some l => is_substring sub (lower l)
  | None => false
  end.

(** Two intents ask the same question when they agree on the line filter,
    the direction, the time of day and the time relation. *)
Definition same_query (i1 i2 : gmap string pyval) : Prop :=
  dict_get i2 "micro_linea" = dict_get i1 "micro_linea" /\
  dict_get i2 "direccion" = dict_get i1 "direccion" /\
  dict_get i2 "hora" = dict_get i1 "hora" /\
  dict_get i2 "condicion_horario" = dict_get i1 "condicion_horario".

(** A field the engine calls [.lower()] or [strptime] on is safe when it
    is a string or is not truthy; a count is safe when it is an integer or
    [None]. *)
Definition str_or_falsy (v : pyval) : bool :=
  match v with
  | VStr _ => true
  | _ => negb (truthy v)
  end.

Definition int_or_None (v : pyval) : bool :=
  match v with
  | VInt _ | VNone => true
  | _ => false
  end.

(** *** Heaps

    [keeps n P m]: run in a heap of at least [n] objects, [m] leaves the
    first [n] as they are, and what it answers satisfies [P]. *)
Definition keeps (n : nat) {A} (P : A -> Prop) (m : Obj.M A) : Prop :=
  forall h, (n <= length h)%nat ->
    take n (m h).2 = take n h /\
    (n <= length (m h).2)%nat /\
    forall a, (m h).1 = Ret a -> P a.

Definition fresh (n : nat) (l : Obj.ref) : Prop := (n <= l)%nat.
Definition any {A} (a : A) : Prop := True.

(** [wp m H Q]: the outcome and the heap of [m] run in [H] satisfy [Q]. *)
Definition wp {A} (m : Obj.M A) (H : list DataFrame)
    (Q : outcome A -> list DataFrame -> Prop) : Prop :=
  Q (m H).1 (m H).2.

(** What the engine makes of the fields [direccion] and [micro_linea]: the
    first element of a list, and a string in lower case (lines 67-70, 74
    and 78, 85). *)
Definition folded (v : pyval) : pyval :=
  match first_if_list v with
  | VStr s => VStr (lower s)
  | w => w
  end.

(** Two intents the engine cannot tell apart: the same direction and line
    filter once folded, and the same four other fields. *)
Definition same_reading (i1 i2 : gmap string pyval) : Prop :=
  folded (dict_get i1 "direccion") = folded (dict_get i2 "direccion") /\
  folded (dict_get i1 "micro_linea") = folded (dict_get i2 "micro_linea") /\
  dict_get i1 "hora" = dict_get i2 "hora" /\
  dict_get i1 "condicion_horario" = dict_get i2 "condicion_horario" /\
  dict_get i1 "cantidad" = dict_get i2 "cantidad" /\
  dict_get_default i1 "listado_completo" (VBool false) =
    dict_get_default i2 "listado_completo" (VBool false).

(** The check behind the round trip of a printed time. *)
Definition round_trip_ok (h m : nat) : bool :=
  match strptime_HM (strftime_HM (hm (Z.of_nat h) (Z.of_nat m))) with
  | Some t =>
      (hour t =? Z.of_nat h) && (minute t =? Z.of_nat m) &&
      (second t =? 0) && (microsecond t =? 0)
  | None => false
  end.

(** ** Sample conversations

    Responses of the language model as it gives them, an object inside a
    fenced block, and a [json.loads] that knows these objects. *)
Definition dq : string := String "034" EmptyString.

Definition json_str (s : string) : string := dq +:+ s +:+ dq.

Definition fenced (object : string) : string :=
  "```json" +:+ nl +:+ object +:+ nl +:+ "```".

Definition json_near : string :=
  "{" +:+ json_str "direccion" +:+ ": " +:+ json_str "Ida" +:+ ", " +:+
  json_str "hora" +:+ ": " +:+ json_str "15:25" +:+ ", " +:+
  json_str "condicion_horario" +:+ ": " +:+ json_str "cerca" +:+ "}".

Definition json_bad_time : string :=
  "{" +:+ json_str "direccion" +:+ ": " +:+ json_str "Ida" +:+ ", " +:+
  json_str "hora" +:+ ": " +:+ json_str "25:00" +:+ "}".

Definition json_list_direction : string :=
  "{" +:+ json_str "direccion" +:+ ": [" +:+ json_str "Ida" +:+ "], " +:+
  json_str "hora" +:+ ": " +:+ json_str "ahora" +:+ "}".

Definition intent_bad_time : gmap string pyval :=
  intent_of [("direccion", VStr "Ida"); ("hora", VStr "25:00")].

Definition intent_list_direction : gmap string pyval :=
  intent_of [("direccion", VList [VStr "Ida"]); ("hora", VStr "ahora")].

Definition sample_json_loads (s : string) : option (gmap string pyval) :=
  if String.eqb s json_near then Some intent_near
  else if String.eqb s json_bad_time then Some intent_bad_time
  else if String.eqb s json_list_direction then Some intent_list_direction
  else None.

Definition answers (object : string) : string -> service :=
  fun _ => Text (fenced object).

(** The language model answers [msg] with a text that holds an object
    which [json.loads] reads as [intent] (lines 198-210). *)
Definition resolves_to (gemini : string -> service)
    (json_loads : string -> option (gmap string pyval))
    (msg : string) (intent : gmap string pyval) : Prop :=
  exists r j,
    gemini (prompt_of msg) = Text r /\
    extract_json r = Some j /\
    json_loads (replace_nbsp j) = Some intent.

(** * Lists and sorting *)

Section Sorting.

Context {A : Type} (k : A -> Z).

Lemma insert_by_Permutation x l : Permutation (insert_by k x l) (x :: l).
Proof.
  induction l as [|y l IH]; simpl.
  - apply Permutation_refl.
  - destruct (k x <=? k y).
    + apply Permutation_refl.
    + eapply Permutation_trans.
      * apply perm_skip. exact IH.
      * apply perm_swap.
Qed.

Lemma sort_by_Permutation l : Permutation (sort_by k l) l.
Proof.
  induction l as [|x l IH]; simpl.
  - apply Permutation_refl.
  - eapply Permutation_trans.
    + apply insert_by_Permutation.
    + apply perm_skip. exact IH.
Qed.

Lemma insert_by_In x y l : In y (insert_by k x l) <-> y = x \/ In y l.
Proof.
  split; intros H.
  - apply (Permutation_in _ (insert_by_Permutation x l)) in H.
    destruct H as [H|H]; auto.
  - apply (Permutation_in _ (Permutation_sym (insert_by_Permutation x l))).
    destruct H as [H|H]; [left; auto | right; auto].
Qed.

Lemma sort_by_In y l : In y (sort_by k l) <-> In y l.
Proof.
  split; apply Permutation_in;
    [ | apply Permutation_sym ]; apply sort_by_Permutation.
Qed.

Lemma insert_by_sorted x l :
  StronglySorted (key_le k) l -> StronglySorted (key_le k) (insert_by k x l).
Proof.
  induction l as [|y l IH]; simpl; intros Hs.
  - constructor; constructor.
  - destruct (Z.leb_spec (k x) (k y)) as [Hxy|Hxy].
    + constructor; [exact Hs|].
      apply StronglySorted_inv in Hs. destruct Hs as [_ Hy].
      constructor; [exact Hxy|].
      rewrite List.Forall_forall in Hy |- *. intros z Hz.
      specialize (Hy z Hz). unfold key_le in *. lia.
    + apply StronglySorted_inv in Hs. destruct Hs as [Hs Hy].
      constructor; [auto|].
      apply List.Forall_forall. intros z Hz. apply insert_by_In in Hz.
      destruct Hz as [->|Hz].
      * unfold key_le; lia.
      * rewrite List.Forall_forall in Hy. auto.
Qed.

Lemma sort_by_sorted l : StronglySorted (key_le k) (sort_by k l).
Proof.
  induction l as [|x l IH]; simpl.
  - constructor.
  - apply insert_by_sorted. exact IH.
Qed.

Lemma StronglySorted_rev_key l :
  StronglySorted (key_le k) l -> StronglySorted (key_ge k) (rev l).
Proof.
  induction l as [|x l IH]; simpl; intros Hs.
  - constructor.
  - apply StronglySorted_inv in Hs. destruct Hs as [Hs Hx].
    apply StronglySorted_app_2; auto.
    + intros a b Ha Hb. apply list_elem_of_In in Ha, Hb.
      destruct Hb as [<-|[]]. apply in_rev in Ha.
      rewrite List.Forall_forall in Hx. apply Hx. exact Ha.
    + constructor; constructor.
Qed.

End Sorting.

Lemma insert_by_ext {A} (k k' : A -> Z) x l :
  k x = k' x -> (forall y, In y l -> k y = k' y) ->
  insert_by k x l = insert_by k' x l.
Proof.
  intros Hx. induction l as [|y l IH]; simpl; intros H; [reflexivity|].
  rewrite Hx, (H y) by auto. destruct (k' x <=? k' y); [reflexivity|].
  f_equal. apply IH. auto.
Qed.

Lemma sort_by_ext {A} (k k' : A -> Z) l :
  (forall y, In y l -> k y = k' y) -> sort_by k l = sort_by k' l.
Proof.
  induction l as [|x l IH]; simpl; intros H; [reflexivity|].
  rewrite IH by auto. apply insert_by_ext; [auto|].
  intros y Hy. apply sort_by_In in Hy. auto.
Qed.

Lemma In_firstn {A} (x : A) n l : In x (firstn n l) -> In x l.
Proof.
  revert l. induction n as [|n IH]; intros [|y l]; simpl; try tauto.
  intros [H|H]; auto.
Qed.

Lemma StronglySorted_firstn {A} (R : A -> A -> Prop) n l :
  StronglySorted R l -> StronglySorted R (firstn n l).
Proof.
  revert l. induction n as [|n IH]; intros [|x l] Hs; simpl; try constructor.
  - apply IH. apply StronglySorted_inv in Hs. tauto.
  - apply StronglySorted_inv in Hs. destruct Hs as [_ Hx].
    apply List.Forall_forall. intros y Hy. rewrite List.Forall_forall in Hx.
    apply Hx. eapply In_firstn. exact Hy.
Qed.

Lemma StronglySorted_map {A B} (f : A -> B) (R : B -> B -> Prop) l :
  StronglySorted (fun a b => R (f a) (f b)) l -> StronglySorted R (map f l).
Proof.
  induction 1 as [|x l Hs IH Hx]; simpl; constructor; auto.
  apply List.Forall_forall. intros y Hy. apply in_map_iff in Hy.
  destruct Hy as (z & <- & Hz). rewrite List.Forall_forall in Hx. auto.
Qed.

(** * Frames *)

Lemma empty_rows df : empty df = true -> rows df = [].
Proof. unfold empty. destruct (rows df); [reflexivity|discriminate]. Qed.

Lemma filter_map_comm {A B} (f : A -> B) (p : B -> bool) (l : list A) :
  List.filter p (map f l) = map f (List.filter (fun x => p (f x)) l).
Proof.
  induction l as [|x l IH]; simpl; [reflexivity|].
  destruct (p (f x)); simpl; rewrite IH; reflexivity.
Qed.

Lemma filter_filter {A} (p q : A -> bool) (l : list A) :
  List.filter p (List.filter q l) = List.filter (fun x => q x && p x) l.
Proof.
  induction l as [|x l IH]; simpl; [reflexivity|].
  destruct (q x); simpl; [destruct (p x)|]; simpl; rewrite IH; reflexivity.
Qed.

Lemma df_filtrado_rows now d df :
  rows (df_filtrado now d df) = map (with_instants now) (upcoming now d df).
Proof.
  unfold df_filtrado, upcoming, copy, select, set_llegada_datetime,
    set_salida_datetime. simpl.
  rewrite map_map, filter_map_comm, filter_filter. simpl.
  reflexivity.
Qed.

Lemma mem_column_add c c' l :
  mem_column c (add_column c' l) = mem_column c l || column_eqb c c'.
Proof.
  unfold add_column. destruct (mem_column c' l) eqn:E.
  - destruct (column_eqb c c') eqn:Ec; [|rewrite orb_false_r; reflexivity].
    destruct c, c'; try discriminate; rewrite E; reflexivity.
  - induction l as [|x l IH]; simpl.
    + rewrite orb_false_r. reflexivity.
    + simpl in E. apply orb_false_iff in E. destruct E as [_ E].
      rewrite IH by exact E. rewrite orb_assoc. reflexivity.
Qed.

Lemma mem_column_remove c l : mem_column c (remove_column c l) = false.
Proof.
  unfold remove_column. induction l as [|x l IH]; simpl; [reflexivity|].
  destruct (column_eqb c x) eqn:E; simpl; [exact IH|].
  rewrite E, IH. reflexivity.
Qed.

(** The dtype of [llegada_datetime] in the frame of line 90: [object]
    exactly when no row of the store has the direction. *)
Lemma df_filtrado_object now d df :
  mem_column col_llegada_datetime (object_dtype (df_filtrado now d df)) =
    negb (has_direction d df).
Proof.
  unfold df_filtrado, has_direction, select, copy, set_llegada_datetime,
    set_salida_datetime, applied_dtype, empty.
  cbn [object_dtype rows].
  destruct (List.filter (direccion_is d) (rows df)); cbn [map negb].
  - rewrite mem_column_add. apply orb_true_r.
  - apply mem_column_remove.
Qed.

Lemma has_direction_not_empty d df :
  has_direction d df = true -> empty df = false.
Proof.
  unfold has_direction, select, empty. cbn [rows].
  destruct (rows df); [discriminate|reflexivity].
Qed.

Lemma df_filtrado_has_salida now d df :
  has_column col_salida_datetime (df_filtrado now d df) = true.
Proof.
  unfold df_filtrado, has_column. simpl. rewrite !mem_column_add. simpl.
  rewrite orb_true_r. reflexivity.
Qed.

Lemma df_filtrado_has_llegada now d df :
  has_column col_llegada_datetime (df_filtrado now d df) = true.
Proof.
  unfold df_filtrado, has_column. simpl. rewrite !mem_column_add. simpl.
  rewrite orb_true_r. reflexivity.
Qed.

Lemma trip_of_with_instants now r : trip_of (with_instants now r) = trip_of r.
Proof. reflexivity. Qed.

Lemma MatchSet_df_filtrado now d df :
  MatchSet (df_filtrado now d df) = map trip_of (upcoming now d df).
Proof.
  unfold MatchSet. rewrite df_filtrado_rows, map_map. reflexivity.
Qed.

(** Sorting by a column on rows that all have the cell. *)
Lemma sort_rows_present c asc (k : Row -> Z) l :
  (forall r, In r l -> sort_key c r = Some (k r)) ->
  sort_rows c asc l =
    if asc then sort_by k l else rev (sort_by k (rev l)).
Proof.
  intros H. unfold sort_rows.
  assert (Hp : List.filter (has_key c) l = l).
  { clear -H. induction l as [|x l IH]; simpl; [reflexivity|].
    unfold has_key at 1. rewrite (H x) by (left; reflexivity).
    f_equal. apply IH. intros; apply H; right; assumption. }
  assert (Hm : List.filter (fun r => negb (has_key c r)) l = []).
  { clear -H. induction l as [|x l IH]; simpl; [reflexivity|].
    unfold has_key at 1. rewrite (H x) by (left; reflexivity). simpl.
    apply IH. intros; apply H; right; assumption. }
  rewrite Hp, Hm, app_nil_r.
  assert (Hk : forall r, In r l -> key_of c r = k r).
  { intros r Hr. unfold key_of. rewrite (H r Hr). reflexivity. }
  destruct asc.
  - apply sort_by_ext. exact Hk.
  - f_equal. apply sort_by_ext. intros r Hr. apply Hk.
    apply in_rev. exact Hr.
Qed.

Lemma sort_rows_Permutation c asc l : Permutation (sort_rows c asc l) l.
Proof.
  unfold sort_rows.
  set (p := List.filter (has_key c) l).
  set (m := List.filter (fun r => negb (has_key c r)) l).
  assert (Hpm : Permutation (p ++ m) l).
  { subst p m. clear. induction l as [|x l IH]; simpl; [constructor|].
    destruct (has_key c x); simpl.
    - apply perm_skip. exact IH.
    - eapply Permutation_trans; [apply Permutation_sym, Permutation_middle|].
      apply perm_skip. exact IH. }
  eapply Permutation_trans; [|exact Hpm].
  apply Permutation_app_tail.
  destruct asc.
  - apply sort_by_Permutation.
  - eapply Permutation_trans; [apply Permutation_sym, Permutation_rev|].
    eapply Permutation_trans; [apply sort_by_Permutation|].
    apply Permutation_sym, Permutation_rev.
Qed.

Lemma sort_values_rows c asc df res :
  sort_values c asc df = Ret res ->
  rows res = sort_rows c asc (rows df) /\ derived res = derived df.
Proof.
  unfold sort_values. destruct (has_column c df); [|discriminate].
  intros [= <-]. split; reflexivity.
Qed.

Lemma slice_to_In {A} (x : A) n l : In x (slice_to n l) -> In x l.
Proof. unfold slice_to. destruct (0 <=? n); apply In_firstn. Qed.

Lemma head_rows n df res :
  head n df = Ret res -> forall r, In r (rows res) -> In r (rows df).
Proof.
  destruct n; simpl; try discriminate; intros [= <-]; simpl; auto.
  intros r. apply slice_to_In.
Qed.

Lemma insert_by_map {A B} (f : A -> B) (k : B -> Z) x l :
  insert_by k (f x) (map f l) = map f (insert_by (fun a => k (f a)) x l).
Proof.
  induction l as [|y l IH]; simpl; [reflexivity|].
  destruct (k (f x) <=? k (f y)); simpl; [reflexivity|].
  rewrite IH. reflexivity.
Qed.

Lemma sort_by_map {A B} (f : A -> B) (k : B -> Z) l :
  sort_by k (map f l) = map f (sort_by (fun a => k (f a)) l).
Proof.
  induction l as [|x l IH]; simpl; [reflexivity|].
  rewrite IH. apply insert_by_map.
Qed.

Lemma head_firstn n df res :
  head n df = Ret res -> exists m, rows res = firstn m (rows df).
Proof.
  destruct n; simpl; try discriminate; intros [= <-]; simpl.
  - exists (length (rows df)). symmetry. apply firstn_all.
  - unfold slice_to. destruct (0 <=? n); eexists; reflexivity.
Qed.

Lemma head_not_ValueError n df : head n df <> Raise ValueError.
Proof. destruct n; simpl; discriminate. Qed.

Lemma mem_column_fold_add c acc l :
  mem_column c (fold_right add_column acc l) =
    mem_column c acc || mem_column c l.
Proof.
  induction l as [|x l IH]; simpl.
  - rewrite orb_false_r. reflexivity.
  - rewrite mem_column_add, IH.
    destruct (mem_column c acc), (column_eqb c x), (mem_column c l);
      reflexivity.
Qed.

Lemma mem_column_rev c l : mem_column c (rev l) = mem_column c l.
Proof.
  induction l as [|x l IH]; simpl; [reflexivity|].
  assert (H : forall a b, mem_column c (a ++ b) =
                            mem_column c a || mem_column c b).
  { clear. intros a b. induction a as [|y a IHa]; simpl; [reflexivity|].
    rewrite IHa, orb_assoc. reflexivity. }
  rewrite H, IH. simpl. rewrite orb_false_r. apply orb_comm.
Qed.

Lemma sort_by_sorted_id {A} (k : A -> Z) l :
  StronglySorted (key_le k) l -> sort_by k l = l.
Proof.
  induction 1 as [|x l Hs IH Hx]; simpl; [reflexivity|].
  rewrite IH. destruct l as [|y l]; simpl; [reflexivity|].
  inversion Hx as [|? ? Hxy _]; subst. unfold key_le in Hxy.
  destruct (Z.leb_spec (k x) (k y)); [reflexivity|lia].
Qed.

Lemma firstn_1_cases {A} (l : list A) :
  (l = [] /\ firstn 1 l = []) \/ (exists x l', l = x :: l' /\ firstn 1 l = [x]).
Proof.
  destruct l as [|x l]; [left; split; reflexivity|].
  right. exists x, l. split; reflexivity.
Qed.

(** The first row of a descending sort arrives last, the first row of an
    ascending sort arrives first. *)
Lemma firstn_1_max {A} (k : A -> Z) l x :
  firstn 1 (rev (sort_by k (rev l))) = [x] ->
  In x l /\ forall y, In y l -> k y <= k x.
Proof.
  intros H.
  pose proof (StronglySorted_rev_key k _ (sort_by_sorted k (rev l))) as Hs.
  assert (Hin : forall y, In y (rev (sort_by k (rev l))) <-> In y l).
  { intros y. rewrite <- in_rev, sort_by_In, <- in_rev. reflexivity. }
  destruct (rev (sort_by k (rev l))) as [|z l'] eqn:E; [discriminate H|].
  injection H as ->. split.
  - apply Hin. left. reflexivity.
  - intros y Hy. apply Hin in Hy. apply StronglySorted_inv in Hs.
    destruct Hs as [_ Hx]. destruct Hy as [<-|Hy]; [lia|].
    rewrite List.Forall_forall in Hx. apply (Hx y Hy).
Qed.

Lemma firstn_1_min {A} (k : A -> Z) l x :
  firstn 1 (sort_by k l) = [x] ->
  In x l /\ forall y, In y l -> k x <= k y.
Proof.
  intros H. pose proof (sort_by_sorted k l) as Hs.
  assert (Hin : forall y, In y (sort_by k l) <-> In y l)
    by (intros y; apply sort_by_In).
  destruct (sort_by k l) as [|z l'] eqn:E; [discriminate H|].
  injection H as ->. split.
  - apply Hin. left. reflexivity.
  - intros y Hy. apply Hin in Hy. apply StronglySorted_inv in Hs.
    destruct Hs as [_ Hx]. destruct Hy as [<-|Hy]; [lia|].
    rewrite List.Forall_forall in Hx. apply (Hx y Hy).
Qed.

Lemma firstn_1_nil_sorted {A} (k : A -> Z) l :
  firstn 1 (sort_by k l) = [] -> l = [].
Proof.
  intros H. destruct (sort_by k l) as [|z l'] eqn:E; [|discriminate H].
  apply Permutation_nil. rewrite <- E. apply sort_by_Permutation.
Qed.

Lemma firstn_1_nil_rev_sorted {A} (k : A -> Z) l :
  firstn 1 (rev (sort_by k (rev l))) = [] -> l = [].
Proof.
  intros H.
  destruct (rev (sort_by k (rev l))) as [|z l'] eqn:E; [|discriminate H].
  apply Permutation_nil. rewrite <- E.
  eapply Permutation_trans; [apply Permutation_sym, Permutation_rev|].
  eapply Permutation_trans; [apply sort_by_Permutation|].
  apply Permutation_sym, Permutation_rev.
Qed.

Lemma near_rows_sorted now T U :
  StronglySorted (key_le (arrival_us now)) (near_rows now T U).
Proof.
  unfold near_rows.
  set (B := rev (sort_by _ (rev (List.filter (arrives_by now T) U)))).
  set (A := sort_by _ (List.filter (arrives_after now T) U)).
  assert (HB : forall b, In b (firstn 1 B) -> arrives_by now T b = true).
  { intros b Hb. apply In_firstn in Hb. subst B.
    apply in_rev, sort_by_In, in_rev in Hb. apply filter_In in Hb. tauto. }
  assert (HA : forall a, In a (firstn 1 A) -> arrives_after now T a = true).
  { intros a Ha. apply In_firstn in Ha. subst A.
    apply sort_by_In in Ha. apply filter_In in Ha. tauto. }
  assert (H1 : forall l : list Row,
             StronglySorted (key_le (arrival_us now)) (firstn 1 l)).
  { intros l. destruct (firstn_1_cases l) as [[_ ->]|(x & l' & _ & ->)];
      repeat constructor. }
  apply StronglySorted_app_2; auto.
  intros b a Hb Ha. apply list_elem_of_In in Hb, Ha.
  apply HB in Hb. apply HA in Ha.
  unfold arrives_by, arrives_after, dt_leb, dt_ltb in *.
  unfold key_le, arrival_us. lia.
Qed.

(** One step of lines 118-125: the nearest row of [X], if [X] has rows,
    appended to [acc]. *)
Lemma near_step asc (X acc : DataFrame) :
  has_column col_llegada_datetime X = true ->
  (if negb (empty X) then
     s ← sort_values col_llegada_datetime asc X;
     c ← head (VInt 1) s;
     Ret (concat acc c)
   else Ret acc) =
  Ret (if empty X then acc
       else concat acc
              {| derived := derived X; object_dtype := object_dtype X;
                 rows := firstn 1 (sort_rows col_llegada_datetime asc
                                     (rows X)) |}).
Proof.
  intros H. destruct (empty X); [reflexivity|].
  cbn [negb]. unfold sort_values. rewrite H. reflexivity.
Qed.

(** The frame [resultados] after the two steps, for the two halves [MA]
    and [MD]. *)
Lemma near_result_frame (MA MD : DataFrame) :
  has_column col_llegada_datetime MA = true ->
  has_column col_llegada_datetime MD = true ->
  let R1 :=
    if empty MA then DataFrame_new
    else concat DataFrame_new
           {| derived := derived MA; object_dtype := object_dtype MA;
              rows := firstn 1 (sort_rows col_llegada_datetime false
                                  (rows MA)) |} in
  let R2 :=
    if empty MD then R1
    else concat R1
           {| derived := derived MD; object_dtype := object_dtype MD;
              rows := firstn 1 (sort_rows col_llegada_datetime true
                                  (rows MD)) |} in
  rows R2 =
    (firstn 1 (sort_rows col_llegada_datetime false (rows MA)) ++
     firstn 1 (sort_rows col_llegada_datetime true (rows MD)))%list /\
  has_column col_llegada_datetime R2 = negb (empty MA && empty MD).
Proof.
  intros HA HD. cbv zeta. unfold has_column in *.
  assert (Hnil : forall asc, firstn 1 (sort_rows col_llegada_datetime asc []) = [])
    by (intros []; reflexivity).
  destruct (empty MA) eqn:EA, (empty MD) eqn:ED; cbn [andb negb];
    try rewrite !(empty_rows _ EA); try rewrite !(empty_rows _ ED);
    unfold concat; cbn [rows derived DataFrame_new];
    rewrite ?Hnil, ?app_nil_r;
    rewrite ?mem_column_fold_add, ?mem_column_rev, ?HA, ?HD, ?orb_true_r;
    split; reflexivity.
Qed.

(** * The branches of the engine *)

Ltac unfold_fields :=
  unfold lineFilter, direction_of, timeOfDay, timeRelation, requestedCount,
    fullListing in *.

Lemma truthy_VStr s : s <> "" -> truthy (VStr s) = true.
Proof.
  intros H. simpl. destruct (String.eqb_spec s ""); [contradiction|reflexivity].
Qed.

Lemma upcoming_empty now d df : empty df = true -> upcoming now d df = [].
Proof. intros H. unfold upcoming. rewrite (empty_rows _ H). reflexivity. Qed.

Lemma try_except_policy fl rc c :
  try_except_ValueError (cercanos_policy fl rc c) (Ret DataFrame_new) =
    cercanos_policy fl rc c.
Proof.
  unfold cercanos_policy. destruct (truthy fl); [reflexivity|].
  destruct rc; reflexivity.
Qed.

Section Branches.

Variable re_other : string -> outcome (string -> bool).
Variable now : datetime.
Variable df : DataFrame.
Variable intent : gmap string pyval.
Variable d : string.
Hypothesis Hdf : empty df = false.
Hypothesis Hline : truthy (lineFilter intent) = false.
Hypothesis Hdir : direction_of intent = VStr d.
Hypothesis Hd : truthy (VStr d) = true.

(** The "now" branch (lines 93-101). *)
Lemma buscar_ahora :
  timeOfDay intent = VStr "ahora" ->
  buscar_horarios re_other now df intent =
    (proximos ← sort_values col_salida_datetime true
                  (df_filtrado now (lower d) df);
     if truthy (fullListing intent) then Ret proximos
     else if is_not_None (requestedCount intent)
          then head (requestedCount intent) proximos
          else head (VInt 3) proximos).
Proof.
  intros Hh. unfold buscar_horarios. unfold_fields.
  rewrite Hdf, Hline, Hdir, Hh, Hd. reflexivity.
Qed.

(** The rows of the "now" branch before the count policy: the upcoming
    trips in ascending order of departure. *)
Lemma sort_salida_df_filtrado :
  sort_values col_salida_datetime true (df_filtrado now (lower d) df) =
    Ret {| derived := derived (df_filtrado now (lower d) df);
           object_dtype := object_dtype (df_filtrado now (lower d) df);
           rows := sort_by (fun r => datetime_us (combine now (Salida r)))
                     (map (with_instants now) (upcoming now (lower d) df)) |}.
Proof.
  unfold sort_values. rewrite df_filtrado_has_salida. f_equal. f_equal.
  rewrite df_filtrado_rows.
  rewrite (sort_rows_present col_salida_datetime true
             (fun r => datetime_us (combine now (Salida r)))); [reflexivity|].
  intros r Hr. apply in_map_iff in Hr. destruct Hr as (r0 & <- & _).
  reflexivity.
Qed.

(** No time of day (line 160). *)
Lemma buscar_no_time :
  eq_str (timeOfDay intent) "ahora" = false ->
  truthy (timeOfDay intent) = false ->
  buscar_horarios re_other now df intent = Ret DataFrame_new.
Proof.
  intros H1 H2. unfold buscar_horarios. unfold_fields.
  rewrite Hdf, Hline, Hdir, Hd, H1, H2. reflexivity.
Qed.

(** A time of day that is not a string: [strptime] raises [TypeError],
    which the handler of line 157 lets through. *)
Lemma buscar_time_TypeError :
  truthy (timeOfDay intent) = true ->
  (forall s, timeOfDay intent <> VStr s) ->
  buscar_horarios re_other now df intent = Raise TypeError.
Proof.
  intros H1 H2. unfold buscar_horarios. unfold_fields.
  rewrite Hdf, Hline, Hdir, Hd, H1.
  destruct (dict_get intent "hora") as [| | | s | |];
    try reflexivity. exfalso. apply (H2 s). reflexivity.
Qed.

(** A string that is not a time: the [ValueError] of [strptime] is caught
    (lines 157-158). *)
Lemma buscar_bad_time s :
  timeOfDay intent = VStr s ->
  String.eqb s "ahora" = false ->
  strptime_HM s = None ->
  buscar_horarios re_other now df intent = Ret DataFrame_new.
Proof.
  intros H1 H2 H3. unfold buscar_horarios. unfold_fields.
  rewrite Hdf, Hline, Hdir, Hd, H1. cbn [eq_str negb py_strptime truthy].
  rewrite H2, H3. destruct (String.eqb s ""); reflexivity.
Qed.

(** *** A literal time *)

Variable s : string.
Variable t : time.
Hypothesis Hh : timeOfDay intent = VStr s.
Hypothesis Hs : String.eqb s "ahora" = false.
Hypothesis Ht : strptime_HM s = Some t.

Lemma strptime_truthy : truthy (VStr s) = true.
Proof.
  destruct s; [discriminate Ht|reflexivity].
Qed.

(** Lines 132-134 and 146-148: select by arrival, add [diff], sort by it,
    drop it. *)
Lemma cercanos_frame (q : option datetime -> datetime -> bool)
    (p : Row -> bool) :
  has_direction (lower d) df = true ->
  (forall r, q (Some (combine now (Llegada r))) (combine now t) = p r) ->
  exists cercanos,
    (forall (K : DataFrame -> outcome DataFrame),
       (c0 ← set_diff (combine now t)
               (copy (select (fun r => q (llegada_datetime r)
                                         (combine now t))
                        (df_filtrado now (lower d) df)));
        s' ← sort_values col_diff true c0;
        c ← drop col_diff s'; K c) = K cercanos) /\
    MatchSet cercanos =
      map trip_of (sort_by (closeness now (combine now t))
                     (List.filter p (upcoming now (lower d) df))).
Proof.
  intros Hrow Hq. unfold sort_values.
  assert (Hc : forall l, mem_column col_diff (add_column col_diff l) = true).
  { intros l. rewrite mem_column_add. apply orb_true_r. }
  unfold has_column, set_diff, copy, select. cbn [derived object_dtype rows].
  rewrite df_filtrado_object, Hrow. cbn [negb].
  unfold mbind, outcome_bind, drop. cbn [derived object_dtype rows].
  rewrite Hc. cbn [derived object_dtype rows]. rewrite Hc.
  eexists. split; [intros K; reflexivity|].
  unfold MatchSet. cbn [rows].
  rewrite df_filtrado_rows, filter_map_comm, !map_map.
  rewrite (sort_rows_present col_diff true
             (closeness now (combine now t))).
  - rewrite sort_by_map, map_map. simpl.
    f_equal. f_equal. apply filter_ext. intros r. simpl. apply Hq.
  - intros r Hr. apply in_map_iff in Hr. destruct Hr as (r0 & <- & _).
    reflexivity.
Qed.

(** Lines 133 and 147 when no row has the direction: the column is of
    dtype [object], and the subtraction raises. *)
Lemma cercanos_TypeError (q : option datetime -> datetime -> bool) :
  has_direction (lower d) df = false ->
  forall (K : DataFrame -> outcome DataFrame),
    (c0 ← set_diff (combine now t)
            (copy (select (fun r => q (llegada_datetime r) (combine now t))
                     (df_filtrado now (lower d) df)));
     K c0) = Raise TypeError.
Proof.
  intros Hrow K. unfold set_diff, copy, select. cbn [object_dtype].
  rewrite df_filtrado_object, Hrow. reflexivity.
Qed.

Lemma buscar_antes_de :
  has_direction (lower d) df = true ->
  timeRelation intent = VStr "antes_de" ->
  exists cercanos,
    buscar_horarios re_other now df intent =
      cercanos_policy (fullListing intent) (requestedCount intent) cercanos /\
    MatchSet cercanos =
      map trip_of (sort_by (closeness now (combine now t))
                     (List.filter (arrives_before now (combine now t))
                        (upcoming now (lower d) df))).
Proof.
  intros Hrow Hr.
  destruct (cercanos_frame cell_lt (arrives_before now (combine now t)) Hrow)
    as (c & Hc & Hm); [reflexivity|].
  exists c. split; [|exact Hm].
  unfold buscar_horarios. unfold_fields.
  rewrite Hdf, Hline, Hdir, Hd, Hh, Hr. cbn [eq_str negb].
  rewrite Hs, strptime_truthy. cbn [py_strptime]. rewrite Ht.
  cbn [py_lower mbind outcome_bind String.eqb Ascii.eqb Bool.eqb].
  fold (df_filtrado now (lower d) df).
  rewrite Hc. apply try_except_policy.
Qed.

Lemma buscar_despues_de :
  has_direction (lower d) df = true ->
  timeRelation intent = VStr "despues_de" ->
  exists cercanos,
    buscar_horarios re_other now df intent =
      cercanos_policy (fullListing intent) (requestedCount intent) cercanos /\
    MatchSet cercanos =
      map trip_of (sort_by (closeness now (combine now t))
                     (List.filter (arrives_from now (combine now t))
                        (upcoming now (lower d) df))).
Proof.
  intros Hrow Hr.
  destruct (cercanos_frame cell_ge (arrives_from now (combine now t)) Hrow)
    as (c & Hc & Hm); [reflexivity|].
  exists c. split; [|exact Hm].
  unfold buscar_horarios. unfold_fields.
  rewrite Hdf, Hline, Hdir, Hd, Hh, Hr. cbn [eq_str negb].
  rewrite Hs, strptime_truthy. cbn [py_strptime]. rewrite Ht.
  cbn [py_lower mbind outcome_bind String.eqb Ascii.eqb Bool.eqb].
  fold (df_filtrado now (lower d) df).
  rewrite Hc. apply try_except_policy.
Qed.

(** The "antes_de" and "despues_de" branches when no row of the store has
    the direction: [TypeError] at line 133 or 147, which the handler of
    line 157 lets through. *)
Lemma buscar_no_row_of_direction :
  has_direction (lower d) df = false ->
  timeRelation intent = VStr "antes_de" \/
  timeRelation intent = VStr "despues_de" ->
  buscar_horarios re_other now df intent = Raise TypeError.
Proof.
  intros Hrow Hr.
  unfold buscar_horarios. unfold_fields.
  rewrite Hdf, Hline, Hdir, Hd, Hh. cbn [eq_str negb].
  rewrite Hs, strptime_truthy. cbn [py_strptime]. rewrite Ht.
  cbn [py_lower mbind outcome_bind].
  fold (df_filtrado now (lower d) df).
  destruct Hr as [Hr|Hr]; rewrite Hr;
    cbn [eq_str String.eqb Ascii.eqb Bool.eqb];
    rewrite (cercanos_TypeError _ Hrow); reflexivity.
Qed.

(** So a call that returns in these two branches had a row of the
    direction. *)
Lemma returns_has_direction res :
  timeRelation intent = VStr "antes_de" \/
  timeRelation intent = VStr "despues_de" ->
  buscar_horarios re_other now df intent = Ret res ->
  has_direction (lower d) df = true.
Proof.
  intros Hr Hres. destruct (has_direction (lower d) df) eqn:E; [reflexivity|].
  rewrite (buscar_no_row_of_direction E Hr) in Hres. discriminate Hres.
Qed.

(** The rows of the two halves of the "cerca" branch (lines 111-113). *)
Lemma select_llegada_rows (q : option datetime -> datetime -> bool)
    (p : Row -> bool) :
  (forall r, q (Some (combine now (Llegada r))) (combine now t) = p r) ->
  rows (copy (select (fun r => q (llegada_datetime r) (combine now t))
                (df_filtrado now (lower d) df))) =
    map (with_instants now) (List.filter p (upcoming now (lower d) df)).
Proof.
  intros Hq. unfold copy, select. cbn [rows].
  rewrite df_filtrado_rows, filter_map_comm. f_equal.
  apply filter_ext. intros r. apply Hq.
Qed.

Lemma buscar_cerca :
  timeRelation intent = VStr "cerca" ->
  (upcoming now (lower d) df = [] ->
   buscar_horarios re_other now df intent = Raise KeyError) /\
  (upcoming now (lower d) df <> [] ->
   exists res,
     buscar_horarios re_other now df intent = Ret res /\
     MatchSet res =
       map trip_of (near_rows now (combine now t) (upcoming now (lower d) df))).
Proof.
  intros Hr.
  unfold buscar_horarios. unfold_fields.
  rewrite Hdf, Hline, Hdir, Hd, Hh, Hr. cbn [eq_str negb].
  rewrite Hs, strptime_truthy. cbn [py_strptime]. rewrite Ht.
  cbn [py_lower mbind outcome_bind String.eqb Ascii.eqb Bool.eqb].
  fold (df_filtrado now (lower d) df).
  set (T := combine now t). set (U := upcoming now (lower d) df).
  set (MA := copy (select (fun r => cell_le (llegada_datetime r) T)
                     (df_filtrado now (lower d) df))).
  set (MD := copy (select (fun r => cell_gt (llegada_datetime r) T)
                     (df_filtrado now (lower d) df))).
  assert (HA : has_column col_llegada_datetime MA = true)
    by exact (df_filtrado_has_llegada now (lower d) df).
  assert (HD : has_column col_llegada_datetime MD = true)
    by exact (df_filtrado_has_llegada now (lower d) df).
  assert (HMA : rows MA = map (with_instants now)
                            (List.filter (arrives_by now T) U))
    by (apply select_llegada_rows; reflexivity).
  assert (HMD : rows MD = map (with_instants now)
                            (List.filter (arrives_after now T) U))
    by (apply select_llegada_rows; reflexivity).
  rewrite (near_step false MA DataFrame_new HA).
  cbn [mbind outcome_bind].
  rewrite (near_step true MD _ HD).
  cbn [mbind outcome_bind].
  destruct (near_result_frame MA MD HA HD) as [Hrows Hcol].
  cbv zeta in Hrows, Hcol.
  unfold sort_values. rewrite Hcol.
  assert (HE : empty MA && empty MD = true <-> U = []).
  { unfold empty. rewrite HMA, HMD. split.
    - intros H. destruct U as [|r U']; [reflexivity|]. exfalso.
      cbn [List.filter] in H.
      assert (Hor : arrives_by now T r || arrives_after now T r = true).
      { unfold arrives_by, arrives_after, dt_leb, dt_ltb.
        destruct (Z.leb_spec (datetime_us (combine now (Llegada r)))
                    (datetime_us T)); [reflexivity|].
        apply Z.ltb_lt. assumption. }
      destruct (arrives_by now T r); [discriminate H|].
      destruct (arrives_after now T r); [|discriminate Hor].
      cbn [map] in H. rewrite andb_false_r in H. discriminate H.
    - intros ->. reflexivity. }
  split.
  - intros HU. apply HE in HU. rewrite HU. reflexivity.
  - intros HU. destruct (empty MA && empty MD) eqn:E.
    + exfalso. apply HU, HE. reflexivity.
    + cbn [negb try_except_ValueError]. eexists. split; [reflexivity|].
      unfold MatchSet. cbn [rows]. rewrite Hrows, HMA, HMD.
      assert (Hk : forall asc l,
                sort_rows col_llegada_datetime asc (map (with_instants now) l) =
                map (with_instants now)
                  (if asc then sort_by (arrival_us now) l
                   else rev (sort_by (arrival_us now) (rev l)))).
      { intros asc l.
        rewrite (sort_rows_present col_llegada_datetime asc (arrival_us now)).
        - destruct asc.
          + apply (sort_by_map (with_instants now) (arrival_us now)).
          + rewrite <- map_rev.
            rewrite (sort_by_map (with_instants now) (arrival_us now)).
            apply eq_sym, map_rev.
        - intros r Hin. apply in_map_iff in Hin.
          destruct Hin as (r0 & <- & _). reflexivity. }
      rewrite !Hk, !firstn_map, <- map_app.
      fold (near_rows now T U). rewrite Hk.
      rewrite (sort_by_sorted_id _ _ (near_rows_sorted now T U)).
      rewrite map_map. reflexivity.
Qed.

(** A literal time and no known relation: the [if] chain of the [try]
    block falls through to line 160. *)
Lemma buscar_no_relation :
  eq_str (timeRelation intent) "cerca" = false ->
  eq_str (timeRelation intent) "antes_de" = false ->
  eq_str (timeRelation intent) "despues_de" = false ->
  buscar_horarios re_other now df intent = Ret DataFrame_new.
Proof.
  intros H1 H2 H3. unfold buscar_horarios. unfold_fields.
  rewrite Hdf, Hline, Hdir, Hd, Hh. cbn [eq_str negb py_strptime].
  rewrite Hs, strptime_truthy, Ht.
  cbn [py_lower mbind outcome_bind]. rewrite H1, H2, H3. reflexivity.
Qed.

End Branches.

Lemma eq_str_true v s : eq_str v s = true -> v = VStr s.
Proof.
  destruct v; simpl; try discriminate.
  intros H. apply String.eqb_eq in H. subst. reflexivity.
Qed.

Lemma upcoming_not_departed now d df tr :
  In tr (map trip_of (upcoming now d df)) -> instant_lt now (departure now tr).
Proof.
  intros H. apply in_map_iff in H. destruct H as (r & <- & Hr).
  apply filter_In in Hr. destruct Hr as [_ Hr].
  apply andb_true_iff in Hr. destruct Hr as [_ Hr].
  unfold not_departed, dt_ltb in Hr. apply Z.ltb_lt in Hr. exact Hr.
Qed.

Lemma near_rows_incl now T U r : In r (near_rows now T U) -> In r U.
Proof.
  unfold near_rows. intros H. apply in_app_or in H.
  destruct H as [H|H]; apply In_firstn in H.
  - apply in_rev, sort_by_In, in_rev, filter_In in H. tauto.
  - apply sort_by_In, filter_In in H. tauto.
Qed.

Lemma proximos_of_Permutation now d df :
  Permutation (proximos_of now d df) (map trip_of (upcoming now (lower d) df)).
Proof.
  unfold proximos_of.
  eapply Permutation_trans.
  - apply Permutation_map. apply sort_by_Permutation.
  - rewrite map_map. apply Permutation_refl.
Qed.

Lemma proximos_of_sorted now d df :
  StronglySorted
    (fun a b => instant_le (departure now a) (departure now b))
    (proximos_of now d df).
Proof.
  unfold proximos_of. apply StronglySorted_map.
  apply (sort_by_sorted (fun r => datetime_us (combine now (Salida r)))).
Qed.

Lemma strptime_not_ahora s t :
  strptime_HM s = Some t -> String.eqb s "ahora" = false.
Proof.
  intros H. destruct (String.eqb_spec s "ahora") as [->|]; [|reflexivity].
  discriminate H.
Qed.

Lemma policy_firstn fl rc c res :
  cercanos_policy fl rc c = Ret res ->
  exists n, rows res = firstn n (rows c).
Proof.
  unfold cercanos_policy. destruct (truthy fl).
  - intros [= <-]. exists (length (rows c)). symmetry. apply firstn_all.
  - destruct (is_not_None rc).
    + apply head_firstn.
    + intros [= <-]. exists (length (rows c)). symmetry. apply firstn_all.
Qed.

(** What the before and after branches answer, given the frame [c] they
    built from the qualifying rows [L]. *)
Lemma cercanos_result now T fl rc c (L : list Row) :
  MatchSet c = map trip_of (sort_by (closeness now T) L) ->
  (forall res, cercanos_policy fl rc c = Ret res ->
     StronglySorted
       (fun a b => abs_diff (arrival now a) T <= abs_diff (arrival now b) T)
       (MatchSet res) /\
     incl (MatchSet res) (map trip_of L)) /\
  (truthy fl = false -> rc = VNone ->
   exists res, cercanos_policy fl rc c = Ret res /\
               Permutation (MatchSet res) (map trip_of L)).
Proof.
  intros Hc. split.
  - intros res Hres. apply policy_firstn in Hres. destruct Hres as [n Hn].
    assert (Hm : MatchSet res = firstn n (MatchSet c)).
    { unfold MatchSet. rewrite Hn. symmetry. apply firstn_map. }
    rewrite Hm, Hc. split.
    + apply StronglySorted_firstn. apply StronglySorted_map.
      apply (sort_by_sorted (closeness now T)).
    + intros x Hx. apply In_firstn in Hx. apply in_map_iff in Hx.
      destruct Hx as (r & <- & Hr). apply in_map. apply sort_by_In in Hr.
      exact Hr.
  - intros Hfl ->. exists c. unfold cercanos_policy. rewrite Hfl.
    split; [reflexivity|]. rewrite Hc. apply Permutation_map.
    apply sort_by_Permutation.
Qed.

#[local] Arguments firstn : simpl never.

Lemma filter_nil_false {A} (p : A -> bool) l :
  List.filter p l = [] -> forall x, In x l -> p x = false.
Proof.
  induction l as [|y l IH]; simpl; intros H x Hx; [contradiction|].
  destruct (p y) eqn:E; [discriminate H|].
  destruct Hx as [<-|Hx]; auto.
Qed.

(** X1. When some trip of the direction has not left, the "cerca" branch
    returns the trip that arrives last among those arriving by [T], if
    any, followed by the trip that arrives first among those arriving
    after [T], if any. *)
Lemma near_branch_selection re_other now df intent d s t :
  truthy (lineFilter intent) = false ->
  direction_of intent = VStr d -> truthy (VStr d) = true ->
  timeOfDay intent = VStr s -> strptime_HM s = Some t ->
  timeRelation intent = VStr "cerca" ->
  let T := combine now t in
  let U := upcoming now (lower d) df in
  U <> [] ->
  exists res bs afs,
    buscar_horarios re_other now df intent = Ret res /\
    MatchSet res = (bs ++ afs)%list /\
    ((bs = [] /\ forall r, In r U -> arrives_by now T r = false) \/
     (exists b, bs = [trip_of b] /\ In b U /\ arrives_by now T b = true /\
                forall r, In r U -> arrives_by now T r = true ->
                          arrival_us now r <= arrival_us now b)) /\
    ((afs = [] /\ forall r, In r U -> arrives_after now T r = false) \/
     (exists a, afs = [trip_of a] /\ In a U /\ arrives_after now T a = true /\
                forall r, In r U -> arrives_after now T r = true ->
                          arrival_us now a <= arrival_us now r)).
Proof.
  intros Hline Hdir Hd Hh Ht Hr T U HU.
  pose proof (strptime_not_ahora s t Ht) as Hs.
  assert (Hdf : empty df = false).
  { destruct (empty df) eqn:E; [|reflexivity].
    exfalso. apply HU. apply upcoming_empty. exact E. }
  destruct (buscar_cerca re_other now df intent d Hdf Hline Hdir Hd
              s t Hh Hs Ht Hr) as [_ H].
  destruct (H HU) as (res & Hres & Hm). clear H.
  fold T U in Hm. unfold near_rows in Hm. rewrite map_app in Hm.
  eexists res, _, _. split; [exact Hres|]. split; [exact Hm|]. split.
  - destruct (firstn_1_cases
                (rev (sort_by (arrival_us now)
                        (rev (List.filter (arrives_by now T) U)))))
      as [[_ E]|(b & l' & _ & E)].
    + left. rewrite E. split; [reflexivity|].
      apply filter_nil_false.
      apply (firstn_1_nil_rev_sorted (arrival_us now)). exact E.
    + right. rewrite E. exists b. split; [reflexivity|].
      apply firstn_1_max in E. destruct E as [Hin Hmax].
      apply filter_In in Hin. destruct Hin as [Hin Hb].
      repeat split; auto.
      intros r Hr1 Hr2. apply Hmax. apply filter_In. auto.
  - destruct (firstn_1_cases
                (sort_by (arrival_us now)
                   (List.filter (arrives_after now T) U)))
      as [[_ E]|(a & l' & _ & E)].
    + left. rewrite E. split; [reflexivity|].
      apply filter_nil_false.
      apply (firstn_1_nil_sorted (arrival_us now)). exact E.
    + right. rewrite E. exists a. split; [reflexivity|].
      apply firstn_1_min in E. destruct E as [Hin Hmin].
      apply filter_In in Hin. destruct Hin as [Hin Ha].
      repeat split; auto.
      intros r Hr1 Hr2. apply Hmin. apply filter_In. auto.
Qed.

(** The shapes the field [hora] can have, as the engine tells them
    apart. *)
Lemma time_cases intent :
  (eq_str (timeOfDay intent) "ahora" = false /\
   truthy (timeOfDay intent) = false) \/
  (truthy (timeOfDay intent) = true /\
   forall s, timeOfDay intent <> VStr s) \/
  timeOfDay intent = VStr "ahora" \/
  (exists s, timeOfDay intent = VStr s /\ String.eqb s "ahora" = false /\
             strptime_HM s = None) \/
  (exists s t, timeOfDay intent = VStr s /\ strptime_HM s = Some t).
Proof.
  destruct (timeOfDay intent) as [|b|n|s|l|l] eqn:E.
  - left. split; reflexivity.
  - destruct b; [right; left|left]; split; try reflexivity; discriminate.
  - destruct (truthy (VInt n)) eqn:T; [right; left|left]; split;
      try reflexivity; try assumption; discriminate.
  - destruct (String.eqb_spec s "ahora") as [->|Hne].
    + right; right; left. reflexivity.
    + destruct (strptime_HM s) as [t|] eqn:P.
      * right; right; right; right. exists s, t. split; [reflexivity|exact P].
      * right; right; right; left. exists s. repeat split; try assumption.
        destruct (String.eqb_spec s "ahora"); [contradiction|reflexivity].
  - destruct (truthy (VList l)) eqn:T; [right; left|left]; split;
      try reflexivity; try assumption; discriminate.
  - destruct (truthy (VDict l)) eqn:T; [right; left|left]; split;
      try reflexivity; try assumption; discriminate.
Qed.

Lemma relation_cases intent :
  timeRelation intent = VStr "cerca" \/
  timeRelation intent = VStr "antes_de" \/
  timeRelation intent = VStr "despues_de" \/
  (eq_str (timeRelation intent) "cerca" = false /\
   eq_str (timeRelation intent) "antes_de" = false /\
   eq_str (timeRelation intent) "despues_de" = false).
Proof.
  destruct (eq_str (timeRelation intent) "cerca") eqn:E1;
    [left; apply eq_str_true; exact E1|].
  destruct (eq_str (timeRelation intent) "antes_de") eqn:E2;
    [right; left; apply eq_str_true; exact E2|].
  destruct (eq_str (timeRelation intent) "despues_de") eqn:E3;
    [right; right; left; apply eq_str_true; exact E3|].
  right; right; right. auto.
Qed.

Lemma buscar_empty_store re_other now df intent :
  empty df = true ->
  buscar_horarios re_other now df intent = Ret DataFrame_new.
Proof. intros H. unfold buscar_horarios. rewrite H. reflexivity. Qed.

(** A direction that is set but is not a string: [direccion.lower()]
    raises. *)
Lemma buscar_direction_AttributeError re_other now df intent :
  empty df = false ->
  truthy (lineFilter intent) = false ->
  truthy (direction_of intent) = true ->
  (forall d, direction_of intent <> VStr d) ->
  buscar_horarios re_other now df intent = Raise AttributeError.
Proof.
  intros Hdf Hline Ht Hn. unfold buscar_horarios. unfold_fields.
  rewrite Hdf, Hline, Ht.
  destruct (first_if_list (dict_get intent "direccion")) as [| | |d| |];
    try reflexivity.
  exfalso. apply (Hn d). reflexivity.
Qed.

(** A truthy line filter that is not a string. *)
Lemma buscar_line_AttributeError re_other now df intent :
  empty df = false ->
  truthy (lineFilter intent) = true ->
  (forall s, lineFilter intent <> VStr s) ->
  buscar_horarios re_other now df intent = Raise AttributeError.
Proof.
  intros Hdf Ht Hn. unfold buscar_horarios. unfold_fields.
  rewrite Hdf, Ht.
  destruct (first_if_list (dict_get intent "micro_linea")) as [| | |s| |];
    try reflexivity.
  exfalso. apply (Hn s). reflexivity.
Qed.

(** In the direction branch every trip of a result is an upcoming trip of
    the direction. *)
Lemma direction_branch_incl re_other now df intent d res :
  truthy (lineFilter intent) = false ->
  direction_of intent = VStr d -> truthy (VStr d) = true ->
  buscar_horarios re_other now df intent = Ret res ->
  incl (MatchSet res) (map trip_of (upcoming now (lower d) df)).
Proof.
  intros Hline Hdir Hd Hres.
  destruct (empty df) eqn:Hdf.
  { rewrite buscar_empty_store in Hres by assumption.
    injection Hres as <-. intros x []. }
  destruct (time_cases intent)
    as [[H1 H2]|[[H1 H2]|[Hh|[(s & Hh & Hs & Hp)|(s & t & Hh & Ht)]]]].
  - rewrite (buscar_no_time re_other now df intent d) in Hres by assumption.
    injection Hres as <-. intros x [].
  - rewrite (buscar_time_TypeError re_other now df intent d) in Hres
      by assumption. discriminate Hres.
  - rewrite (buscar_ahora re_other now df intent d) in Hres by assumption.
    rewrite sort_salida_df_filtrado in Hres. cbn [mbind outcome_bind] in Hres.
    assert (Hsub : forall r, In r (rows res) ->
              In r (map (with_instants now) (upcoming now (lower d) df))).
    { destruct (truthy (fullListing intent)).
      - injection Hres as <-. cbn [rows]. intros r Hr.
        apply sort_by_In in Hr. exact Hr.
      - assert (Hhead : exists v, head v
                  {| derived := derived (df_filtrado now (lower d) df);
                     object_dtype :=
                       object_dtype (df_filtrado now (lower d) df);
                     rows := sort_by
                       (fun r => datetime_us (combine now (Salida r)))
                       (map (with_instants now)
                          (upcoming now (lower d) df)) |} = Ret res)
          by (destruct (is_not_None (requestedCount intent)); eauto).
        destruct Hhead as [v Hv]. intros r Hr.
        apply (head_rows _ _ _ Hv) in Hr. cbn [rows] in Hr.
        apply sort_by_In in Hr. exact Hr. }
    intros x Hx. apply in_map_iff in Hx. destruct Hx as (r & <- & Hr).
    apply Hsub, in_map_iff in Hr. destruct Hr as (r0 & <- & Hr0).
    rewrite trip_of_with_instants. apply in_map. exact Hr0.
  - rewrite (buscar_bad_time re_other now df intent d) with (s := s) in Hres
      by assumption.
    injection Hres as <-. intros x [].
  - pose proof (strptime_not_ahora s t Ht) as Hs.
    destruct (relation_cases intent) as [Hr|[Hr|[Hr|(R1 & R2 & R3)]]].
    + destruct (buscar_cerca re_other now df intent d Hdf Hline Hdir Hd
                  s t Hh Hs Ht Hr) as [Hnil Hsome].
      destruct (upcoming now (lower d) df) as [|r0 U0] eqn:EU.
      * rewrite Hnil in Hres by reflexivity. discriminate Hres.
      * destruct Hsome as (res' & Hres' & Hm); [discriminate|].
        rewrite Hres' in Hres. injection Hres as <-. rewrite Hm.
        intros x Hx. apply in_map_iff in Hx. destruct Hx as (r & <- & Hx).
        apply in_map. eapply near_rows_incl. exact Hx.
    + pose proof (returns_has_direction re_other now df intent d Hdf Hline
                    Hdir Hd s t Hh Hs Ht res (or_introl Hr) Hres) as Hrow.
      destruct (buscar_antes_de re_other now df intent d Hdf Hline Hdir Hd
                  s t Hh Hs Ht Hrow Hr) as (c & Hc & Hm).
      rewrite Hc in Hres.
      destruct (cercanos_result now (combine now t) (fullListing intent)
                  (requestedCount intent) c _ Hm) as [H _].
      destruct (H res Hres) as [_ Hincl].
      intros x Hx. apply Hincl, in_map_iff in Hx.
      destruct Hx as (r & <- & Hx). apply in_map.
      apply filter_In in Hx. tauto.
    + pose proof (returns_has_direction re_other now df intent d Hdf Hline
                    Hdir Hd s t Hh Hs Ht res (or_intror Hr) Hres) as Hrow.
      destruct (buscar_despues_de re_other now df intent d Hdf Hline Hdir Hd
                  s t Hh Hs Ht Hrow Hr) as (c & Hc & Hm).
      rewrite Hc in Hres.
      destruct (cercanos_result now (combine now t) (fullListing intent)
                  (requestedCount intent) c _ Hm) as [H _].
      destruct (H res Hres) as [_ Hincl].
      intros x Hx. apply Hincl, in_map_iff in Hx.
      destruct Hx as (r & <- & Hx). apply in_map.
      apply filter_In in Hx. tauto.
    + rewrite (buscar_no_relation re_other now df intent d Hdf Hline Hdir Hd
                 s t Hh Hs Ht R1 R2 R3) in Hres.
      injection Hres as <-. intros x [].
Qed.

(** * The line-filter branch *)

Lemma re_parse_plain s : plain s = true -> re_parse s = Some (lits s).
Proof.
  induction s as [|c s IH]; cbn [re_parse plain]; [reflexivity|].
  intros H. apply andb_true_iff in H. destruct H as [Hc Hs].
  unfold plain_char in Hc. apply andb_true_iff in Hc. destruct Hc as [H1 H2].
  apply negb_true_iff in H1, H2. rewrite H1, (IH Hs), H2. reflexivity.
Qed.

Lemma match_here_lits p s : match_here (lits p) s = String.prefix p s.
Proof.
  revert s. induction p as [|c p IH]; intros s; simpl.
  - destruct s; reflexivity.
  - destruct s as [|b s]; [reflexivity|]. simpl.
    destruct (ascii_dec c b) as [->|Hne].
    + rewrite Ascii.eqb_refl. apply IH.
    + apply Ascii.eqb_neq in Hne. rewrite Hne. reflexivity.
Qed.

Lemma re_search_lits p s : re_search (lits p) s = is_substring p s.
Proof.
  induction s as [|b s IH]; cbn [re_search is_substring].
  - rewrite match_here_lits. reflexivity.
  - rewrite IH, match_here_lits. reflexivity.
Qed.

Lemma sort_salida_rows (df : DataFrame) :
  sort_values col_Salida true df =
    Ret {| derived := derived df; object_dtype := object_dtype df;
           rows := sort_by (fun r => time_us (Salida r)) (rows df) |}.
Proof.
  unfold sort_values. cbn [has_column]. f_equal. f_equal.
  apply (sort_rows_present col_Salida true (fun r => time_us (Salida r))).
  intros r _. reflexivity.
Qed.

Lemma sorted_by_salida l :
  StronglySorted
    (fun a b => time_us (departureTime a) <= time_us (departureTime b))
    (map trip_of (sort_by (fun r => time_us (Salida r)) l)).
Proof.
  apply StronglySorted_map.
  apply (sort_by_sorted (fun r => time_us (Salida r))).
Qed.

(** The line-filter branch for a pattern [re.compile] accepts
    (lines 73-80). *)
Lemma line_branch_result re_other now df intent ml contains :
  lineFilter intent = VStr ml -> truthy (VStr ml) = true ->
  re_compile re_other (lower ml) = Ret contains ->
  let by_salida := fun a b : TripRecord =>
    time_us (departureTime a) <= time_us (departureTime b) in
  (truthy (direction_of intent) = false ->
   exists res,
     buscar_horarios re_other now df intent = Ret res /\
     Permutation (MatchSet res)
       (map trip_of (List.filter (linea_matches contains) (rows df))) /\
     StronglySorted by_salida (MatchSet res)) /\
  (forall d, direction_of intent = VStr d -> truthy (VStr d) = true ->
   exists res,
     buscar_horarios re_other now df intent = Ret res /\
     Permutation (MatchSet res)
       (map trip_of
          (List.filter (fun r => linea_matches contains r &&
                                 direccion_is (lower d) r) (rows df))) /\
     StronglySorted by_salida (MatchSet res)).
Proof.
  intros Hml Ht Hc by_salida.
  destruct (empty df) eqn:Hdf.
  { rewrite buscar_empty_store by assumption.
    rewrite (empty_rows _ Hdf). cbn [List.filter map].
    split; intros; exists DataFrame_new;
      (split; [reflexivity|split; constructor]). }
  split.
  - intros Hd. unfold buscar_horarios. unfold_fields.
    rewrite Hdf, Hml, Ht, Hd. cbn [py_lower mbind outcome_bind].
    rewrite Hc. cbn [mbind outcome_bind]. rewrite sort_salida_rows.
    eexists. split; [reflexivity|]. unfold MatchSet, copy, select.
    cbn [rows]. split; [|apply sorted_by_salida].
    apply Permutation_map, sort_by_Permutation.
  - intros d Hd Hdt. unfold buscar_horarios. unfold_fields.
    rewrite Hdf, Hml, Ht, Hd, Hdt. cbn [py_lower mbind outcome_bind].
    rewrite Hc. cbn [mbind outcome_bind]. rewrite sort_salida_rows.
    eexists. split; [reflexivity|]. unfold MatchSet, copy, select.
    cbn [rows]. split; [|apply sorted_by_salida].
    rewrite filter_filter. apply Permutation_map, sort_by_Permutation.
Qed.

(** X2. The line-filter branch for a filter with no regular-expression
    syntax: the result is the trips whose line contains the filter, case
    folded, narrowed to the direction when one is set, in ascending order
    of departure time; the current instant plays no part. *)
Lemma line_branch_plain re_other now df intent ml :
  lineFilter intent = VStr ml -> truthy (VStr ml) = true ->
  plain (lower ml) = true ->
  let by_salida := fun a b : TripRecord =>
    time_us (departureTime a) <= time_us (departureTime b) in
  (truthy (direction_of intent) = false ->
   exists res,
     buscar_horarios re_other now df intent = Ret res /\
     Permutation (MatchSet res)
       (map trip_of (List.filter (linea_contains (lower ml)) (rows df))) /\
     StronglySorted by_salida (MatchSet res)) /\
  (forall d, direction_of intent = VStr d -> truthy (VStr d) = true ->
   exists res,
     buscar_horarios re_other now df intent = Ret res /\
     Permutation (MatchSet res)
       (map trip_of
          (List.filter (fun r => linea_contains (lower ml) r &&
                                 direccion_is (lower d) r) (rows df))) /\
     StronglySorted by_salida (MatchSet res)).
Proof.
  intros Hml Ht Hp by_salida.
  assert (Hc : re_compile re_other (lower ml) =
               Ret (re_search (lits (lower ml)))).
  { unfold re_compile. rewrite (re_parse_plain _ Hp). reflexivity. }
  assert (He : forall r, linea_matches (re_search (lits (lower ml))) r =
                         linea_contains (lower ml) r).
  { intros r. unfold linea_matches, linea_contains.
    destruct (Linea r); [apply re_search_lits|reflexivity]. }
  destruct (line_branch_result re_other now df intent ml _ Hml Ht Hc)
    as [H1 H2].
  split.
  - intros Hd. destruct (H1 Hd) as (res & Hres & Hperm & Hs).
    exists res. repeat split; try assumption.
    rewrite (filter_ext _ _ He) in Hperm. exact Hperm.
  - intros d Hd Hdt. destruct (H2 d Hd Hdt) as (res & Hres & Hperm & Hs).
    exists res. repeat split; try assumption.
    rewrite (filter_ext _ (fun r => linea_contains (lower ml) r &&
                                    direccion_is (lower d) r)) in Hperm.
    + exact Hperm.
    + intros r. rewrite He. reflexivity.
Qed.

(** * Full listing and count *)


Lemma buscar_no_direction re_other now df intent :
  truthy (lineFilter intent) = false ->
  truthy (direction_of intent) = false ->
  buscar_horarios re_other now df intent = Ret DataFrame_new.
Proof.
  intros H1 H2. unfold buscar_horarios. unfold_fields.
  rewrite H1, H2. destruct (empty df); reflexivity.
Qed.


Lemma ahora_result re_other now df intent d :
  empty df = false ->
  truthy (lineFilter intent) = false ->
  direction_of intent = VStr d -> truthy (VStr d) = true ->
  timeOfDay intent = VStr "ahora" ->
  (truthy (fullListing intent) = true ->
   exists res, buscar_horarios re_other now df intent = Ret res /\
               MatchSet res = proximos_of now d df) /\
  (forall res, buscar_horarios re_other now df intent = Ret res ->
   exists n, MatchSet res = firstn n (proximos_of now d df)).
Proof.
  intros Hdf Hline Hdir Hd Hh.
  rewrite (buscar_ahora re_other now df intent d Hdf Hline Hdir Hd Hh).
  rewrite sort_salida_df_filtrado. cbn [mbind outcome_bind].
  split.
  - intros ->. eexists. split; reflexivity.
  - intros res Hres.
    assert (Hn : exists n, rows res =
              firstn n (sort_by (fun r => datetime_us (combine now (Salida r)))
                          (map (with_instants now)
                             (upcoming now (lower d) df)))).
    { destruct (truthy (fullListing intent)).
      - injection Hres as <-. cbn [rows]. eexists. symmetry.
        apply firstn_all.
      - destruct (is_not_None (requestedCount intent));
          apply head_firstn in Hres; exact Hres. }
    destruct Hn as [n Hn]. exists n. unfold MatchSet, proximos_of.
    rewrite Hn. symmetry. apply firstn_map.
Qed.



(** * When the engine returns *)

Lemma str_or_falsy_cases v :
  str_or_falsy v = true ->
  truthy v = false \/ exists s, v = VStr s /\ truthy (VStr s) = true.
Proof.
  intros H. destruct (truthy v) eqn:T; [|left; reflexivity].
  right. destruct v; try discriminate T;
    try (unfold str_or_falsy in H; rewrite T in H; discriminate H).
  eexists. split; [reflexivity|exact T].
Qed.

Lemma head_int_or_None v df :
  int_or_None v = true -> exists res, head v df = Ret res.
Proof. destruct v; try discriminate; intros _; eexists; reflexivity. Qed.

Lemma policy_TypeError fl rc c :
  truthy fl = false -> int_or_None rc = false ->
  cercanos_policy fl rc c = Raise TypeError.
Proof.
  intros Hfl Hn. unfold cercanos_policy. rewrite Hfl.
  destruct rc; try discriminate Hn; reflexivity.
Qed.

Lemma policy_returns fl rc c :
  int_or_None rc = true -> exists res, cercanos_policy fl rc c = Ret res.
Proof.
  intros H. unfold cercanos_policy. destruct (truthy fl); [eauto|].
  destruct (is_not_None rc); [apply head_int_or_None; exact H|eauto].
Qed.

(** * The store of objects *)

Section Keeps.

Variable n : nat.

Lemma keeps_ret {A} (P : A -> Prop) (a : A) : P a -> keeps n P (mret a).
Proof.
  intros H h Hh. cbn. repeat split; auto. intros b [= <-]. exact H.
Qed.

Lemma keeps_bind {A B} (P : A -> Prop) (Q : B -> Prop)
    (m : Obj.M A) (k : A -> Obj.M B) :
  keeps n P m -> (forall a, P a -> keeps n Q (k a)) -> keeps n Q (m ≫= k).
Proof.
  intros Hm Hk h Hh. destruct (Hm h Hh) as (H1 & H2 & H3).
  unfold mbind, Obj.M_bind. destruct (m h) as [[a|e] h'] eqn:E; cbn in *.
  - destruct (Hk a (H3 a eq_refl) h' H2) as (K1 & K2 & K3).
    rewrite K1. auto.
  - repeat split; auto. intros b Hb. discriminate Hb.
Qed.

Lemma keeps_lift {A} (o : outcome A) : keeps n any (Obj.lift o).
Proof. intros h Hh. cbn. repeat split; auto. Qed.

Lemma keeps_read l : keeps n any (Obj.read l).
Proof. intros h Hh. cbn. repeat split; auto. Qed.

Lemma keeps_new df : keeps n (fresh n) (Obj.new df).
Proof.
  intros h Hh. unfold Obj.new. cbn [fst snd]. split; [|split].
  - rewrite take_app_le by exact Hh. reflexivity.
  - rewrite length_app. lia.
  - intros a [= <-]. exact Hh.
Qed.

Lemma keeps_write l df : fresh n l -> keeps n any (Obj.write l df).
Proof.
  intros Hl h Hh. unfold Obj.write. cbn [fst snd]. split; [|split].
  - apply take_insert_ge. exact Hl.
  - rewrite length_insert. exact Hh.
  - intros a _. exact I.
Qed.

Lemma keeps_try {A} (P : A -> Prop) (body handler : Obj.M A) :
  keeps n P body -> keeps n P handler ->
  keeps n P (Obj.try_except_ValueError body handler).
Proof.
  intros Hb Hh h Hlen. destruct (Hb h Hlen) as (H1 & H2 & H3).
  unfold Obj.try_except_ValueError.
  destruct (body h) as [[a|e] h'] eqn:E; cbn in *; [auto|].
  destruct e; cbn; try (repeat split; auto; intros b Hb'; discriminate Hb').
  destruct (Hh h' H2) as (K1 & K2 & K3). rewrite K1. auto.
Qed.

End Keeps.

Section KeepsFrames.

Variable n : nat.

Ltac keeps_auto :=
  repeat first
    [ apply keeps_new
    | apply keeps_read
    | apply keeps_lift
    | apply keeps_write; assumption
    | apply keeps_ret; (exact I || assumption)
    | eapply keeps_bind; [|intros ? ?] ].

Lemma keeps_DataFrame_new : keeps n (fresh n) Obj.DataFrame_new.
Proof. apply keeps_new. Qed.

Lemma keeps_empty l : keeps n any (Obj.empty l).
Proof. unfold Obj.empty. keeps_auto. Qed.

Lemma keeps_select mask l : keeps n (fresh n) (Obj.select mask l).
Proof. unfold Obj.select. keeps_auto. Qed.

Lemma keeps_copy l : keeps n (fresh n) (Obj.copy l).
Proof. unfold Obj.copy. keeps_auto. Qed.

Lemma keeps_sort_values c asc l :
  keeps n (fresh n) (Obj.sort_values c asc l).
Proof. unfold Obj.sort_values. keeps_auto. Qed.

Lemma keeps_head v l : keeps n (fresh n) (Obj.head v l).
Proof. unfold Obj.head. keeps_auto. Qed.

Lemma keeps_drop c l : keeps n (fresh n) (Obj.drop c l).
Proof. unfold Obj.drop. keeps_auto. Qed.

Lemma keeps_concat a b : keeps n (fresh n) (Obj.concat a b).
Proof. unfold Obj.concat. keeps_auto. Qed.

Lemma keeps_set_salida_datetime f l :
  fresh n l -> keeps n any (Obj.set_salida_datetime f l).
Proof. intros H. unfold Obj.set_salida_datetime. keeps_auto. Qed.

Lemma keeps_set_llegada_datetime f l :
  fresh n l -> keeps n any (Obj.set_llegada_datetime f l).
Proof. intros H. unfold Obj.set_llegada_datetime. keeps_auto. Qed.

Lemma keeps_set_diff t l : fresh n l -> keeps n any (Obj.set_diff t l).
Proof. intros H. unfold Obj.set_diff. keeps_auto. Qed.

Lemma keeps_cercanos_policy fl rc c :
  fresh n c -> keeps n (fresh n) (Obj.cercanos_policy fl rc c).
Proof.
  intros H. unfold Obj.cercanos_policy.
  destruct (truthy fl); [apply keeps_ret; exact H|].
  destruct (is_not_None rc); [apply keeps_head|apply keeps_ret; exact H].
Qed.

Ltac keeps_frames :=
  repeat first
    [ apply keeps_DataFrame_new
    | apply keeps_empty
    | apply keeps_select
    | apply keeps_copy
    | apply keeps_sort_values
    | apply keeps_head
    | apply keeps_drop
    | apply keeps_concat
    | apply keeps_lift
    | apply keeps_set_salida_datetime; assumption
    | apply keeps_set_llegada_datetime; assumption
    | apply keeps_set_diff; assumption
    | apply keeps_cercanos_policy; assumption
    | apply keeps_ret; assumption
    | apply keeps_try
    | eapply keeps_bind; [|intros ? ?]
    | match goal with
      | |- keeps _ _ (if ?b then _ else _) => destruct b
      end ].

(** The engine only ever changes objects it has made itself. *)
Lemma keeps_buscar_horarios re_other now df intent :
  keeps n (fresh n) (Obj.buscar_horarios re_other now df intent).
Proof.
  unfold Obj.buscar_horarios. cbv zeta. keeps_frames.
Qed.

End KeepsFrames.

(** * The two levels agree *)

Lemma lookup_app_plus {A} (h fs : list A) k :
  (h ++ fs) !! (length h + k)%nat = fs !! k.
Proof.
  rewrite lookup_app_r by lia. f_equal. lia.
Qed.

Section Run.

Ltac run_unfold :=
  unfold Obj.read, Obj.lift, Obj.new, Obj.write, mbind, mret, Obj.M_bind,
    Obj.M_ret; cbv beta iota.

Lemma run_bind_Ret {A B} (m : Obj.M A) (k : A -> Obj.M B) H a H1 R :
  m H = (Ret a, H1) -> k a H1 = R -> (m ≫= k) H = R.
Proof. intros E <-. unfold mbind, Obj.M_bind. rewrite E. reflexivity. Qed.

Lemma run_bind_Raise {A B} (m : Obj.M A) (k : A -> Obj.M B) H e H1 :
  m H = (Raise e, H1) -> (m ≫= k) H = (Raise e, H1).
Proof. intros E. unfold mbind, Obj.M_bind. rewrite E. reflexivity. Qed.

Lemma run_empty r H f :
  H !! r = Some f -> Obj.empty r H = (Ret (empty f), H).
Proof. intros E. unfold Obj.empty. run_unfold. rewrite E. reflexivity. Qed.

Lemma run_select mask r H f :
  H !! r = Some f ->
  Obj.select mask r H = (Ret (length H), H ++ [select mask f]).
Proof. intros E. unfold Obj.select. run_unfold. rewrite E. reflexivity. Qed.

Lemma run_copy r H f :
  H !! r = Some f -> Obj.copy r H = (Ret (length H), H ++ [copy f]).
Proof. intros E. unfold Obj.copy. run_unfold. rewrite E. reflexivity. Qed.

Lemma run_set_salida_datetime g r H f :
  H !! r = Some f ->
  Obj.set_salida_datetime g r H = (Ret tt, <[r := set_salida_datetime g f]> H).
Proof.
  intros E. unfold Obj.set_salida_datetime. run_unfold. rewrite E.
  reflexivity.
Qed.

Lemma run_set_llegada_datetime g r H f :
  H !! r = Some f ->
  Obj.set_llegada_datetime g r H =
    (Ret tt, <[r := set_llegada_datetime g f]> H).
Proof.
  intros E. unfold Obj.set_llegada_datetime. run_unfold. rewrite E.
  reflexivity.
Qed.

Lemma run_set_diff t r H f :
  H !! r = Some f ->
  Obj.set_diff t r H =
    match set_diff t f with
    | Ret f' => (Ret tt, <[r := f']> H)
    | Raise e => (Raise e, H)
    end.
Proof.
  intros E. unfold Obj.set_diff. run_unfold. rewrite E. cbv beta iota.
  destruct (set_diff t f); reflexivity.
Qed.

Lemma run_concat a b H x y :
  H !! a = Some x -> H !! b = Some y ->
  Obj.concat a b H = (Ret (length H), H ++ [concat x y]).
Proof.
  intros Ea Eb. unfold Obj.concat. run_unfold. rewrite Ea, Eb. reflexivity.
Qed.

Lemma run_sort_values c asc r H f :
  H !! r = Some f ->
  Obj.sort_values c asc r H =
    match sort_values c asc f with
    | Ret f' => (Ret (length H), H ++ [f'])
    | Raise e => (Raise e, H)
    end.
Proof.
  intros E. unfold Obj.sort_values. run_unfold. rewrite E. cbv beta iota.
  destruct (sort_values c asc f); reflexivity.
Qed.

Lemma run_head v r H f :
  H !! r = Some f ->
  Obj.head v r H =
    match head v f with
    | Ret f' => (Ret (length H), H ++ [f'])
    | Raise e => (Raise e, H)
    end.
Proof.
  intros E. unfold Obj.head. run_unfold. rewrite E. cbv beta iota.
  destruct (head v f); reflexivity.
Qed.

Lemma run_drop c r H f :
  H !! r = Some f ->
  Obj.drop c r H =
    match drop c f with
    | Ret f' => (Ret (length H), H ++ [f'])
    | Raise e => (Raise e, H)
    end.
Proof.
  intros E. unfold Obj.drop. run_unfold. rewrite E. cbv beta iota.
  destruct (drop c f); reflexivity.
Qed.

End Run.

Section Wp.

Context {B : Type} (Q : outcome B -> list DataFrame -> Prop).

Lemma wp_ret (b : B) H : Q (Ret b) H -> wp (mret b) H Q.
Proof. exact (fun x => x). Qed.

Lemma wp_bind {A} (m : Obj.M A) (k : A -> Obj.M B) H :
  wp m H (fun o H1 =>
            match o with
            | Ret a => wp (k a) H1 Q
            | Raise e => Q (Raise e) H1
            end) ->
  wp (m ≫= k) H Q.
Proof.
  unfold wp, mbind, Obj.M_bind. destruct (m H) as [[a|e] H1]; cbn; auto.
Qed.

Lemma wp_bind_lift {A} (o : outcome A) (k : A -> Obj.M B) H :
  match o with
  | Ret a => wp (k a) H Q
  | Raise e => Q (Raise e) H
  end ->
  wp (Obj.lift o ≫= k) H Q.
Proof. intros W. apply wp_bind. exact W. Qed.

Lemma wp_bind_empty r (k : bool -> Obj.M B) H f :
  H !! r = Some f -> wp (k (empty f)) H Q -> wp (Obj.empty r ≫= k) H Q.
Proof.
  intros E W. apply wp_bind. unfold wp. rewrite (run_empty r H f E). exact W.
Qed.

Lemma wp_bind_select mask r (k : nat -> Obj.M B) H f :
  H !! r = Some f ->
  wp (k (length H)) (H ++ [select mask f]) Q ->
  wp (Obj.select mask r ≫= k) H Q.
Proof.
  intros E W. apply wp_bind. unfold wp. rewrite (run_select mask r H f E).
  exact W.
Qed.

Lemma wp_bind_copy r (k : nat -> Obj.M B) H f :
  H !! r = Some f ->
  wp (k (length H)) (H ++ [copy f]) Q ->
  wp (Obj.copy r ≫= k) H Q.
Proof.
  intros E W. apply wp_bind. unfold wp. rewrite (run_copy r H f E). exact W.
Qed.

Lemma wp_bind_new (k : nat -> Obj.M B) H :
  wp (k (length H)) (H ++ [DataFrame_new]) Q ->
  wp (Obj.DataFrame_new ≫= k) H Q.
Proof. intros W. apply wp_bind. exact W. Qed.

Lemma wp_bind_set_salida g r (k : unit -> Obj.M B) H f :
  H !! r = Some f ->
  wp (k tt) (<[r := set_salida_datetime g f]> H) Q ->
  wp (Obj.set_salida_datetime g r ≫= k) H Q.
Proof.
  intros E W. apply wp_bind. unfold wp.
  rewrite (run_set_salida_datetime g r H f E). exact W.
Qed.

Lemma wp_bind_set_llegada g r (k : unit -> Obj.M B) H f :
  H !! r = Some f ->
  wp (k tt) (<[r := set_llegada_datetime g f]> H) Q ->
  wp (Obj.set_llegada_datetime g r ≫= k) H Q.
Proof.
  intros E W. apply wp_bind. unfold wp.
  rewrite (run_set_llegada_datetime g r H f E). exact W.
Qed.

Lemma wp_bind_set_diff t r (k : unit -> Obj.M B) H f :
  H !! r = Some f ->
  match set_diff t f with
  | Ret f' => wp (k tt) (<[r := f']> H) Q
  | Raise e => Q (Raise e) H
  end ->
  wp (Obj.set_diff t r ≫= k) H Q.
Proof.
  intros E W. apply wp_bind. unfold wp. rewrite (run_set_diff t r H f E).
  destruct (set_diff t f); exact W.
Qed.

Lemma wp_bind_concat a b (k : nat -> Obj.M B) H x y :
  H !! a = Some x -> H !! b = Some y ->
  wp (k (length H)) (H ++ [concat x y]) Q ->
  wp (Obj.concat a b ≫= k) H Q.
Proof.
  intros Ea Eb W. apply wp_bind. unfold wp.
  rewrite (run_concat a b H x y Ea Eb). exact W.
Qed.

Lemma wp_bind_sort_values c asc r (k : nat -> Obj.M B) H f :
  H !! r = Some f ->
  match sort_values c asc f with
  | Ret f' => wp (k (length H)) (H ++ [f']) Q
  | Raise e => Q (Raise e) H
  end ->
  wp (Obj.sort_values c asc r ≫= k) H Q.
Proof.
  intros E W. apply wp_bind. unfold wp. rewrite (run_sort_values c asc r H f E).
  destruct (sort_values c asc f); exact W.
Qed.

Lemma wp_bind_head v r (k : nat -> Obj.M B) H f :
  H !! r = Some f ->
  match head v f with
  | Ret f' => wp (k (length H)) (H ++ [f']) Q
  | Raise e => Q (Raise e) H
  end ->
  wp (Obj.head v r ≫= k) H Q.
Proof.
  intros E W. apply wp_bind. unfold wp. rewrite (run_head v r H f E).
  destruct (head v f); exact W.
Qed.

Lemma wp_bind_drop c r (k : nat -> Obj.M B) H f :
  H !! r = Some f ->
  match drop c f with
  | Ret f' => wp (k (length H)) (H ++ [f']) Q
  | Raise e => Q (Raise e) H
  end ->
  wp (Obj.drop c r ≫= k) H Q.
Proof.
  intros E W. apply wp_bind. unfold wp. rewrite (run_drop c r H f E).
  destruct (drop c f); exact W.
Qed.

Lemma wp_try (body handler : Obj.M B) H :
  wp body H (fun o H1 =>
               match o with
               | Raise ValueError => wp handler H1 Q
               | _ => Q o H1
               end) ->
  wp (Obj.try_except_ValueError body handler) H Q.
Proof.
  unfold wp, Obj.try_except_ValueError.
  destruct (body H) as [[a|e] H1]; cbn; auto. destruct e; auto.
Qed.

End Wp.

Section WpTail.

Context (Q : outcome nat -> list DataFrame -> Prop).

Lemma wp_new H :
  Q (Ret (length H)) (H ++ [DataFrame_new]) -> wp Obj.DataFrame_new H Q.
Proof. exact (fun x => x). Qed.

Lemma wp_copy r H f :
  H !! r = Some f -> Q (Ret (length H)) (H ++ [copy f]) -> wp (Obj.copy r) H Q.
Proof. intros E W. unfold wp. rewrite (run_copy r H f E). exact W. Qed.

Lemma wp_concat a b H x y :
  H !! a = Some x -> H !! b = Some y ->
  Q (Ret (length H)) (H ++ [concat x y]) -> wp (Obj.concat a b) H Q.
Proof.
  intros Ea Eb W. unfold wp. rewrite (run_concat a b H x y Ea Eb). exact W.
Qed.

Lemma wp_sort_values c asc r H f :
  H !! r = Some f ->
  match sort_values c asc f with
  | Ret f' => Q (Ret (length H)) (H ++ [f'])
  | Raise e => Q (Raise e) H
  end ->
  wp (Obj.sort_values c asc r) H Q.
Proof.
  intros E W. unfold wp. rewrite (run_sort_values c asc r H f E).
  destruct (sort_values c asc f); exact W.
Qed.

Lemma wp_head v r H f :
  H !! r = Some f ->
  match head v f with
  | Ret f' => Q (Ret (length H)) (H ++ [f'])
  | Raise e => Q (Raise e) H
  end ->
  wp (Obj.head v r) H Q.
Proof.
  intros E W. unfold wp. rewrite (run_head v r H f E).
  destruct (head v f); exact W.
Qed.

End WpTail.

Ltac heap_norm :=
  cbv beta iota;
  rewrite <- ?app_assoc; rewrite ?length_app; rewrite ?insert_app_r;
  cbn [app length insert list_insert].

Ltac solve_lookup Hrd :=
  first [ apply Hrd | rewrite lookup_app_plus; reflexivity ].

Ltac case_outcome :=
  cbv beta iota;
  lazymatch goal with
  | |- match ?x with Ret _ => _ | Raise _ => _ end => destruct x eqn:?
  end.

Ltac wp_step Hrd :=
  lazymatch goal with
  | |- wp (Obj.lift ?o ≫= _) _ _ => apply wp_bind_lift; destruct o eqn:?
  | |- wp (Obj.empty _ ≫= _) _ _ => eapply wp_bind_empty; [solve_lookup Hrd|]
  | |- wp (Obj.select _ _ ≫= _) _ _ =>
      eapply wp_bind_select; [solve_lookup Hrd|]
  | |- wp (Obj.copy _ ≫= _) _ _ => eapply wp_bind_copy; [solve_lookup Hrd|]
  | |- wp (Obj.DataFrame_new ≫= _) _ _ => apply wp_bind_new
  | |- wp (Obj.set_salida_datetime _ _ ≫= _) _ _ =>
      eapply wp_bind_set_salida; [solve_lookup Hrd|]
  | |- wp (Obj.set_llegada_datetime _ _ ≫= _) _ _ =>
      eapply wp_bind_set_llegada; [solve_lookup Hrd|]
  | |- wp (Obj.set_diff _ _ ≫= _) _ _ =>
      eapply wp_bind_set_diff; [solve_lookup Hrd|case_outcome]
  | |- wp (Obj.concat _ _ ≫= _) _ _ =>
      eapply wp_bind_concat; [solve_lookup Hrd|solve_lookup Hrd|]
  | |- wp (Obj.sort_values _ _ _ ≫= _) _ _ =>
      eapply wp_bind_sort_values; [solve_lookup Hrd|case_outcome]
  | |- wp (Obj.head _ _ ≫= _) _ _ =>
      eapply wp_bind_head; [solve_lookup Hrd|case_outcome]
  | |- wp (Obj.drop _ _ ≫= _) _ _ =>
      eapply wp_bind_drop; [solve_lookup Hrd|case_outcome]
  | |- wp ((if ?b then _ else _) ≫= _) _ _ => destruct b eqn:?
  | |- wp (mret _ ≫= _) _ _ => apply wp_bind; apply wp_ret
  | |- wp ((_ ≫= _) ≫= _) _ _ => apply wp_bind
  | |- wp (if ?b then _ else _) _ _ => destruct b eqn:?
  | |- wp (Obj.try_except_ValueError _ _) _ _ => apply wp_try
  | |- wp (Obj.cercanos_policy _ _ _) _ _ => unfold Obj.cercanos_policy
  | |- wp Obj.DataFrame_new _ _ => apply wp_new
  | |- wp (Obj.copy _) _ _ => eapply wp_copy; [solve_lookup Hrd|]
  | |- wp (Obj.concat _ _) _ _ =>
      eapply wp_concat; [solve_lookup Hrd|solve_lookup Hrd|]
  | |- wp (Obj.sort_values _ _ _) _ _ =>
      eapply wp_sort_values; [solve_lookup Hrd|case_outcome]
  | |- wp (Obj.head _ _) _ _ =>
      eapply wp_head; [solve_lookup Hrd|case_outcome]
  | |- wp (mret _) _ _ => apply wp_ret
  | |- match ?e with ValueError => _ | _ => _ end => destruct e
  end; heap_norm.

Ltac wp_done :=
  cbv beta iota;
  eexists; split; [reflexivity|];
  first [ reflexivity | eexists; split; reflexivity ].

Lemma wp_buscar_horarios re_other now l intent (h : list DataFrame) df :
  h !! l = Some df ->
  wp (Obj.buscar_horarios re_other now l intent) h
    (fun o H =>
       exists fs, H = h ++ fs /\
         match buscar_horarios re_other now df intent with
         | Ret res => exists k, o = Ret (length h + k)%nat /\
                                fs !! k = Some res
         | Raise e => o = Raise e
         end).
Proof.
  intros Hl.
  assert (Hrd : forall fs, (h ++ fs) !! l = Some df).
  { intros fs. rewrite lookup_app_l; [exact Hl|].
    eapply lookup_lt_Some. exact Hl. }
  unfold buscar_horarios, cercanos_policy, try_except_ValueError.
  unfold mbind, outcome_bind. cbv zeta.
  unfold Obj.buscar_horarios. cbv zeta.
  rewrite <- (app_nil_r h) at 1.
  repeat (wp_step Hrd).
  all: wp_done.
Qed.

(** The object-level engine computes what [buscar_horarios] computes: it
    raises the same exception, or returns a reference to a new object that
    holds the frame [buscar_horarios] returns; the heap only grows. *)
Lemma obj_agrees re_other now l intent (h : list DataFrame) df :
  h !! l = Some df ->
  exists fs,
    (Obj.buscar_horarios re_other now l intent h).2 = h ++ fs /\
    match buscar_horarios re_other now df intent with
    | Ret res =>
        exists k,
          (Obj.buscar_horarios re_other now l intent h).1 =
            Ret (length h + k)%nat /\
          fs !! k = Some res
    | Raise e => (Obj.buscar_horarios re_other now l intent h).1 = Raise e
    end.
Proof.
  intros Hl. exact (wp_buscar_horarios re_other now l intent h df Hl).
Qed.

(** * The scenarios of the specification *)

(** At 15:00 the 14:50 trip has left; the two others are returned in order
    of departure. *)
Example scenario_now :
  exists res,
    buscar_horarios no_other (at_time 15 0) sample_store intent_now = Ret res /\
    MatchSet res =
      [ trip_of (trip "Ruta 12" "Ida" (hm 15 10) (hm 15 40));
        trip_of (trip "Ruta 60" "Ida" (hm 15 30) (hm 16 0)) ].
Proof. eexists. split; reflexivity. Qed.

(** Early in the day, near 15:25: the arrival of 15:20, then the arrival
    of 15:40. *)
Example scenario_near :
  exists res,
    buscar_horarios no_other (at_time 14 0) sample_store intent_near = Ret res /\
    MatchSet res =
      [ trip_of (trip "Ruta 60" "Ida" (hm 14 50) (hm 15 20));
        trip_of (trip "Ruta 12" "Ida" (hm 15 10) (hm 15 40)) ].
Proof. eexists. split; reflexivity. Qed.

(** The line filter "60", late in the day: the trips of "Ruta 60", the
    ones that have left among them, in order of departure. *)
Example scenario_line :
  exists res,
    buscar_horarios no_other (at_time 23 0) sample_store
      (intent_of [("micro_linea", VStr "60")]) = Ret res /\
    MatchSet res =
      [ trip_of (trip "Ruta 60" "Ida" (hm 14 50) (hm 15 20));
        trip_of (trip "Ruta 60" "Ida" (hm 15 30) (hm 16 0));
        trip_of (trip "Ruta 60" "Vuelta" (hm 17 0) (hm 17 30)) ].
Proof. eexists. split; reflexivity. Qed.

(** [strptime] with the format '%H:%M'. *)
Example strptime_examples :
  strptime_HM "15:30" = Some (hm 15 30) /\
  strptime_HM "9:5" = Some (hm 9 5) /\
  strptime_HM "24:00" = None /\
  strptime_HM "12:60" = None /\
  strptime_HM "12:30 " = None /\
  strptime_HM "ahora" = None.
Proof. repeat split; reflexivity. Qed.

(** * The claims *)

(** C1. With no line filter and a direction set, every trip of a returned
    MatchSet leaves strictly after the current instant, whatever the time
    branch. *)
Theorem departed_trips_excluded re_other now df intent res :
  truthy (lineFilter intent) = false ->
  truthy (direction_of intent) = true ->
  buscar_horarios re_other now df intent = Ret res ->
  forall tr, In tr (MatchSet res) -> instant_lt now (departure now tr).
Proof.
  intros Hline Hdir Hres tr Htr.
  destruct (empty df) eqn:Hdf.
  { rewrite buscar_empty_store in Hres by assumption.
    injection Hres as <-. destruct Htr. }
  destruct (direction_of intent) as [| | |d| |] eqn:Ed;
    try (rewrite buscar_direction_AttributeError in Hres;
         [discriminate Hres|assumption|assumption
         |rewrite Ed; assumption|rewrite Ed; discriminate]).
  apply (upcoming_not_departed now (lower d) df).
  apply (direction_branch_incl re_other now df intent d res); assumption.
Qed.

Lemma departed_trips_excluded_witness :
  truthy (lineFilter intent_now) = false /\
  truthy (direction_of intent_now) = true /\
  exists res,
    buscar_horarios no_other (at_time 15 0) sample_store intent_now = Ret res /\
    MatchSet res =
      [ trip_of (trip "Ruta 12" "Ida" (hm 15 10) (hm 15 40));
        trip_of (trip "Ruta 60" "Ida" (hm 15 30) (hm 16 0)) ] /\
    forall tr, In tr (MatchSet res) ->
      instant_lt (at_time 15 0) (departure (at_time 15 0) tr).
Proof.
  split; [reflexivity|]. split; [reflexivity|].
  eexists. split; [reflexivity|]. split; [reflexivity|].
  apply (departed_trips_excluded no_other (at_time 15 0) sample_store
           intent_now); reflexivity.
Defined.

(** C2, where the engine fails.  When no trip of the direction is left to
    depart, the "cerca" branch sorts the frame [pd.DataFrame()], which has
    no column llegada_datetime: the call raises [KeyError] instead of
    answering an empty result. *)
Theorem near_branch_no_candidate re_other now df intent d s t :
  empty df = false ->
  truthy (lineFilter intent) = false ->
  direction_of intent = VStr d -> truthy (VStr d) = true ->
  timeOfDay intent = VStr s -> strptime_HM s = Some t ->
  timeRelation intent = VStr "cerca" ->
  upcoming now (lower d) df = [] ->
  buscar_horarios re_other now df intent = Raise KeyError.
Proof.
  intros Hdf Hline Hdir Hd Hh Ht Hr HU.
  pose proof (strptime_not_ahora s t Ht) as Hs.
  destruct (buscar_cerca re_other now df intent d Hdf Hline Hdir Hd
              s t Hh Hs Ht Hr) as [H _].
  apply H. exact HU.
Qed.

Lemma near_branch_no_candidate_witness :
  (empty sample_store = false /\
   truthy (lineFilter intent_near) = false /\
   direction_of intent_near = VStr "Ida" /\
   timeOfDay intent_near = VStr "15:25" /\
   strptime_HM "15:25" = Some (hm 15 25) /\
   timeRelation intent_near = VStr "cerca" /\
   upcoming (at_time 16 0) (lower "Ida") sample_store = []) /\
  buscar_horarios no_other (at_time 16 0) sample_store intent_near =
    Raise KeyError.
Proof.
  split; [repeat split; reflexivity|].
  apply (near_branch_no_candidate no_other (at_time 16 0) sample_store
           intent_near "Ida" "15:25" (hm 15 25)); reflexivity.
Defined.

(** C3, where the engine fails.  When no row of a non-empty store has the
    direction, [apply] runs over no row (lines 88-89) and leaves
    llegada_datetime a column of dtype [object]; the "antes_de" and
    "despues_de" branches then subtract the target time from it (lines 133
    and 147), which raises [TypeError], not caught by [except ValueError]:
    the call raises instead of returning the qualifying trips, of which
    there are none. *)
Theorem before_after_no_row re_other now df intent d s t :
  empty df = false ->
  truthy (lineFilter intent) = false ->
  direction_of intent = VStr d -> truthy (VStr d) = true ->
  timeOfDay intent = VStr s -> strptime_HM s = Some t ->
  timeRelation intent = VStr "antes_de" \/
  timeRelation intent = VStr "despues_de" ->
  has_direction (lower d) df = false ->
  buscar_horarios re_other now df intent = Raise TypeError.
Proof.
  intros Hdf Hline Hdir Hd Hh Ht Hr Hrow.
  pose proof (strptime_not_ahora s t Ht) as Hs.
  exact (buscar_no_row_of_direction re_other now df intent d Hdf Hline Hdir
           Hd s t Hh Hs Ht Hrow Hr).
Qed.

Lemma before_after_no_row_witness :
  (empty store_ida = false /\
   truthy (lineFilter intent_vuelta_before) = false /\
   direction_of intent_vuelta_before = VStr "Vuelta" /\
   truthy (VStr "Vuelta") = true /\
   timeOfDay intent_vuelta_before = VStr "15:45" /\
   strptime_HM "15:45" = Some (hm 15 45) /\
   timeRelation intent_vuelta_before = VStr "antes_de" /\
   has_direction (lower "Vuelta") store_ida = false) /\
  buscar_horarios no_other (at_time 14 0) store_ida intent_vuelta_before =
    Raise TypeError.
Proof.
  split; [repeat split; reflexivity|].
  apply (before_after_no_row no_other (at_time 14 0) store_ida
           intent_vuelta_before "Vuelta" "15:45" (hm 15 45));
    try reflexivity.
  left. reflexivity.
Defined.

(** C4. With direction set, no line filter and [timeOfDay] the sentinel
    "ahora", the trips of that direction that have not left yet are put in
    ascending order of departure instant; the result is all of them when
    [fullListing] is true, else the first [requestedCount] of them when a
    count is given, else the first 3 (fewer when fewer qualify). *)
Theorem now_branch_policy re_other now df intent d :
  truthy (lineFilter intent) = false ->
  direction_of intent = VStr d -> truthy (VStr d) = true ->
  timeOfDay intent = VStr "ahora" ->
  exists proximos : list TripRecord,
    Permutation proximos (map trip_of (upcoming now (lower d) df)) /\
    StronglySorted
      (fun a b => instant_le (departure now a) (departure now b)) proximos /\
    (truthy (fullListing intent) = true ->
     exists res, buscar_horarios re_other now df intent = Ret res /\
                 MatchSet res = proximos) /\
    (truthy (fullListing intent) = false ->
     forall n, requestedCount intent = VInt n -> 0 <= n ->
     exists res, buscar_horarios re_other now df intent = Ret res /\
                 MatchSet res = firstn (Z.to_nat n) proximos) /\
    (truthy (fullListing intent) = false ->
     requestedCount intent = VNone ->
     exists res, buscar_horarios re_other now df intent = Ret res /\
                 MatchSet res = firstn 3 proximos).
Proof.
  intros Hline Hdir Hd Hh.
  exists (proximos_of now d df).
  split; [apply proximos_of_Permutation|].
  split; [apply proximos_of_sorted|].
  destruct (empty df) eqn:Hdf.
  - assert (Hp : proximos_of now d df = []).
    { unfold proximos_of. rewrite (upcoming_empty _ _ _ Hdf). reflexivity. }
    assert (Hb : buscar_horarios re_other now df intent = Ret DataFrame_new).
    { unfold buscar_horarios. rewrite Hdf. reflexivity. }
    rewrite Hp, Hb.
    repeat split; intros; eexists; (split; [reflexivity|]);
      try reflexivity.
    rewrite firstn_nil. reflexivity.
  - rewrite (buscar_ahora re_other now df intent d Hdf Hline Hdir Hd Hh).
    rewrite sort_salida_df_filtrado by assumption.
    repeat split.
    + intros Hf. simpl. rewrite Hf. eexists; split; reflexivity.
    + intros Hf n Hn Hpos. simpl. rewrite Hf, Hn. simpl.
      eexists; split; [reflexivity|].
      unfold MatchSet, proximos_of, slice_to. simpl.
      destruct (Z.leb_spec 0 n); [|lia].
      rewrite firstn_map. reflexivity.
    + intros Hf Hn. simpl. rewrite Hf, Hn. simpl.
      eexists; split; [reflexivity|].
      unfold MatchSet, proximos_of, slice_to. simpl.
      rewrite firstn_map. reflexivity.
Qed.

Lemma now_branch_policy_witness :
  let intent := intent_of [("direccion", VStr "Ida"); ("hora", VStr "ahora")] in
  exists proximos : list TripRecord,
    Permutation proximos
      (map trip_of (upcoming (at_time 15 0) (lower "Ida") sample_store)) /\
    StronglySorted
      (fun a b => instant_le (departure (at_time 15 0) a)
                    (departure (at_time 15 0) b)) proximos /\
    (truthy (fullListing intent) = true ->
     exists res,
       buscar_horarios no_other (at_time 15 0) sample_store intent = Ret res /\
       MatchSet res = proximos) /\
    (truthy (fullListing intent) = false ->
     forall n, requestedCount intent = VInt n -> 0 <= n ->
     exists res,
       buscar_horarios no_other (at_time 15 0) sample_store intent = Ret res /\
       MatchSet res = firstn (Z.to_nat n) proximos) /\
    (truthy (fullListing intent) = false ->
     requestedCount intent = VNone ->
     exists res,
       buscar_horarios no_other (at_time 15 0) sample_store intent = Ret res /\
       MatchSet res = firstn 3 proximos).
Proof.
  apply (now_branch_policy no_other (at_time 15 0) sample_store
           (intent_of [("direccion", VStr "Ida"); ("hora", VStr "ahora")])
           "Ida"); reflexivity.
Defined.

(** C5.  The filter is read as a regular expression: on the sample store
    the filter "6." selects the three trips of "Ruta 60", whose line does
    not contain the text "6.". *)
Theorem line_filter_read_as_pattern re_other now :
  let intent := intent_of [("micro_linea", VStr "6.")] in
  (exists res,
     buscar_horarios re_other now sample_store intent = Ret res /\
     MatchSet res =
       [ trip_of (trip "Ruta 60" "Ida" (hm 14 50) (hm 15 20));
         trip_of (trip "Ruta 60" "Ida" (hm 15 30) (hm 16 0));
         trip_of (trip "Ruta 60" "Vuelta" (hm 17 0) (hm 17 30)) ]) /\
  List.filter (linea_contains (lower "6.")) (rows sample_store) = [].
Proof.
  split; [|reflexivity].
  eexists. split; reflexivity.
Qed.

(** C6, as the code has it.  The engine returns a frame, and raises
    nothing, for every store and instant and for every intent whose line
    filter and direction are strings (or not truthy), whose line filter is
    a pattern [re.compile] accepts, whose time of day is a string (or not
    truthy) and whose count is an integer or [None]; a string that is not
    a time gives the empty frame.  Two cases are set aside: the "cerca"
    relation with no upcoming trip, and the "antes_de" and "despues_de"
    relations when no row of the store has the direction.  Other shapes
    are not validated, and on a store with rows they raise: a truthy line
    filter that is not a string, [AttributeError]; with no line filter, a
    truthy direction that is not a string, [AttributeError]; with a string
    direction, a truthy time of day that is not a string, [TypeError];
    and, where the count is read, a count that is neither an integer nor
    [None], [TypeError]. *)
Theorem engine_returns re_other now df intent :
  (str_or_falsy (lineFilter intent) = true ->
   (forall ml, lineFilter intent = VStr ml ->
      exists c, re_compile re_other (lower ml) = Ret c) ->
   str_or_falsy (direction_of intent) = true ->
   str_or_falsy (timeOfDay intent) = true ->
   int_or_None (requestedCount intent) = true ->
   (forall d s t,
      empty df = false -> truthy (lineFilter intent) = false ->
      direction_of intent = VStr d -> timeOfDay intent = VStr s ->
      strptime_HM s = Some t ->
      (timeRelation intent = VStr "cerca" ->
       upcoming now (lower d) df <> []) /\
      (timeRelation intent = VStr "antes_de" \/
       timeRelation intent = VStr "despues_de" ->
       has_direction (lower d) df = true)) ->
   (exists res, buscar_horarios re_other now df intent = Ret res) /\
   (forall s, truthy (lineFilter intent) = false ->
      truthy (direction_of intent) = true ->
      timeOfDay intent = VStr s -> s <> "ahora" -> strptime_HM s = None ->
      buscar_horarios re_other now df intent = Ret DataFrame_new)) /\
  (empty df = false ->
   (truthy (lineFilter intent) = true ->
    (forall ml, lineFilter intent <> VStr ml) ->
    buscar_horarios re_other now df intent = Raise AttributeError) /\
   (truthy (lineFilter intent) = false ->
    (truthy (direction_of intent) = true ->
     (forall d, direction_of intent <> VStr d) ->
     buscar_horarios re_other now df intent = Raise AttributeError) /\
    (forall d, direction_of intent = VStr d -> truthy (VStr d) = true ->
       (truthy (timeOfDay intent) = true ->
        (forall s, timeOfDay intent <> VStr s) ->
        buscar_horarios re_other now df intent = Raise TypeError) /\
       (truthy (fullListing intent) = false ->
        int_or_None (requestedCount intent) = false ->
        timeOfDay intent = VStr "ahora" \/
        (exists s t,
           timeOfDay intent = VStr s /\ strptime_HM s = Some t /\
           (timeRelation intent = VStr "antes_de" \/
            timeRelation intent = VStr "despues_de") /\
           has_direction (lower d) df = true) ->
        buscar_horarios re_other now df intent = Raise TypeError)))).
Proof.
  split.
  { intros Hml Hre Hdir Hh Hn Hslip.
    destruct (empty df) eqn:Hdf.
    { rewrite buscar_empty_store by assumption. split; eauto. }
    apply str_or_falsy_cases in Hdir.
    split.
    - apply str_or_falsy_cases in Hml.
      destruct Hml as [Hml|(ml & Hml & Hmt)].
      2:{ destruct (Hre ml Hml) as [c Hc].
          destruct (line_branch_result re_other now df intent ml c Hml Hmt
                      Hc) as [H1 H2].
          destruct Hdir as [Hd|(d & Hd & Hdt)].
          - destruct (H1 Hd) as (res & Hres & _). eauto.
          - destruct (H2 d Hd Hdt) as (res & Hres & _). eauto. }
      destruct Hdir as [Hd|(d & Hd & Hdt)].
      { rewrite buscar_no_direction by assumption. eauto. }
      destruct (time_cases intent)
        as [[H1 H2]|[[H1 H2]|[Ha|[(s & Hs1 & Hs2 & Hp)|(s & t & Hs1 & Ht)]]]].
      + rewrite (buscar_no_time re_other now df intent d) by assumption.
        eauto.
      + apply str_or_falsy_cases in Hh.
        destruct Hh as [Hh|(s & Hh & _)]; [congruence|].
        exfalso. apply (H2 s). exact Hh.
      + rewrite (buscar_ahora re_other now df intent d) by assumption.
        rewrite sort_salida_df_filtrado. cbn [mbind outcome_bind].
        destruct (truthy (fullListing intent)); [eauto|].
        destruct (is_not_None (requestedCount intent));
          [apply head_int_or_None; exact Hn|eauto].
      + rewrite (buscar_bad_time re_other now df intent d) with (s := s)
          by assumption. eauto.
      + pose proof (strptime_not_ahora s t Ht) as Hs.
        destruct (Hslip d s t eq_refl Hml Hd Hs1 Ht) as [Hnear Hrows].
        destruct (relation_cases intent) as [Hc|[Hc|[Hc|(R1 & R2 & R3)]]].
        * destruct (buscar_cerca re_other now df intent d Hdf Hml Hd Hdt
                      s t Hs1 Hs Ht Hc) as [_ H].
          destruct H as (res & Hres & _); [|eauto].
          apply Hnear. exact Hc.
        * destruct (buscar_antes_de re_other now df intent d Hdf Hml Hd Hdt
                      s t Hs1 Hs Ht (Hrows (or_introl Hc)) Hc)
            as (c & Hc' & _).
          rewrite Hc'. apply policy_returns. exact Hn.
        * destruct (buscar_despues_de re_other now df intent d Hdf Hml Hd
                      Hdt s t Hs1 Hs Ht (Hrows (or_intror Hc)) Hc)
            as (c & Hc' & _).
          rewrite Hc'. apply policy_returns. exact Hn.
        * rewrite (buscar_no_relation re_other now df intent d Hdf Hml Hd
                     Hdt s t Hs1 Hs Ht R1 R2 R3). eauto.
    - intros s Hline Hdt Hs1 Hs2 Hp.
      destruct Hdir as [Hd|(d & Hd & Hdt')]; [congruence|].
      apply (buscar_bad_time re_other now df intent d) with (s := s);
        try assumption.
      destruct (String.eqb_spec s "ahora"); [contradiction|reflexivity]. }
  intros Hdf. split.
  { intros Hml Hn. apply buscar_line_AttributeError; assumption. }
  intros Hml. split.
  { intros Hdt Hn. apply buscar_direction_AttributeError; assumption. }
  intros d Hd Hdt. split.
  { intros Hh Hn.
    apply (buscar_time_TypeError re_other now df intent d); assumption. }
  intros Hfl Hn [Ha|(s & t & Hs1 & Ht & Hc & Hrow)].
  - rewrite (buscar_ahora re_other now df intent d) by assumption.
    rewrite sort_salida_df_filtrado. cbn [mbind outcome_bind].
    rewrite Hfl. destruct (requestedCount intent); try discriminate Hn;
      reflexivity.
  - pose proof (strptime_not_ahora s t Ht) as Hs.
    destruct Hc as [Hc|Hc].
    + destruct (buscar_antes_de re_other now df intent d Hdf Hml Hd Hdt
                  s t Hs1 Hs Ht Hrow Hc) as (c & Hc' & _).
      rewrite Hc'. apply policy_TypeError; assumption.
    + destruct (buscar_despues_de re_other now df intent d Hdf Hml Hd Hdt
                  s t Hs1 Hs Ht Hrow Hc) as (c & Hc' & _).
      rewrite Hc'. apply policy_TypeError; assumption.
Qed.

Lemma engine_returns_witness :
  (str_or_falsy (lineFilter intent_now) = true /\
   str_or_falsy (direction_of intent_now) = true /\
   str_or_falsy (timeOfDay intent_now) = true /\
   int_or_None (requestedCount intent_now) = true) /\
  exists res,
    buscar_horarios no_other (at_time 15 0) sample_store intent_now = Ret res.
Proof.
  split; [repeat split; reflexivity|].
  apply (proj1 (engine_returns no_other (at_time 15 0) sample_store
                  intent_now));
    try reflexivity.
  - intros ml H. discriminate H.
  - intros d s t _ _ _ _ _. split.
    + intros H. discriminate H.
    + intros [H|H]; discriminate H.
Defined.

(** C6, as stated, fails: a line filter that is a number makes
    [micro_linea.lower()] raise [AttributeError]. *)
Lemma engine_raises_on_number_filter :
  buscar_horarios no_other (at_time 15 0) sample_store
    (intent_of [("micro_linea", VInt 60)]) = Raise AttributeError /\
  ~ (exists res,
       buscar_horarios no_other (at_time 15 0) sample_store
         (intent_of [("micro_linea", VInt 60)]) = Ret res).
Proof.
  split; [reflexivity|].
  intros [res H]. discriminate H.
Qed.



(** C8. The engine answers the empty frame when the store is empty,
    whatever the intent; and, with no line filter: when no direction is
    set; when a direction is set and there is no time of day; when the
    time of day is a string that is not a time; when the time is well
    formed and the relation is none of "cerca", "antes_de",
    "despues_de". *)
Theorem degenerate_cases re_other now df intent :
  (empty df = true ->
   buscar_horarios re_other now df intent = Ret DataFrame_new) /\
  (truthy (lineFilter intent) = false ->
   truthy (direction_of intent) = false ->
   buscar_horarios re_other now df intent = Ret DataFrame_new) /\
  (forall d,
     truthy (lineFilter intent) = false ->
     direction_of intent = VStr d -> truthy (VStr d) = true ->
     (timeOfDay intent = VNone ->
      buscar_horarios re_other now df intent = Ret DataFrame_new) /\
     (forall s, timeOfDay intent = VStr s -> s <> "ahora" ->
                strptime_HM s = None ->
      buscar_horarios re_other now df intent = Ret DataFrame_new) /\
     (forall s t, timeOfDay intent = VStr s -> strptime_HM s = Some t ->
                  timeRelation intent <> VStr "cerca" ->
                  timeRelation intent <> VStr "antes_de" ->
                  timeRelation intent <> VStr "despues_de" ->
      buscar_horarios re_other now df intent = Ret DataFrame_new)).
Proof.
  split; [apply buscar_empty_store|].
  split; [apply buscar_no_direction|].
  intros d Hline Hdir Hd.
  destruct (empty df) eqn:Hdf.
  { rewrite buscar_empty_store by assumption. repeat split; reflexivity. }
  split; [|split].
  - intros Hh. apply (buscar_no_time re_other now df intent d);
      try assumption; rewrite Hh; reflexivity.
  - intros s Hh Hs Hp.
    apply (buscar_bad_time re_other now df intent d) with (s := s);
      try assumption.
    destruct (String.eqb_spec s "ahora"); [contradiction|reflexivity].
  - intros s t Hh Ht R1 R2 R3.
    pose proof (strptime_not_ahora s t Ht) as Hs.
    destruct (relation_cases intent) as [Hc|[Hc|[Hc|(E1 & E2 & E3)]]];
      try contradiction.
    apply (buscar_no_relation re_other now df intent d Hdf Hline Hdir Hd
             s t Hh Hs Ht E1 E2 E3).
Qed.

Lemma degenerate_cases_witness :
  (truthy (lineFilter (intent_of [("hora", VStr "ahora")])) = false /\
   truthy (direction_of (intent_of [("hora", VStr "ahora")])) = false /\
   buscar_horarios no_other (at_time 14 0) sample_store
     (intent_of [("hora", VStr "ahora")]) = Ret DataFrame_new) /\
  (direction_of (intent_of [("direccion", VStr "Ida"); ("hora", VStr "25:00")])
     = VStr "Ida" /\
   strptime_HM "25:00" = None /\
   buscar_horarios no_other (at_time 14 0) sample_store
     (intent_of [("direccion", VStr "Ida"); ("hora", VStr "25:00")]) =
     Ret DataFrame_new).
Proof.
  split.
  - split; [reflexivity|]. split; [reflexivity|].
    apply (degenerate_cases no_other (at_time 14 0) sample_store
             (intent_of [("hora", VStr "ahora")])); reflexivity.
  - split; [reflexivity|]. split; [reflexivity|].
    apply (degenerate_cases no_other (at_time 14 0) sample_store
             (intent_of [("direccion", VStr "Ida"); ("hora", VStr "25:00")]))
      with (d := "Ida") (s := "25:00");
      try reflexivity. discriminate.
Defined.

(** C9. With the line filter set to a non-empty string, the result depends
    on the store, the line filter and the direction only: two calls that
    differ in the time of day, the time relation, the count, the full
    listing flag or the current instant answer the same; in particular a
    count never shortens the answer. *)
Theorem line_branch_independent re_other now1 now2 df intent1 intent2 ml :
  lineFilter intent1 = VStr ml -> truthy (VStr ml) = true ->
  dict_get intent2 "micro_linea" = dict_get intent1 "micro_linea" ->
  dict_get intent2 "direccion" = dict_get intent1 "direccion" ->
  buscar_horarios re_other now1 df intent1 =
    buscar_horarios re_other now2 df intent2 /\
  forall v,
    buscar_horarios re_other now1 df (<["cantidad" := v]> intent1) =
      buscar_horarios re_other now1 df (delete "cantidad" intent1).
Proof.
  intros Hml Ht.
  assert (H : forall n1 n2 i1 i2,
             lineFilter i1 = VStr ml ->
             dict_get i2 "micro_linea" = dict_get i1 "micro_linea" ->
             dict_get i2 "direccion" = dict_get i1 "direccion" ->
             buscar_horarios re_other n1 df i1 =
               buscar_horarios re_other n2 df i2).
  { intros n1 n2 i1 i2 H1 Hm Hd. unfold buscar_horarios.
    unfold lineFilter in H1. rewrite Hm, Hd, H1, Ht.
    destruct (empty df); reflexivity. }
  intros Hm Hd. split; [apply H; assumption|].
  intros v. apply H.
  - unfold lineFilter, dict_get in *.
    rewrite lookup_insert_ne by discriminate. exact Hml.
  - unfold dict_get. rewrite lookup_delete_ne, lookup_insert_ne by discriminate.
    reflexivity.
  - unfold dict_get. rewrite lookup_delete_ne, lookup_insert_ne by discriminate.
    reflexivity.
Qed.

Lemma line_branch_independent_witness :
  (lineFilter intent_line = VStr "Ruta 60" /\
   truthy (VStr "Ruta 60") = true /\
   dict_get intent_line_count "micro_linea" =
     dict_get intent_line "micro_linea" /\
   dict_get intent_line_count "direccion" = dict_get intent_line "direccion") /\
  buscar_horarios no_other (at_time 9 0) sample_store intent_line =
    buscar_horarios no_other (at_time 23 0) sample_store intent_line_count.
Proof.
  split; [repeat split; reflexivity|].
  apply (line_branch_independent no_other (at_time 9 0) (at_time 23 0)
           sample_store intent_line intent_line_count "Ruta 60");
    reflexivity.
Defined.

(** C10. A call leaves the store as it was: every frame object that exists
    before the call, the one passed as [df] among them, is the same frame
    after it, row for row and column for column; the frame returned is a
    new object. *)
Theorem store_unchanged re_other now df intent (h : list DataFrame)
    (l : nat) (f : DataFrame) :
  h !! l = Some f ->
  (Obj.buscar_horarios re_other now df intent h).2 !! l = Some f /\
  forall r, (Obj.buscar_horarios re_other now df intent h).1 = Ret r ->
            (length h <= r)%nat.
Proof.
  intros Hl.
  destruct (keeps_buscar_horarios (length h) re_other now df intent h
              (Nat.le_refl _)) as (H1 & H2 & H3).
  split; [|exact H3].
  rewrite firstn_all in H1.
  assert (Hlt : (l < length h)%nat) by (eapply lookup_lt_Some; exact Hl).
  rewrite <- (lookup_take_lt _ (length h) l) by exact Hlt.
  rewrite H1. exact Hl.
Qed.

Lemma store_unchanged_witness :
  [sample_store] !! 0%nat = Some sample_store /\
  (Obj.buscar_horarios no_other (at_time 15 0) 0%nat intent_now
     [sample_store]).2 !! 0%nat = Some sample_store.
Proof.
  split; [reflexivity|].
  apply (store_unchanged no_other (at_time 15 0) 0%nat intent_now
           [sample_store] 0%nat sample_store). reflexivity.
Defined.

(** * Further properties

    Properties of the engine beyond the claims, and of the conversation
    handler around it. *)

Lemma near_branch_selection_witness :
  (truthy (lineFilter intent_near) = false /\
   direction_of intent_near = VStr "Ida" /\
   truthy (VStr "Ida") = true /\
   timeOfDay intent_near = VStr "15:25" /\
   strptime_HM "15:25" = Some (hm 15 25) /\
   timeRelation intent_near = VStr "cerca" /\
   upcoming (at_time 14 0) (lower "Ida") sample_store <> []) /\
  exists res bs afs,
    buscar_horarios no_other (at_time 14 0) sample_store intent_near =
      Ret res /\
    MatchSet res = bs ++ afs /\ (length bs <= 1)%nat /\ (length afs <= 1)%nat.
Proof.
  assert (HU : upcoming (at_time 14 0) (lower "Ida") sample_store <> [])
    by (intros H; vm_compute in H; discriminate H).
  split; [repeat split; try reflexivity; exact HU|].
  destruct (near_branch_selection no_other (at_time 14 0) sample_store
              intent_near "Ida" "15:25" (hm 15 25)
              eq_refl eq_refl eq_refl eq_refl eq_refl eq_refl HU)
    as (res & bs & afs & Hres & Hm & Hb & Ha).
  exists res, bs, afs. split; [exact Hres|]. split; [exact Hm|]. split.
  - destruct Hb as [[-> _]|(b & -> & _)]; simpl; lia.
  - destruct Ha as [[-> _]|(a & -> & _)]; simpl; lia.
Defined.

Lemma line_branch_plain_witness :
  (lineFilter intent_line = VStr "Ruta 60" /\
   truthy (VStr "Ruta 60") = true /\
   plain (lower "Ruta 60") = true /\
   truthy (direction_of intent_line) = false) /\
  exists res,
    buscar_horarios no_other (at_time 15 0) sample_store intent_line =
      Ret res /\
    Permutation (MatchSet res)
      (map trip_of
         (List.filter (linea_contains (lower "Ruta 60")) (rows sample_store))).
Proof.
  split; [repeat split; reflexivity|].
  destruct (line_branch_plain no_other (at_time 15 0) sample_store
              intent_line "Ruta 60" eq_refl eq_refl eq_refl) as [H _].
  destruct (H eq_refl) as (res & Hres & Hp & _).
  exists res. split; assumption.
Defined.

(** ** What a result holds *)

Lemma sublist_filter {A} (p : A -> bool) (l : list A) :
  sublist (List.filter p l) l.
Proof.
  induction l as [|x l IH]; simpl; [constructor|].
  destruct (p x); [apply sublist_skip|apply sublist_cons]; exact IH.
Qed.

Lemma submseteq_map {A B} (f : A -> B) (l1 l2 : list A) :
  l1 ⊆+ l2 -> map f l1 ⊆+ map f l2.
Proof.
  induction 1; simpl.
  - constructor.
  - apply submseteq_skip. assumption.
  - apply submseteq_swap.
  - apply submseteq_cons. assumption.
  - etransitivity; eassumption.
Qed.

Lemma filter_complement_Permutation {A} (p q : A -> bool) (l : list A) :
  (forall x, q x = negb (p x)) ->
  Permutation (List.filter p l ++ List.filter q l) l.
Proof.
  intros H. induction l as [|x l IH]; simpl; [constructor|].
  rewrite (H x). destruct (p x); simpl.
  - apply perm_skip. exact IH.
  - eapply Permutation_trans; [apply Permutation_sym, Permutation_middle|].
    apply perm_skip. exact IH.
Qed.

Lemma arrives_after_negb now T r :
  arrives_after now T r = negb (arrives_by now T r).
Proof.
  unfold arrives_after, arrives_by, dt_ltb, dt_leb. apply Z.ltb_antisym.
Qed.

Lemma arrives_from_negb now T r :
  arrives_from now T r = negb (arrives_before now T r).
Proof.
  unfold arrives_from, arrives_before, dt_ltb, dt_leb. apply Z.leb_antisym.
Qed.

Lemma firstn_submseteq {A} n (l : list A) : firstn n l ⊆+ l.
Proof. apply sublist_submseteq, sublist_take. Qed.

Lemma near_rows_submseteq now T U : near_rows now T U ⊆+ U.
Proof.
  unfold near_rows.
  etransitivity;
    [|apply Permutation_submseteq,
        (filter_complement_Permutation (arrives_by now T)
           (arrives_after now T)), arrives_after_negb].
  apply submseteq_app.
  - etransitivity; [apply firstn_submseteq|].
    apply Permutation_submseteq.
    eapply Permutation_trans; [apply Permutation_sym, Permutation_rev|].
    eapply Permutation_trans; [apply sort_by_Permutation|].
    apply Permutation_sym, Permutation_rev.
  - etransitivity; [apply firstn_submseteq|].
    apply Permutation_submseteq, sort_by_Permutation.
Qed.

Lemma upcoming_submseteq now d df : upcoming now d df ⊆+ rows df.
Proof. apply sublist_submseteq, sublist_filter. Qed.

(** What the line-filter branch answers, for any filter and direction: the
    rows of the store that pass some test, which includes the test of the
    direction when one is given. *)
Lemma line_branch_rows re_other now df intent res :
  empty df = false ->
  truthy (lineFilter intent) = true ->
  buscar_horarios re_other now df intent = Ret res ->
  exists p : Row -> bool,
    Permutation (rows res) (List.filter p (rows df)) /\
    forall d, direction_of intent = VStr d -> truthy (VStr d) = true ->
              forall r, p r = true -> direccion_is (lower d) r = true.
Proof.
  intros Hdf Ht. unfold buscar_horarios. unfold_fields. rewrite Hdf, Ht.
  destruct (py_lower (first_if_list (dict_get intent "micro_linea")))
    as [pat|e]; [|discriminate].
  cbn [mbind outcome_bind].
  destruct (re_compile re_other pat) as [c|e]; [|discriminate].
  cbn [mbind outcome_bind].
  destruct (truthy (first_if_list (dict_get intent "direccion"))) eqn:Hd.
  - destruct (first_if_list (dict_get intent "direccion"))
      as [| | |d0| |] eqn:Ed; try discriminate.
    cbn [py_lower mbind outcome_bind]. rewrite sort_salida_rows.
    intros [= <-]. unfold copy, select. cbn [rows].
    exists (fun r => linea_matches c r && direccion_is (lower d0) r).
    split.
    + rewrite filter_filter. apply sort_by_Permutation.
    + intros d [= <-] _ r Hr. apply andb_true_iff in Hr. tauto.
  - cbn [mbind outcome_bind]. rewrite sort_salida_rows.
    intros [= <-]. unfold copy, select. cbn [rows].
    exists (linea_matches c). split; [apply sort_by_Permutation|].
    intros d Ed Hdt. rewrite Ed in Hd. congruence.
Qed.

(** In the direction branch the trips of a result are upcoming trips of
    the direction, none more often than the store has it. *)
Lemma direction_branch_submseteq re_other now df intent d res :
  truthy (lineFilter intent) = false ->
  direction_of intent = VStr d -> truthy (VStr d) = true ->
  buscar_horarios re_other now df intent = Ret res ->
  MatchSet res ⊆+ map trip_of (upcoming now (lower d) df).
Proof.
  intros Hline Hdir Hd Hres.
  destruct (empty df) eqn:Hdf.
  { rewrite buscar_empty_store in Hres by assumption.
    injection Hres as <-. apply submseteq_nil_l. }
  destruct (time_cases intent)
    as [[H1 H2]|[[H1 H2]|[Hh|[(s & Hh & Hs & Hp)|(s & t & Hh & Ht)]]]].
  - rewrite (buscar_no_time re_other now df intent d) in Hres by assumption.
    injection Hres as <-. apply submseteq_nil_l.
  - rewrite (buscar_time_TypeError re_other now df intent d) in Hres
      by assumption. discriminate Hres.
  - destruct (ahora_result re_other now df intent d Hdf Hline Hdir Hd Hh)
      as [_ Hg].
    destruct (Hg res Hres) as [n Hn]. rewrite Hn.
    etransitivity; [apply firstn_submseteq|].
    apply Permutation_submseteq, proximos_of_Permutation.
  - rewrite (buscar_bad_time re_other now df intent d) with (s := s) in Hres
      by assumption.
    injection Hres as <-. apply submseteq_nil_l.
  - pose proof (strptime_not_ahora s t Ht) as Hs.
    assert (Hpol : forall p c,
              buscar_horarios re_other now df intent =
                cercanos_policy (fullListing intent) (requestedCount intent)
                  c ->
              MatchSet c =
                map trip_of (sort_by (closeness now (combine now t))
                               (List.filter p (upcoming now (lower d) df))) ->
              MatchSet res ⊆+ map trip_of (upcoming now (lower d) df)).
    { intros p c Hc Hm. rewrite Hc in Hres.
      apply policy_firstn in Hres. destruct Hres as [n Hn].
      unfold MatchSet at 1. rewrite Hn, <- firstn_map.
      fold (MatchSet c). rewrite Hm.
      etransitivity; [apply firstn_submseteq|].
      apply submseteq_map.
      etransitivity; [apply Permutation_submseteq, sort_by_Permutation|].
      apply sublist_submseteq, sublist_filter. }
    destruct (relation_cases intent) as [Hr|[Hr|[Hr|(R1 & R2 & R3)]]].
    + destruct (buscar_cerca re_other now df intent d Hdf Hline Hdir Hd
                  s t Hh Hs Ht Hr) as [Hnil Hsome].
      destruct (upcoming now (lower d) df) as [|r0 U0] eqn:EU.
      * rewrite Hnil in Hres by reflexivity. discriminate Hres.
      * destruct Hsome as (res' & Hres' & Hm); [discriminate|].
        rewrite Hres' in Hres. injection Hres as <-. rewrite Hm.
        apply submseteq_map, near_rows_submseteq.
    + pose proof (returns_has_direction re_other now df intent d Hdf Hline
                    Hdir Hd s t Hh Hs Ht res (or_introl Hr) Hres) as Hrow.
      destruct (buscar_antes_de re_other now df intent d Hdf Hline Hdir Hd
                  s t Hh Hs Ht Hrow Hr) as (c & Hc & Hm).
      exact (Hpol _ c Hc Hm).
    + pose proof (returns_has_direction re_other now df intent d Hdf Hline
                    Hdir Hd s t Hh Hs Ht res (or_intror Hr) Hres) as Hrow.
      destruct (buscar_despues_de re_other now df intent d Hdf Hline Hdir Hd
                  s t Hh Hs Ht Hrow Hr) as (c & Hc & Hm).
      exact (Hpol _ c Hc Hm).
    + rewrite (buscar_no_relation re_other now df intent d Hdf Hline Hdir Hd
                 s t Hh Hs Ht R1 R2 R3) in Hres.
      injection Hres as <-. apply submseteq_nil_l.
Qed.

(** X3. Whatever the intent, the trips of a returned frame are trips of
    the store, none listed more often than the store holds it. *)
Theorem result_within_store re_other now df intent res :
  buscar_horarios re_other now df intent = Ret res ->
  MatchSet res ⊆+ MatchSet df.
Proof.
  intros Hres.
  destruct (empty df) eqn:Hdf.
  { rewrite buscar_empty_store in Hres by assumption.
    injection Hres as <-. apply submseteq_nil_l. }
  destruct (truthy (lineFilter intent)) eqn:Hline.
  { destruct (line_branch_rows re_other now df intent res Hdf Hline Hres)
      as (p & Hp & _).
    unfold MatchSet. apply submseteq_map.
    etransitivity; [apply Permutation_submseteq; exact Hp|].
    apply sublist_submseteq, sublist_filter. }
  destruct (truthy (direction_of intent)) eqn:Hdt.
  2:{ rewrite buscar_no_direction in Hres by assumption.
      injection Hres as <-. apply submseteq_nil_l. }
  destruct (direction_of intent) as [| | |d| |] eqn:Hdir;
    try (rewrite buscar_direction_AttributeError in Hres;
         [discriminate Hres|assumption|assumption
         |rewrite Hdir; assumption|rewrite Hdir; discriminate]).
  etransitivity;
    [apply (direction_branch_submseteq re_other now df intent d res);
       assumption|].
  apply submseteq_map, upcoming_submseteq.
Qed.

Lemma result_within_store_witness :
  exists res,
    buscar_horarios no_other (at_time 15 0) sample_store intent_now =
      Ret res /\
    MatchSet res ⊆+ MatchSet sample_store.
Proof.
  eexists. split; [vm_compute; reflexivity|].
  apply (result_within_store no_other (at_time 15 0) sample_store intent_now).
  vm_compute. reflexivity.
Defined.

Lemma direccion_is_trip d r :
  direccion_is d r = true ->
  exists s, direction (trip_of r) = Some s /\ lower s = d.
Proof.
  unfold direccion_is. cbn [trip_of direction].
  destruct (Direccion r) as [s|]; [|discriminate].
  intros Hr. exists s. split; [reflexivity|]. apply String.eqb_eq. exact Hr.
Qed.

(** Every trip of a result comes from a row that passes the test of the
    direction. *)
Lemma results_pass_direction re_other now df intent d res :
  direction_of intent = VStr d -> truthy (VStr d) = true ->
  buscar_horarios re_other now df intent = Ret res ->
  forall tr, In tr (MatchSet res) ->
    exists r, trip_of r = tr /\ direccion_is (lower d) r = true.
Proof.
  intros Hdir Hd Hres tr Htr.
  destruct (empty df) eqn:Hdf.
  { rewrite buscar_empty_store in Hres by assumption.
    injection Hres as <-. destruct Htr. }
  destruct (truthy (lineFilter intent)) eqn:Hline.
  - destruct (line_branch_rows re_other now df intent res Hdf Hline Hres)
      as (p & Hp & Hpd).
    apply in_map_iff in Htr. destruct Htr as (r & <- & Hr).
    apply (Permutation_in _ Hp) in Hr. apply filter_In in Hr.
    exists r. split; [reflexivity|]. apply (Hpd d Hdir Hd). tauto.
  - apply (direction_branch_incl re_other now df intent d res Hline Hdir Hd
             Hres) in Htr.
    apply in_map_iff in Htr. destruct Htr as (r & <- & Hr).
    apply filter_In in Hr. destruct Hr as [_ Hr].
    apply andb_true_iff in Hr. exists r. split; [reflexivity|]. tauto.
Qed.

(** X4. With a direction given as a non-empty string, every trip of a
    returned frame has that direction, case folded, in the line-filter
    branch as in the time branches. *)
Theorem result_has_direction re_other now df intent d res :
  direction_of intent = VStr d -> truthy (VStr d) = true ->
  buscar_horarios re_other now df intent = Ret res ->
  forall tr, In tr (MatchSet res) ->
    exists s, direction tr = Some s /\ lower s = lower d.
Proof.
  intros Hdir Hd Hres tr Htr.
  destruct (results_pass_direction re_other now df intent d res
              Hdir Hd Hres tr Htr) as (r & <- & Hr).
  apply direccion_is_trip. exact Hr.
Qed.

Lemma result_has_direction_witness :
  exists res,
    (direction_of intent_now = VStr "Ida" /\
     truthy (VStr "Ida") = true /\
     buscar_horarios no_other (at_time 15 0) sample_store intent_now =
       Ret res) /\
    forall tr, In tr (MatchSet res) ->
      exists s, direction tr = Some s /\ lower s = lower "Ida".
Proof.
  eexists. split; [repeat split; vm_compute; reflexivity|].
  apply (result_has_direction no_other (at_time 15 0) sample_store
           intent_now "Ida"); vm_compute; reflexivity.
Defined.

(** ** What the engine reads *)

Lemma folded_same v1 v2 :
  folded v1 = folded v2 ->
  truthy (first_if_list v1) = truthy (first_if_list v2) /\
  py_lower (first_if_list v1) = py_lower (first_if_list v2).
Proof.
  unfold folded.
  destruct (first_if_list v1) as [|b1|n1|s1|l1|m1],
           (first_if_list v2) as [|b2|n2|s2|l2|m2];
    intros H; try discriminate H.
  4:{ injection H as H. cbn [py_lower truthy]. rewrite H.
      split; [|reflexivity].
      destruct s1, s2; try reflexivity; discriminate H. }
  all: try (injection H as ->); split; reflexivity.
Qed.

(** X5. The engine reads six fields of the intent and nothing else, the
    direction and the line filter only through their first element and in
    lower case: two intents with the same reading have the same outcome,
    exception included. *)
Theorem engine_reads_folded re_other now df i1 i2 :
  same_reading i1 i2 ->
  buscar_horarios re_other now df i1 = buscar_horarios re_other now df i2.
Proof.
  intros (Hd & Hm & Hh & Hc & Hn & Hf).
  apply folded_same in Hd, Hm. destruct Hd as [Hd1 Hd2], Hm as [Hm1 Hm2].
  unfold buscar_horarios.
  rewrite Hd1, Hd2, Hm1, Hm2, Hh, Hc, Hn, Hf. reflexivity.
Qed.

Lemma engine_reads_folded_witness :
  same_reading
    (intent_of [("direccion", VList [VStr "IDA"; VStr "Vuelta"]);
                ("hora", VStr "ahora"); ("accion", VStr "salir")])
    intent_now /\
  buscar_horarios no_other (at_time 15 0) sample_store
    (intent_of [("direccion", VList [VStr "IDA"; VStr "Vuelta"]);
                ("hora", VStr "ahora"); ("accion", VStr "salir")]) =
  buscar_horarios no_other (at_time 15 0) sample_store intent_now.
Proof.
  split; [repeat split; reflexivity|].
  apply (engine_reads_folded no_other (at_time 15 0) sample_store).
  repeat split; reflexivity.
Defined.

(** X16. With a direction that some row of the store has, no line filter
    and a well-formed literal time [T]: the relation "antes_de" keeps the
    trips that have not left and arrive strictly before [T], "despues_de"
    those that arrive at [T] or later; every result is in ascending order
    of the distance between arrival and [T]; and with neither
    [fullListing] nor [requestedCount] every qualifying trip is
    returned. *)
Theorem before_after_selection re_other now df intent d s t :
  has_direction (lower d) df = true ->
  truthy (lineFilter intent) = false ->
  direction_of intent = VStr d -> truthy (VStr d) = true ->
  timeOfDay intent = VStr s -> strptime_HM s = Some t ->
  let T := combine now t in
  let closer := fun a b : TripRecord =>
    abs_diff (arrival now a) T <= abs_diff (arrival now b) T in
  let run := buscar_horarios re_other now df intent in
  (timeRelation intent = VStr "antes_de" ->
   let qualifying :=
     map trip_of (List.filter (arrives_before now T)
                    (upcoming now (lower d) df)) in
   (forall res, run = Ret res ->
      StronglySorted closer (MatchSet res) /\ incl (MatchSet res) qualifying) /\
   (truthy (fullListing intent) = false -> requestedCount intent = VNone ->
    exists res, run = Ret res /\ Permutation (MatchSet res) qualifying)) /\
  (timeRelation intent = VStr "despues_de" ->
   let qualifying :=
     map trip_of (List.filter (arrives_from now T)
                    (upcoming now (lower d) df)) in
   (forall res, run = Ret res ->
      StronglySorted closer (MatchSet res) /\ incl (MatchSet res) qualifying) /\
   (truthy (fullListing intent) = false -> requestedCount intent = VNone ->
    exists res, run = Ret res /\ Permutation (MatchSet res) qualifying)).
Proof.
  intros Hrow Hline Hdir Hd Hh Ht T closer run.
  pose proof (strptime_not_ahora s t Ht) as Hs.
  pose proof (has_direction_not_empty _ _ Hrow) as Hdf.
  split; intros Hr.
  - destruct (buscar_antes_de re_other now df intent d Hdf Hline Hdir Hd
                s t Hh Hs Ht Hrow Hr) as (c & Hc & Hm).
    unfold run. rewrite Hc. apply (cercanos_result now T). exact Hm.
  - destruct (buscar_despues_de re_other now df intent d Hdf Hline Hdir Hd
                s t Hh Hs Ht Hrow Hr) as (c & Hc & Hm).
    unfold run. rewrite Hc. apply (cercanos_result now T). exact Hm.
Qed.

Lemma before_after_selection_witness :
  (has_direction (lower "Ida") sample_store = true /\
   truthy (lineFilter intent_before) = false /\
   direction_of intent_before = VStr "Ida" /\
   truthy (VStr "Ida") = true /\
   timeOfDay intent_before = VStr "15:45" /\
   strptime_HM "15:45" = Some (hm 15 45) /\
   timeRelation intent_before = VStr "antes_de" /\
   truthy (fullListing intent_before) = false /\
   requestedCount intent_before = VNone) /\
  exists res,
    buscar_horarios no_other (at_time 14 0) sample_store intent_before =
      Ret res /\
    Permutation (MatchSet res)
      (map trip_of
         (List.filter
            (arrives_before (at_time 14 0) (combine (at_time 14 0) (hm 15 45)))
            (upcoming (at_time 14 0) (lower "Ida") sample_store))).
Proof.
  split; [repeat split; reflexivity|].
  destruct (before_after_selection no_other (at_time 14 0) sample_store
              intent_before "Ida" "15:45" (hm 15 45)
              eq_refl eq_refl eq_refl eq_refl eq_refl eq_refl) as [Hb _].
  destruct (Hb eq_refl) as [_ Hall].
  exact (Hall eq_refl eq_refl).
Defined.

Lemma relation_insert (intent : gmap string pyval) v :
  let i := <["condicion_horario" := v]> intent in
  lineFilter i = lineFilter intent /\
  direction_of i = direction_of intent /\
  timeOfDay i = timeOfDay intent /\
  timeRelation i = v /\
  requestedCount i = requestedCount intent /\
  fullListing i = fullListing intent.
Proof.
  unfold_fields. unfold dict_get, dict_get_default. cbn zeta.
  rewrite lookup_insert_eq.
  rewrite !lookup_insert_ne by discriminate. repeat split; reflexivity.
Qed.

(** X6. For a direction that some row of the store has and a well-formed
    time, with no count and no full listing: what "antes_de" returns and
    what "despues_de" returns, together, are the trips of the direction
    that have not left, each once; the two answers share no row of the
    store. *)
Theorem before_after_partition re_other now df intent d s t :
  has_direction (lower d) df = true ->
  truthy (lineFilter intent) = false ->
  direction_of intent = VStr d -> truthy (VStr d) = true ->
  timeOfDay intent = VStr s -> strptime_HM s = Some t ->
  truthy (fullListing intent) = false -> requestedCount intent = VNone ->
  exists before after,
    buscar_horarios re_other now df
      (<["condicion_horario" := VStr "antes_de"]> intent) = Ret before /\
    buscar_horarios re_other now df
      (<["condicion_horario" := VStr "despues_de"]> intent) = Ret after /\
    Permutation (MatchSet before ++ MatchSet after)
      (map trip_of (upcoming now (lower d) df)).
Proof.
  intros Hrow Hline Hdir Hd Hh Ht Hfl Hrc.
  pose proof (strptime_not_ahora s t Ht) as Hs.
  pose proof (has_direction_not_empty _ _ Hrow) as Hdf.
  destruct (relation_insert intent (VStr "antes_de"))
    as (A1 & A2 & A3 & A4 & A5 & A6).
  destruct (relation_insert intent (VStr "despues_de"))
    as (B1 & B2 & B3 & B4 & B5 & B6).
  cbn zeta in *.
  set (T := combine now t).
  set (U := upcoming now (lower d) df).
  rewrite <- A1 in Hline. rewrite <- A2 in Hdir. rewrite <- A3 in Hh.
  destruct (buscar_antes_de re_other now df _ d Hdf Hline Hdir Hd s t
              Hh Hs Ht Hrow A4) as (c1 & Hc1 & Hm1).
  rewrite A1, <- B1 in Hline. rewrite A2, <- B2 in Hdir.
  rewrite A3, <- B3 in Hh.
  destruct (buscar_despues_de re_other now df _ d Hdf Hline Hdir Hd s t
              Hh Hs Ht Hrow B4) as (c2 & Hc2 & Hm2).
  destruct (cercanos_result now T (fullListing intent)
              (requestedCount intent) c1 _ Hm1) as [_ P1].
  destruct (cercanos_result now T (fullListing intent)
              (requestedCount intent) c2 _ Hm2) as [_ P2].
  rewrite A5, A6 in Hc1. rewrite B5, B6 in Hc2.
  destruct (P1 Hfl Hrc) as (r1 & Hr1 & Hp1).
  destruct (P2 Hfl Hrc) as (r2 & Hr2 & Hp2).
  exists r1, r2. rewrite Hc1, Hc2. split; [exact Hr1|]. split; [exact Hr2|].
  eapply Permutation_trans; [apply Permutation_app; eassumption|].
  rewrite <- map_app. apply Permutation_map.
  apply filter_complement_Permutation. intros r. apply arrives_from_negb.
Qed.

Lemma before_after_partition_witness :
  exists before after,
    buscar_horarios no_other (at_time 14 0) sample_store
      (<["condicion_horario" := VStr "antes_de"]> intent_before) =
      Ret before /\
    buscar_horarios no_other (at_time 14 0) sample_store
      (<["condicion_horario" := VStr "despues_de"]> intent_before) =
      Ret after /\
    Permutation (MatchSet before ++ MatchSet after)
      (map trip_of (upcoming (at_time 14 0) (lower "Ida") sample_store)).
Proof.
  apply (before_after_partition no_other (at_time 14 0) sample_store
           intent_before "Ida" "15:45" (hm 15 45)); reflexivity.
Defined.

(** ** Times as text *)

Lemma digit_range c d : digit c = Some d -> 0 <= d <= 9.
Proof.
  unfold digit.
  destruct ((48 <=? N_of_ascii c)%N && (N_of_ascii c <=? 57)%N) eqn:E;
    [|discriminate].
  intros [= <-]. apply andb_true_iff in E. destruct E as [E1 E2].
  apply N.leb_le in E1, E2. lia.
Qed.

Lemma read_field_range bound s n rest :
  9 <= bound -> read_field bound s = Some (n, rest) -> 0 <= n <= bound.
Proof.
  intros Hb. unfold read_field.
  destruct s as [|c1 s1]; [discriminate|].
  destruct (digit c1) as [d1|] eqn:E1; [|discriminate].
  pose proof (digit_range _ _ E1) as R1.
  destruct s1 as [|c2 s2]; [intros [= <- <-]; lia|].
  destruct (digit c2) as [d2|] eqn:E2; [|intros [= <- <-]; lia].
  pose proof (digit_range _ _ E2) as R2.
  destruct (10 * d1 + d2 <=? bound) eqn:E; intros [= <- <-]; [|lia].
  apply Z.leb_le in E. lia.
Qed.

(** What [strptime] accepts is a time of the day, to the minute. *)
Lemma strptime_HM_range s t :
  strptime_HM s = Some t ->
  0 <= hour t <= 23 /\ 0 <= minute t <= 59 /\
  second t = 0 /\ microsecond t = 0.
Proof.
  unfold strptime_HM.
  destruct (read_field 23 s) as [[h r]|] eqn:E1; [|discriminate].
  destruct r as [|c s1]; [discriminate|].
  destruct (Ascii.eqb_spec c ":") as [->|N].
  2:{ destruct c as [[] [] [] [] [] [] [] []]; try discriminate.
      contradiction N; reflexivity. }
  destruct (read_field 59 s1) as [[m r]|] eqn:E2; [|discriminate].
  destruct r; [|discriminate]. intros [= <-].
  cbn [hour minute second microsecond].
  apply read_field_range in E1, E2; try lia.
Qed.

Lemma round_trip_all :
  forallb (fun h => forallb (round_trip_ok h) (seq 0 60)) (seq 0 24) = true.
Proof. vm_compute. reflexivity. Qed.

Lemma strftime_strptime_hm h m :
  0 <= h <= 23 -> 0 <= m <= 59 ->
  strptime_HM (strftime_HM (hm h m)) = Some (hm h m).
Proof.
  intros Hh Hm. pose proof round_trip_all as A.
  rewrite forallb_forall in A.
  specialize (A (Z.to_nat h)). rewrite forallb_forall in A.
  assert (Hin : In (Z.to_nat h) (seq 0 24)) by (apply in_seq; lia).
  specialize (A Hin (Z.to_nat m)).
  assert (Hin' : In (Z.to_nat m) (seq 0 60)) by (apply in_seq; lia).
  specialize (A Hin'). unfold round_trip_ok in A.
  rewrite !Z2Nat.id in A by lia.
  destruct (strptime_HM (strftime_HM (hm h m))) as [[a b c e]|];
    [|discriminate A].
  cbn [hour minute second microsecond] in A.
  apply andb_true_iff in A. destruct A as [A A4].
  apply andb_true_iff in A. destruct A as [A A3].
  apply andb_true_iff in A. destruct A as [A1 A2].
  apply Z.eqb_eq in A1, A2, A3, A4. subst. reflexivity.
Qed.

(** X7. The time the handler prints ([strftime('%H:%M')], lines 235-236)
    is a time the engine reads back ([strptime(..., '%H:%M')], line 106):
    for every time of the day, parsing the printed text gives the time to
    the minute; and every text the engine accepts denotes a time that
    prints and parses back to itself. *)
Theorem printed_time_reads_back :
  (forall t, 0 <= hour t <= 23 -> 0 <= minute t <= 59 ->
     strptime_HM (strftime_HM t) = Some (hm (hour t) (minute t))) /\
  (forall s t, strptime_HM s = Some t ->
     strptime_HM (strftime_HM t) = Some t).
Proof.
  split.
  - intros [h m s u] Hh Hm. cbn [hour minute] in *.
    exact (strftime_strptime_hm h m Hh Hm).
  - intros s [h m s' u] H. apply strptime_HM_range in H.
    cbn [hour minute second microsecond] in H.
    destruct H as (Hh & Hm & -> & ->).
    exact (strftime_strptime_hm h m Hh Hm).
Qed.

Lemma printed_time_reads_back_witness :
  strptime_HM (strftime_HM (mk_time 9 5 30 0)) = Some (hm 9 5) /\
  strptime_HM (strftime_HM (hm 9 5)) = Some (hm 9 5).
Proof.
  destruct printed_time_reads_back as [H1 H2]. split.
  - apply (H1 (mk_time 9 5 30 0)); simpl; lia.
  - apply (H2 "9:5" (hm 9 5)). reflexivity.
Defined.

(** ** The conversation handler *)

Lemma upto_brace_spec s b :
  upto_brace s = Some b <->
  exists body post,
    s = body +:+ "}" +:+ post /\ b = body +:+ "}" /\
    mem_char "}" body = false.
Proof.
  revert b. induction s as [|c s IH]; intros b; cbn [upto_brace].
  - split; [discriminate|].
    intros (body & post & H & _). destruct body; discriminate H.
  - destruct (Ascii.eqb_spec c "}") as [->|N].
    + split.
      * intros [= <-]. exists "", s. repeat split.
      * intros (body & post & H & -> & Hm).
        destruct body as [|c' body]; [reflexivity|].
        injection H as <- _. cbn [mem_char] in Hm.
        rewrite Ascii.eqb_refl in Hm. discriminate Hm.
    + split.
      * destruct (upto_brace s) as [b'|] eqn:E; [|discriminate].
        intros [= <-]. destruct (proj1 (IH b') eq_refl)
          as (body & post & -> & -> & Hm).
        exists (String c body), post. repeat split.
        cbn [mem_char]. rewrite Hm.
        destruct (Ascii.eqb_spec "}" c) as [<-|_];
          [contradiction N; reflexivity|reflexivity].
      * intros (body & post & H & -> & Hm).
        destruct body as [|c' body].
        { injection H as -> _. contradiction N; reflexivity. }
        injection H as <- ->. cbn [mem_char] in Hm.
        apply orb_false_iff in Hm. destruct Hm as [_ Hm].
        rewrite (proj2 (IH (body +:+ "}"))); [reflexivity|].
        exists body, post. repeat split. exact Hm.
Qed.

(** X8. The object the handler cuts out of the response (line 205): the
    text from the first opening brace to the first closing brace after
    it, when there is one; nothing when no closing brace follows an
    opening brace. *)
Theorem extract_json_spec text j :
  extract_json text = Some j <->
  exists pre body post,
    text = pre +:+ "{" +:+ body +:+ "}" +:+ post /\
    j = "{" +:+ body +:+ "}" /\
    mem_char "{" pre = false /\ mem_char "}" body = false.
Proof.
  revert j. induction text as [|c s IH]; intros j; cbn [extract_json].
  - split; [discriminate|].
    intros (pre & body & post & H & _). destruct pre; discriminate H.
  - destruct (Ascii.eqb_spec c "{") as [->|N].
    + split.
      * destruct (upto_brace s) as [b|] eqn:E; [|discriminate].
        intros [= <-]. apply upto_brace_spec in E.
        destruct E as (body & post & -> & -> & Hm).
        exists "", body, post. repeat split. exact Hm.
      * intros (pre & body & post & H & -> & Hp & Hm).
        destruct pre as [|c' pre].
        -- injection H as ->.
           rewrite (proj2 (upto_brace_spec _ (body +:+ "}")));
             [reflexivity|].
           exists body, post. repeat split. exact Hm.
        -- injection H as <- _. cbn [mem_char] in Hp.
           rewrite Ascii.eqb_refl in Hp. discriminate Hp.
    + rewrite IH. split.
      * intros (pre & body & post & -> & -> & Hp & Hm).
        exists (String c pre), body, post. repeat split; [|exact Hm].
        cbn [mem_char]. rewrite Hp.
        destruct (Ascii.eqb_spec "{" c) as [<-|_];
          [contradiction N; reflexivity|reflexivity].
      * intros (pre & body & post & H & -> & Hp & Hm).
        destruct pre as [|c' pre].
        { injection H as -> _. contradiction N; reflexivity. }
        injection H as <- ->. cbn [mem_char] in Hp.
        apply orb_false_iff in Hp. destruct Hp as [_ Hp].
        exists pre, body, post. repeat split; assumption.
Qed.

(** X9. Whatever the language model and [json.loads] do, the handler
    answers a message with exactly one reply; it asks the language model
    once, before the reply, unless the table is empty, and then it does
    not ask; and it marks the reply as Markdown only when the reply is the
    listing of a non-empty frame the engine returned. *)
Theorem handle_message_replies_once re_other gemini json_loads now df msg :
  exists text md,
    handle_message re_other gemini json_loads now df msg =
      (if empty df then [] else [Ask (prompt_of msg)]) ++ [Reply text md] /\
    (md = true ->
     exists intent res header,
       buscar_horarios re_other now df intent = Ret res /\
       empty res = false /\ header_text intent = Ret header /\
       text = format_listing header res).
Proof.
  unfold handle_message.
  destruct (empty df).
  { eexists _, _. split; [reflexivity|discriminate]. }
  destruct (gemini (prompt_of msg)) as [| |r].
  - eexists _, _. split; [reflexivity|discriminate].
  - eexists _, _. split; [reflexivity|discriminate].
  - destruct (negb (truthy (VStr r))).
    { eexists _, _. split; [reflexivity|discriminate]. }
    unfold process_response.
    destruct (extract_json r) as [j|].
    2:{ eexists _, _. split; [reflexivity|discriminate]. }
    destruct (json_loads (replace_nbsp j)) as [intent|].
    2:{ eexists _, _. split; [reflexivity|discriminate]. }
    destruct (has_error intent ||
              negb (truthy (dict_get intent "direccion")) &&
              negb (truthy (dict_get intent "micro_linea"))).
    { eexists _, _. split; [reflexivity|discriminate]. }
    destruct (buscar_horarios re_other now df intent) as [res|e] eqn:Hres.
    2:{ eexists _, _. split; [reflexivity|discriminate]. }
    destruct (empty res) eqn:He.
    { eexists _, _. split; [reflexivity|discriminate]. }
    destruct (header_text intent) as [h|e] eqn:Hh.
    2:{ eexists _, _. split; [reflexivity|discriminate]. }
    eexists _, _. split; [reflexivity|]. intros _.
    exists intent, res, h. repeat split; assumption.
Qed.

(** Past the guard of line 212, the reply is decided by the engine and
    the header. *)
Lemma handle_message_parsed re_other gemini json_loads now df msg intent :
  empty df = false ->
  resolves_to gemini json_loads msg intent ->
  has_error intent = false ->
  truthy (dict_get intent "direccion") ||
  truthy (dict_get intent "micro_linea") = true ->
  handle_message re_other gemini json_loads now df msg =
    [Ask (prompt_of msg);
     match buscar_horarios re_other now df intent with
     | Raise _ => Reply msg_internal_error false
     | Ret res =>
         if empty res then Reply msg_no_results false
         else match header_text intent with
              | Raise _ => Reply msg_internal_error false
              | Ret header => Reply (format_listing header res) true
              end
     end].
Proof.
  intros Hdf (r & j & Hr & Hj & Hi) He Hg.
  unfold handle_message. rewrite Hdf, Hr.
  assert (Hne : negb (truthy (VStr r)) = false).
  { destruct r; [discriminate Hj|reflexivity]. }
  rewrite Hne. unfold process_response. rewrite Hj, Hi, He.
  assert (Hg' : negb (truthy (dict_get intent "direccion")) &&
                negb (truthy (dict_get intent "micro_linea")) = false).
  { rewrite <- negb_orb, Hg. reflexivity. }
  rewrite Hg'. cbn [orb].
  destruct (buscar_horarios re_other now df intent) as [res|e];
    [|reflexivity].
  destruct (empty res); [reflexivity|].
  destruct (header_text intent); reflexivity.
Qed.

Lemma guard_direction intent d :
  direction_of intent = VStr d -> truthy (VStr d) = true ->
  truthy (dict_get intent "direccion") ||
  truthy (dict_get intent "micro_linea") = true.
Proof.
  unfold direction_of. intros H Ht.
  assert (T : truthy (dict_get intent "direccion") = true).
  { destruct (dict_get intent "direccion") as [| | | |[|x l]|];
      cbn [first_if_list] in H; try discriminate H.
    - injection H as ->. exact Ht.
    - reflexivity. }
  rewrite T. reflexivity.
Qed.

(** X10. A request for a trip near a time, made when every trip of the
    direction has left: the engine's [KeyError] (line 127) is caught by
    the handler's last [except], and the user is told of an internal
    error, not that no trip was found. *)
Theorem near_without_candidate_reply re_other gemini json_loads now df msg
    intent d s t :
  empty df = false ->
  resolves_to gemini json_loads msg intent ->
  has_error intent = false ->
  truthy (lineFilter intent) = false ->
  direction_of intent = VStr d -> truthy (VStr d) = true ->
  timeOfDay intent = VStr s -> strptime_HM s = Some t ->
  timeRelation intent = VStr "cerca" ->
  upcoming now (lower d) df = [] ->
  handle_message re_other gemini json_loads now df msg =
    [Ask (prompt_of msg); Reply msg_internal_error false].
Proof.
  intros Hdf Hres He Hline Hdir Hd Hh Ht Hrel HU.
  rewrite (handle_message_parsed re_other gemini json_loads now df msg
             intent Hdf Hres He (guard_direction intent d Hdir Hd)).
  pose proof (strptime_not_ahora s t Ht) as Hs.
  destruct (buscar_cerca re_other now df intent d Hdf Hline Hdir Hd
              s t Hh Hs Ht Hrel) as [H _].
  rewrite (H HU). reflexivity.
Qed.

Lemma falsy_not_ahora v : truthy v = false -> eq_str v "ahora" = false.
Proof.
  destruct v as [| | |s| |]; try reflexivity.
  destruct s; [reflexivity|discriminate].
Qed.

(** X11. A direction with no time of the day, or with a time that
    [strptime] rejects, and no line filter: the engine returns an empty
    frame (lines 157-160) and the handler answers that no trip was
    found. *)
Theorem direction_without_time_reply re_other gemini json_loads now df msg
    intent d :
  empty df = false ->
  resolves_to gemini json_loads msg intent ->
  has_error intent = false ->
  truthy (lineFilter intent) = false ->
  direction_of intent = VStr d -> truthy (VStr d) = true ->
  truthy (timeOfDay intent) = false \/
  (exists s, timeOfDay intent = VStr s /\ String.eqb s "ahora" = false /\
             strptime_HM s = None) ->
  handle_message re_other gemini json_loads now df msg =
    [Ask (prompt_of msg); Reply msg_no_results false].
Proof.
  intros Hdf Hres He Hline Hdir Hd Hh.
  rewrite (handle_message_parsed re_other gemini json_loads now df msg
             intent Hdf Hres He (guard_direction intent d Hdir Hd)).
  destruct Hh as [Hh|(s & Hh & Hs & Hp)].
  - rewrite (buscar_no_time re_other now df intent d Hdf Hline Hdir Hd
               (falsy_not_ahora _ Hh) Hh).
    reflexivity.
  - rewrite (buscar_bad_time re_other now df intent d Hdf Hline Hdir Hd
               s Hh Hs Hp).
    reflexivity.
Qed.

(** X12. The engine takes the first element of a direction given as a
    list (lines 67-68); the header of the listing reads the field as it
    came (line 224) and calls [.lower()] on the list.  So a direction
    given as a list never gets its listing: whenever the engine finds
    trips, the user is told of an internal error. *)
Theorem list_direction_reply re_other gemini json_loads now df msg intent
    v l res :
  empty df = false ->
  resolves_to gemini json_loads msg intent ->
  has_error intent = false ->
  dict_get intent "direccion" = VList (v :: l) ->
  buscar_horarios re_other now df intent = Ret res ->
  empty res = false ->
  handle_message re_other gemini json_loads now df msg =
    [Ask (prompt_of msg); Reply msg_internal_error false].
Proof.
  intros Hdf Hrs He Hd Hres Hne.
  assert (Hg : truthy (dict_get intent "direccion") ||
               truthy (dict_get intent "micro_linea") = true)
    by (rewrite Hd; reflexivity).
  rewrite (handle_message_parsed re_other gemini json_loads now df msg
             intent Hdf Hrs He Hg), Hres, Hne.
  unfold header_text. rewrite Hd. reflexivity.
Qed.

Lemma header_text_cases intent h :
  header_text intent = Ret h ->
  (h = header_generic) \/
  (exists d, dict_get intent "direccion" = VStr d /\ truthy (VStr d) = true /\
             ((h = header_ida /\ lower d = "ida") \/
              (h = header_vuelta /\ lower d = "vuelta"))).
Proof.
  unfold header_text.
  destruct (truthy (dict_get intent "direccion")) eqn:T.
  2:{ intros [= <-]. left. reflexivity. }
  destruct (dict_get intent "direccion") as [| | |d| |]; try discriminate.
  cbn [py_lower mbind outcome_bind].
  destruct (String.eqb_spec (lower d) "ida") as [E|_].
  { intros [= <-]. right. exists d. auto. }
  destruct (String.eqb_spec (lower d) "vuelta") as [E|_].
  { intros [= <-]. right. exists d. auto. }
  intros [= <-]. left. reflexivity.
Qed.

(** X13. The header and the listing agree: when the header names the way
    Rivadavia -> Facultad, every trip the engine returned for the same
    intent has the direction "ida", case folded; when it names the way
    back, "vuelta". *)
Theorem header_agrees_with_trips re_other now df intent h res :
  header_text intent = Ret h ->
  buscar_horarios re_other now df intent = Ret res ->
  (h = header_ida ->
   forall tr, In tr (MatchSet res) ->
     exists s, direction tr = Some s /\ lower s = "ida") /\
  (h = header_vuelta ->
   forall tr, In tr (MatchSet res) ->
     exists s, direction tr = Some s /\ lower s = "vuelta").
Proof.
  intros Hh Hres.
  destruct (header_text_cases intent h Hh)
    as [->|(d & Hd & Ht & [[-> El]|[-> El]])].
  - split; intros E; vm_compute in E; discriminate E.
  - split; [|intros E; vm_compute in E; discriminate E].
    intros _ tr Htr. rewrite <- El.
    destruct (results_pass_direction re_other now df intent d res
                ltac:(unfold direction_of; rewrite Hd; reflexivity)
                Ht Hres tr Htr) as (r & <- & Hr).
    apply direccion_is_trip. exact Hr.
  - split; [intros E; vm_compute in E; discriminate E|].
    intros _ tr Htr. rewrite <- El.
    destruct (results_pass_direction re_other now df intent d res
                ltac:(unfold direction_of; rewrite Hd; reflexivity)
                Ht Hres tr Htr) as (r & <- & Hr).
    apply direccion_is_trip. exact Hr.
Qed.

Lemma near_without_candidate_reply_witness :
  handle_message no_other (answers json_near) sample_json_loads
    (at_time 16 0) sample_store "quiero llegar a las 15:25" =
  [Ask (prompt_of "quiero llegar a las 15:25");
   Reply msg_internal_error false].
Proof.
  apply (near_without_candidate_reply no_other (answers json_near)
           sample_json_loads (at_time 16 0) sample_store
           "quiero llegar a las 15:25" intent_near "Ida" "15:25" (hm 15 25));
    try reflexivity.
  exists (fenced json_near), json_near. repeat split; reflexivity.
Defined.

Lemma direction_without_time_reply_witness :
  handle_message no_other (answers json_bad_time) sample_json_loads
    (at_time 14 0) sample_store "a la facultad a las 25" =
  [Ask (prompt_of "a la facultad a las 25"); Reply msg_no_results false].
Proof.
  apply (direction_without_time_reply no_other (answers json_bad_time)
           sample_json_loads (at_time 14 0) sample_store
           "a la facultad a las 25" intent_bad_time "Ida");
    try reflexivity.
  - exists (fenced json_bad_time), json_bad_time.
    repeat split; reflexivity.
  - right. exists "25:00". repeat split; reflexivity.
Defined.

Lemma list_direction_reply_witness :
  exists res,
    (buscar_horarios no_other (at_time 15 0) sample_store
       intent_list_direction = Ret res /\
     empty res = false) /\
    handle_message no_other (answers json_list_direction) sample_json_loads
      (at_time 15 0) sample_store "a la facultad ya" =
    [Ask (prompt_of "a la facultad ya"); Reply msg_internal_error false].
Proof.
  eexists. split; [split; vm_compute; reflexivity|].
  eapply (list_direction_reply no_other (answers json_list_direction)
            sample_json_loads (at_time 15 0) sample_store
            "a la facultad ya" intent_list_direction (VStr "Ida") []);
    try (vm_compute; reflexivity).
  exists (fenced json_list_direction), json_list_direction.
  repeat split; reflexivity.
Defined.

Lemma header_agrees_with_trips_witness :
  exists res,
    (header_text intent_now = Ret header_ida /\
     buscar_horarios no_other (at_time 15 0) sample_store intent_now =
       Ret res) /\
    forall tr, In tr (MatchSet res) ->
      exists s, direction tr = Some s /\ lower s = "ida".
Proof.
  eexists. split; [split; vm_compute; reflexivity|].
  refine (proj1 (header_agrees_with_trips no_other (at_time 15 0)
                   sample_store intent_now header_ida _ _ _) eq_refl);
    vm_compute; reflexivity.
Defined.

(** ** The count *)

Lemma slice_to_map {A B} (f : A -> B) n (l : list A) :
  slice_to n (map f l) = map f (slice_to n l).
Proof.
  unfold slice_to. rewrite length_map.
  destruct (0 <=? n); apply firstn_map.
Qed.

Lemma listing_insert (intent : gmap string pyval) v :
  let i := <["listado_completo" := v]> intent in
  lineFilter i = lineFilter intent /\
  direction_of i = direction_of intent /\
  timeOfDay i = timeOfDay intent /\
  timeRelation i = timeRelation intent /\
  requestedCount i = requestedCount intent /\
  fullListing i = v.
Proof.
  unfold_fields. unfold dict_get, dict_get_default. cbn zeta.
  rewrite lookup_insert_eq.
  rewrite !lookup_insert_ne by discriminate. repeat split; reflexivity.
Qed.

Lemma policy_slice fl n c1 c2 :
  truthy fl = false ->
  MatchSet c1 = MatchSet c2 ->
  exists res,
    cercanos_policy fl (VInt n) c1 = Ret res /\
    cercanos_policy (VBool true) (VInt n) c2 = Ret c2 /\
    MatchSet res = slice_to n (MatchSet c2).
Proof.
  intros Hfl H. unfold cercanos_policy. rewrite Hfl.
  eexists. split; [reflexivity|]. split; [reflexivity|].
  rewrite <- H. unfold MatchSet. cbn [rows]. symmetry. apply slice_to_map.
Qed.

(** X14. In the branches that count ("ahora", and "antes_de" and
    "despues_de" for a direction that some row of the store has), a count
    [n] returns the slice [[:n]] of what the full listing returns for the
    same question: its first [n] trips for [n >= 0], none for [n = 0],
    and all but the last [-n] for a negative [n]. *)
Theorem count_is_slice re_other now df intent d n :
  truthy (lineFilter intent) = false ->
  direction_of intent = VStr d -> truthy (VStr d) = true ->
  timeOfDay intent = VStr "ahora" \/
  (exists s t, timeOfDay intent = VStr s /\ strptime_HM s = Some t /\
     (timeRelation intent = VStr "antes_de" \/
      timeRelation intent = VStr "despues_de") /\
     has_direction (lower d) df = true) ->
  truthy (fullListing intent) = false ->
  requestedCount intent = VInt n ->
  exists res full,
    buscar_horarios re_other now df intent = Ret res /\
    buscar_horarios re_other now df
      (<["listado_completo" := VBool true]> intent) = Ret full /\
    MatchSet res = slice_to n (MatchSet full).
Proof.
  intros Hline Hdir Hd Hh Hfl Hrc.
  destruct (empty df) eqn:Hdf.
  { exists DataFrame_new, DataFrame_new.
    rewrite !buscar_empty_store by assumption.
    repeat split. unfold slice_to. cbn [MatchSet DataFrame_new rows map].
    destruct (0 <=? n); rewrite firstn_nil; reflexivity. }
  destruct (listing_insert intent (VBool true))
    as (A1 & A2 & A3 & A4 & A5 & A6).
  cbn zeta in *.
  set (i' := <["listado_completo" := VBool true]> intent) in *.
  assert (Hline' : truthy (lineFilter i') = false) by (rewrite A1; exact Hline).
  assert (Hdir' : direction_of i' = VStr d) by (rewrite A2; exact Hdir).
  destruct Hh as [Hh|(s & t & Hh & Ht & Hrel & Hrow)].
  - assert (Hh' : timeOfDay i' = VStr "ahora") by (rewrite A3; exact Hh).
    rewrite (buscar_ahora re_other now df intent d Hdf Hline Hdir Hd Hh).
    rewrite (buscar_ahora re_other now df i' d Hdf Hline' Hdir' Hd Hh').
    rewrite sort_salida_df_filtrado. cbn [mbind outcome_bind].
    rewrite Hfl, Hrc, A6. cbn [truthy is_not_None head].
    eexists _, _. split; [reflexivity|]. split; [reflexivity|].
    unfold MatchSet. cbn [rows]. symmetry. apply slice_to_map.
  - assert (Hh' : timeOfDay i' = VStr s) by (rewrite A3; exact Hh).
    pose proof (strptime_not_ahora s t Ht) as Hs.
    destruct Hrel as [Hrel|Hrel].
    + assert (Hrel' : timeRelation i' = VStr "antes_de")
        by (rewrite A4; exact Hrel).
      destruct (buscar_antes_de re_other now df intent d Hdf Hline Hdir Hd
                  s t Hh Hs Ht Hrow Hrel) as (c1 & Hc1 & Hm1).
      destruct (buscar_antes_de re_other now df i' d Hdf Hline' Hdir' Hd
                  s t Hh' Hs Ht Hrow Hrel') as (c2 & Hc2 & Hm2).
      rewrite Hc1, Hc2, Hrc, A5, A6, Hrc.
      destruct (policy_slice (fullListing intent) n c1 c2 Hfl)
        as (res & R1 & R2 & R3); [congruence|].
      exists res, c2. auto.
    + assert (Hrel' : timeRelation i' = VStr "despues_de")
        by (rewrite A4; exact Hrel).
      destruct (buscar_despues_de re_other now df intent d Hdf Hline Hdir Hd
                  s t Hh Hs Ht Hrow Hrel) as (c1 & Hc1 & Hm1).
      destruct (buscar_despues_de re_other now df i' d Hdf Hline' Hdir' Hd
                  s t Hh' Hs Ht Hrow Hrel') as (c2 & Hc2 & Hm2).
      rewrite Hc1, Hc2, Hrc, A5, A6, Hrc.
      destruct (policy_slice (fullListing intent) n c1 c2 Hfl)
        as (res & R1 & R2 & R3); [congruence|].
      exists res, c2. auto.
Qed.

Lemma count_is_slice_witness :
  exists res full,
    buscar_horarios no_other (at_time 14 0) sample_store
      (<["listado_completo" := VBool false]>
         (<["cantidad" := VInt (-1)]> intent_now)) = Ret res /\
    buscar_horarios no_other (at_time 14 0) sample_store
      (<["listado_completo" := VBool true]>
         (<["listado_completo" := VBool false]>
            (<["cantidad" := VInt (-1)]> intent_now))) = Ret full /\
    MatchSet res = slice_to (-1) (MatchSet full).
Proof.
  apply (count_is_slice no_other (at_time 14 0) sample_store
           (<["listado_completo" := VBool false]>
              (<["cantidad" := VInt (-1)]> intent_now)) "Ida" (-1));
    try reflexivity.
  left. reflexivity.
Defined.

(** X15. The "cerca" branch reads neither the count nor the listing flag
    (lines 109-127): two intents that ask the same question near a
    literal time have the same outcome whatever their [cantidad] and
    [listado_completo]. *)
Theorem near_ignores_count re_other now df i1 i2 :
  same_query i1 i2 ->
  timeRelation i1 = VStr "cerca" ->
  eq_str (timeOfDay i1) "ahora" = false ->
  buscar_horarios re_other now df i1 = buscar_horarios re_other now df i2.
Proof.
  intros (Hm & Hd & Hh & Hr) Hc Ha. unfold_fields.
  unfold buscar_horarios. rewrite Hm, Hd, Hh, Hr, Hc, Ha.
  destruct (empty df); [reflexivity|].
  destruct (truthy (first_if_list (dict_get i1 "micro_linea")));
    [reflexivity|].
  destruct (negb (truthy (first_if_list (dict_get i1 "direccion"))));
    [reflexivity|].
  destruct (py_lower (first_if_list (dict_get i1 "direccion")));
    [|reflexivity].
  cbn [mbind outcome_bind].
  destruct (truthy (dict_get i1 "hora")); [|reflexivity].
  destruct (py_strptime (dict_get i1 "hora")); reflexivity.
Qed.

Lemma near_ignores_count_witness :
  buscar_horarios no_other (at_time 14 0) sample_store intent_near =
  buscar_horarios no_other (at_time 14 0) sample_store
    (<["cantidad" := VInt 1]>
       (<["listado_completo" := VBool true]> intent_near)).
Proof.
  apply (near_ignores_count no_other (at_time 14 0) sample_store);
    [repeat split; reflexivity|reflexivity|reflexivity].
Defined.
